(** * AliGn: trace storage, trigger plugins and the batch aligner

    A shallow embedding of the trace-processing pipeline of AliGn
    ([align/align_trace_data.py], [align/tracelib/traces.py],
    [align/tracelib/dsp.py], [align/tracelib/helperFunctions.py],
    [align/trigger/*.py], [align/filter/*.py], [align/batch_processing.py],
    [align/helpers.py] and the interactive path of [align/model.py])
    together with the properties the specification states about it and
    further properties of the code.

    Conventions of the embedding:
    - a trace (one row of a channel) is a [list Z]; the sample type of the
      shipped test data is a signed integer type, and thresholds are taken
      as integers as well;
    - Python exceptions are the constructors of [exn]; a function that may
      raise returns a [result];
    - Python's [None] is Rocq's [None]: a dict key that may be absent and a
      value that may be [None] are both options;
    - [OrderedDict]s that are iterated in order are association lists, the
      parameter dict handed to a plugin is a [gmap];
    - the logger is the append-only list [logged] where a claim mentions a
      warning. *)

From Stdlib Require Import ZArith Lia Ascii String.
From stdpp Require Import gmap strings list.

Local Open Scope Z_scope.

(** ** Python preliminaries *)

Module Py.

Inductive exn : Set :=
| KeyError
| ValueError
| IndexError
| TypeError
| AttributeError.

Inductive result (A : Type) : Type :=
| Ok (a : A)
| Raise (e : exn).
Arguments Ok {A} a.
Arguments Raise {A} e.

Definition bind {A B : Type} (r : result A) (k : A → result B) : result B :=
  match r with
  | Ok a => k a
  | Raise e => Raise e
  end.

(** [x ← r; k] runs [k] on the value of [r] and propagates what [r]
    raises. *)
#[export] Instance result_bind : MBind result := λ A B k r, bind r k.

(** A parameter value as the parameter tree delivers it: [value[0]] of
    the [(value, children)] tuple. *)
Inductive value : Set :=
| VBool (b : bool)
| VInt (z : Z).

(** Python's [bool(v)]. *)
Definition truthy (v : value) : bool :=
  match v with
  | VBool b => b
  | VInt z => negb (z =? 0)
  end.

(** A value used as a number ([True] is [1], [False] is [0]). *)
Definition as_int (v : value) : Z :=
  match v with
  | VBool true => 1
  | VBool false => 0
  | VInt z => z
  end.

(** [d[key][0]] on a parameter dict: a [KeyError] when the key is absent. *)
Definition param (d : gmap string value) (key : string) : result value :=
  match d !! key with
  | Some v => Ok v
  | None => Raise KeyError
  end.

Definition len {A : Type} (l : list A) : Z := Z.of_nat (length l).

(** How a slice bound is normalised: a negative bound counts from the
    end, and every bound is clipped to [0, len]. *)
Definition clip (n i : Z) : Z :=
  if i <? 0 then Z.max (i + n) 0 else Z.min i n.

(** [l[start:stop]]. *)
Definition slice {A : Type} (l : list A) (start stop : Z) : list A :=
  let s := clip (len l) start in
  let e := clip (len l) stop in
  take (Z.to_nat (e - s)) (drop (Z.to_nat s) l).

(** [l[start:]], where [start] may be [None]. *)
Definition slice_from {A : Type} (l : list A) (start : option Z) : list A :=
  match start with
  | None => l
  | Some s => slice l s (len l)
  end.

(** [l[i]] for an integer [i]: negative indices count from the end. *)
Definition getitem {A : Type} (l : list A) (i : Z) : result A :=
  let j := if i <? 0 then i + len l else i in
  if j <? 0 then Raise IndexError
  else match l !! Z.to_nat j with
       | Some x => Ok x
       | None => Raise IndexError
       end.

(** [numpy.ndarray.resize(a, n)] on a one-dimensional array that owns its
    data: the first [n] elements are kept and the array is extended with
    zeros. *)
Definition resize (a : list Z) (n : Z) : result (list Z) :=
  if n <? 0 then Raise ValueError
  else Ok (take (Z.to_nat n) a ++ replicate (Z.to_nat n - length a)%nat 0).

(** The bounds of [l[start:stop]] for a list of [n] elements, where a
    bound may be left out ([None]). *)
Definition slice_bounds (n : Z) (start stop : option Z) : Z * Z :=
  (match start with Some s => clip n s | None => 0 end,
   match stop with Some e => clip n e | None => n end).

(** [l[start:stop]] with optional bounds. *)
Definition slice_opt {A : Type} (l : list A) (start stop : option Z) : list A :=
  let '(s, e) := slice_bounds (len l) start stop in
  take (Z.to_nat (e - s)) (drop (Z.to_nat s) l).



End Py.

Import Py.

Abbreviation trace := (list Z) (only parsing).
Abbreviation params := (gmap string value) (only parsing).

(** ** Signal-processing helpers ([align/tracelib/dsp.py]) *)

Module Dsp.

(** [numpy.argmax] of a boolean array: the index of the first [True], [0]
    when there is none, and a [ValueError] on an empty array. *)
Fixpoint first_true (bs : list bool) (i : Z) : Z :=
  match bs with
  | [] => 0
  | b :: bs' => if b then i else first_true bs' (i + 1)
  end.

Definition argmax (bs : list bool) : result Z :=
  match bs with
  | [] => Raise ValueError
  | _ => Ok (first_true bs 0)
  end.

(** [x += offset] where [offset] may be [None]. *)
Definition add_offset (x : Z) (offset : option Z) : result Z :=
  match offset with
  | Some o => Ok (x + o)
  | None => Raise TypeError
  end.

Definition matchRisingEdge (tr : trace) (offset : option Z) (threshold : Z)
  : result Z :=
  x ← argmax ((fun v => threshold <? v) <$> slice_from tr offset);
  if negb (x =? 0) then add_offset x offset else Ok x.

Definition matchFallingEdge (tr : trace) (offset : option Z) (threshold : Z)
  : result Z :=
  x ← argmax ((fun v => v <? threshold) <$> slice_from tr offset);
  if negb (x =? 0) then add_offset x offset else Ok x.

(** The loop of [findFirstPeak]; [fuel] is the number of iterations that
    are left, [len(trace) - i]. Every index read is inside the trace, so
    the default of [at_] is never used. *)
Definition at_ (tr : trace) (i : Z) : Z := default 0 (tr !! Z.to_nat i).

Definition meets (threshold : option Z) (findMax : bool) (v : Z) : bool :=
  match threshold with
  | None => true
  | Some t => if findMax then t <=? v else v <=? t
  end.

Fixpoint findFirstPeak_loop (tr : trace) (minDist : Z) (threshold : option Z)
    (findMax : bool) (fuel : nat) (i : Z) (hasPeak : bool) (peakPos : Z)
  : bool * Z :=
  match fuel with
  | O => (hasPeak, peakPos)
  | S fuel' =>
      let continue_ := findFirstPeak_loop tr minDist threshold findMax fuel' (i + 1) in
      if findMax && (at_ tr peakPos <? at_ tr i) then
        if meets threshold findMax (at_ tr i) then continue_ true i
        else continue_ hasPeak peakPos
      else if negb findMax && (at_ tr i <? at_ tr peakPos) then
        if meets threshold findMax (at_ tr i) then continue_ true i
        else continue_ hasPeak peakPos
      else if hasPeak && (minDist <? i - peakPos) then (hasPeak, peakPos)
      else continue_ hasPeak peakPos
  end.

(** Returns [None] or the pair [peakPos, trace[peakPos]]. *)
Definition findFirstPeak (tr : trace) (minDist : Z) (threshold : option Z)
    (findMax : bool) : option (Z * Z) :=
  let '(hasPeak, peakPos) :=
    findFirstPeak_loop tr minDist threshold findMax (length tr) 0 false 0 in
  if hasPeak then Some (peakPos, at_ tr peakPos) else None.

Definition findLastPeak (tr : trace) (minDist : Z) (threshold : option Z)
    (findMax : bool) : option (Z * Z) :=
  match findFirstPeak (reverse tr) minDist threshold findMax with
  | Some (pos, v) => Some (len tr - 1 - pos, v)
  | None => None
  end.


(** [numpy.argmax] and [numpy.argmin] of an array of numbers: the index
    of the first occurrence of the extreme value, a [ValueError] on an
    empty array. [best] is the index found so far, [i] the index of the
    head of [rest]. *)
Fixpoint arg_extreme_from (better : Z → Z → bool) (rest : list Z)
    (i best : Z) (best_value : Z) : Z :=
  match rest with
  | [] => best
  | v :: rest' =>
      if better v best_value then arg_extreme_from better rest' (i + 1) i v
      else arg_extreme_from better rest' (i + 1) best best_value
  end.

Definition arg_extreme (better : Z → Z → bool) (a : list Z) : result Z :=
  match a with
  | [] => Raise ValueError
  | v :: rest => Ok (arg_extreme_from better rest 1 0 v)
  end.

(** [findMaximum]: the position and the value of the largest sample of
    [trace[range_start:range_stop]] when it exceeds the threshold. *)
Definition findMaximum (tr : trace) (range_start range_stop threshold : Z)
  : result (option (Z * Z)) :=
  x ← arg_extreme (fun v best => best <? v) (slice tr range_start range_stop);
  maximum ← getitem (slice tr range_start range_stop) x;
  Ok (if threshold <? maximum then Some (x + range_start, maximum) else None).

(** [findMinimum], without its [verbose] printing. *)
Definition findMinimum (tr : trace) (range_start range_stop threshold : Z)
  : result (option (Z * Z)) :=
  x ← arg_extreme (fun v best => v <? best) (slice tr range_start range_stop);
  minimum ← getitem (slice tr range_start range_stop) x;
  Ok (if minimum <? threshold then Some (x + range_start, minimum) else None).

End Dsp.

(** ** Trigger plugins ([align/trigger/*.py]) *)

Module Trigger.

(** What [trigger_result["xmarks"]] finds in the dict a trigger returns:
    no such key, the value [None], or a list whose elements are integers
    or [None]. *)
Inductive xmarks_entry : Set :=
| NoKey
| XNone
| XList (marks : list (option Z)).

(** [Trigger.process_data(input_data, offset, trigger_parameter)]. *)
Definition Trigger : Type := trace → option Z → params → result xmarks_entry.

Module HoldoffTrigger.
Definition _trigger_name : string := "hold_off".

Definition process_data : Trigger := fun input_data offset trigger_parameter =>
  holdoff ← param trigger_parameter "holdoff";
  x ← Dsp.add_offset (as_int holdoff) offset;
  Ok (XList (if x <? len input_data then [Some x] else [])).
End HoldoffTrigger.

Module RisingEdgeTrigger.
Definition _trigger_name : string := "rising_edge_trigger".

Definition process_data : Trigger := fun input_data offset trigger_parameter =>
  threshold ← param trigger_parameter "threshold";
  x ← Dsp.matchRisingEdge input_data offset (as_int threshold);
  Ok (XList (if negb (x =? 0) then [Some x] else [])).
End RisingEdgeTrigger.

Module FallingEdgeTrigger.
Definition _trigger_name : string := "falling_edge_trigger".

Definition process_data : Trigger := fun input_data offset trigger_parameter =>
  threshold ← param trigger_parameter "threshold";
  x ← Dsp.matchFallingEdge input_data offset (as_int threshold);
  Ok (XList (if negb (x =? 0) then [Some x] else [])).
End FallingEdgeTrigger.

Module FirstPeakFilter.
Definition _trigger_name : string := "first_peak_trigger".

Definition process_data : Trigger := fun input_data offset trigger_parameter =>
  threshold ← param trigger_parameter "threshold";
  let find_max := 0 <=? as_int threshold in
  let min_dist := 10 in
  match Dsp.findFirstPeak (slice_from input_data offset) min_dist
          (Some (as_int threshold)) find_max with
  | Some (pos, _) =>
      x ← Dsp.add_offset pos offset;
      Ok (XList [Some x])
  | None => Ok (XList [])
  end.
End FirstPeakFilter.

Module LastPeakFilter.
Definition _trigger_name : string := "last_peak_filter".

Definition process_data : Trigger := fun input_data offset trigger_parameter =>
  threshold ← param trigger_parameter "threshold";
  let find_max := 0 <=? as_int threshold in
  let min_dist := 10 in
  match Dsp.findLastPeak (slice_from input_data offset) min_dist
          (Some (as_int threshold)) find_max with
  | Some (pos, _) => Ok (XList [Some pos])
  | None => Ok (XList [])
  end.
End LastPeakFilter.

Module ThresholdTrigger.
Definition _trigger_name : string := "threshold_trigger".

(** The [while i < len(input_data)] loop. [peak0] is [peaks[0]];
    [peaks[1]] is only ever set immediately before the [break] or
    before both entries are reset, so the loop carries [peaks[0]]
    alone. [fuel] is the number of iterations left. *)
Fixpoint loop (input_data : trace) (threshold hysteresis min_range : Z)
    (inverse : bool) (fuel : nat) (i : Z) (peak0 : option Z)
  : result (option Z * option Z) :=
  match fuel with
  | O => Ok (peak0, None)
  | S fuel' =>
      v ← getitem input_data i;
      let enters :=
        if inverse then v <=? threshold - hysteresis
        else threshold + hysteresis <=? v in
      let leaves :=
        if inverse then threshold + hysteresis <=? v
        else v <=? threshold - hysteresis in
      let next := loop input_data threshold hysteresis min_range inverse fuel' (i + 1) in
      match peak0 with
      | None => if enters then next (Some i) else next None
      | Some a =>
          if leaves then
            if min_range <=? i - a then Ok (Some a, Some i) else next None
          else next (Some a)
      end
  end.

Definition process_data : Trigger := fun input_data offset trigger_parameter =>
  threshold ← param trigger_parameter "threshold";
  hysteresis ← param trigger_parameter "hysteresis";
  min_range ← param trigger_parameter "min_range";
  inverse ← param trigger_parameter "inverse";
  match offset with
  | None => Raise TypeError
  | Some i =>
      peaks ← loop input_data (as_int threshold) (as_int hysteresis)
                (as_int min_range) (truthy inverse)
                (Z.to_nat (len input_data - i)) i None;
      (* Ensure that always two peaks are returned *)
      match peaks with
      | (Some a, Some b) => Ok (XList [Some a; Some b])
      | _ => Ok (XList [None; None])
      end
  end.
End ThresholdTrigger.

(** The trigger variants [TriggerLoader] finds in [align/trigger]; a file
    whose name starts with an underscore is skipped. *)
Inductive variant : Set :=
| hold_off
| rising_edge_trigger
| falling_edge_trigger
| first_peak_trigger
| last_peak_filter
| threshold_trigger.

Definition variants : list variant :=
  [rising_edge_trigger; falling_edge_trigger; first_peak_trigger;
   last_peak_filter; threshold_trigger; hold_off].

Definition get_trigger_name (t : variant) : string :=
  match t with
  | hold_off => HoldoffTrigger._trigger_name
  | rising_edge_trigger => RisingEdgeTrigger._trigger_name
  | falling_edge_trigger => FallingEdgeTrigger._trigger_name
  | first_peak_trigger => FirstPeakFilter._trigger_name
  | last_peak_filter => LastPeakFilter._trigger_name
  | threshold_trigger => ThresholdTrigger._trigger_name
  end.

Definition process_data (t : variant) : Trigger :=
  match t with
  | hold_off => HoldoffTrigger.process_data
  | rising_edge_trigger => RisingEdgeTrigger.process_data
  | falling_edge_trigger => FallingEdgeTrigger.process_data
  | first_peak_trigger => FirstPeakFilter.process_data
  | last_peak_filter => LastPeakFilter.process_data
  | threshold_trigger => ThresholdTrigger.process_data
  end.

(** [TriggerLoader.get_trigger_by_name]. *)
Definition get_trigger_by_name (trigger_name : string) : option Trigger :=
  process_data <$>
    List.find (fun t => String.eqb trigger_name (get_trigger_name t)) variants.

End Trigger.

(** ** Filter plugins ([align/filter/*.py]) *)

Module Filter.

(** [Filter.process_data(input_data, filter_parameter)] returns a dict;
    the option is what [filter_result["data"]] finds in it ([None]: the
    dict has no key ['data']). *)
Definition Filter : Type := trace → params → result (option trace).

Module AbsoluteFilter.
Definition _filter_name : string := "abs_filter".

Definition process_data : Filter := fun input_data filter_parameter =>
  enabled ← param filter_parameter "enabled";
  Ok (Some (if truthy enabled then Z.abs <$> input_data else input_data)).
End AbsoluteFilter.

Module MovingAverageFilter.
Definition _filter_name : string := "moving_average_filter".

(** [_moving_average] is numpy's [convolve(data, ones(n) / n, "valid")],
    a floating-point computation; it is an argument here. *)
Definition process_data (_moving_average : trace → Z → trace) : Filter :=
  fun input_data filter_parameter =>
    enabled ← param filter_parameter "enabled";
    window_len ← param filter_parameter "window_len";
    Ok (Some (if (0 <? as_int window_len) && truthy enabled
              then _moving_average input_data (as_int window_len)
              else input_data)).

(** [_moving_average] where it needs no floating point.
    [convolve(data, ones(n) / n, "valid")] has
    [max(len(data), n) - min(len(data), n) + 1] entries: the averages of
    the windows of [n] samples or, for a window longer than the data,
    that many times the sum of the data divided by [n]. The averages
    are floating-point numbers; samples are integers in this embedding,
    and each average is rounded down here. That is what numpy computes
    for a trace of zeros, the input of the example it is used in, and it
    is numpy's number of entries for every input that is not empty. *)
Definition sum_of (l : trace) : Z := foldr Z.add 0 l.

Definition _moving_average (data : trace) (factor_compression : Z) : trace :=
  let n := Z.to_nat factor_compression in
  if (n <=? length data)%nat then
    (fun i => sum_of (take n (drop i data)) / factor_compression)
      <$> seq 0 (length data - n + 1)
  else replicate (n - length data + 1) (sum_of data / factor_compression).
End MovingAverageFilter.

Module HighpassFilter.
Definition _filter_name : string := "highpass_filter".

(** One of the filters that declare the [modify_data] option. The filter
    itself, [filtfilt] with the coefficients of
    [iirfilter(order, cutoff_freq, btype="highpass", ftype="butter", fs=sample_frequency)],
    is a floating-point computation; it is an argument here. *)
Definition process_data (iir_highpass : Z → Z → Z → trace → trace) : Filter :=
  fun input_data filter_parameter =>
    enabled ← param filter_parameter "enabled";
    order ← param filter_parameter "order";
    sample_frequency ← param filter_parameter "sampleFrequency";
    cutoff_freq ← param filter_parameter "cutoffFreq";
    Ok (Some (if truthy enabled
              then iir_highpass (as_int order) (as_int cutoff_freq)
                     (as_int sample_frequency) input_data
              else input_data)).
End HighpassFilter.

(** [FilterLoader.get_filter_by_name] over the three filters above. The
    other filters of [align/filter] compute in floating point (band-pass,
    notch, FFT, Gaussian and Hanning smoothing, variance) and are not
    embedded; the batch aligner below is stated for any loader. *)
Definition get_filter_by_name (_moving_average : trace → Z → trace)
    (iir_highpass : Z → Z → Z → trace → trace)
    (filter_name : string) : option Filter :=
  if String.eqb filter_name AbsoluteFilter._filter_name
  then Some AbsoluteFilter.process_data
  else if String.eqb filter_name MovingAverageFilter._filter_name
  then Some (MovingAverageFilter.process_data _moving_average)
  else if String.eqb filter_name HighpassFilter._filter_name
  then Some (HighpassFilter.process_data iir_highpass)
  else None.

End Filter.

(** ** The array backend ([NumpyArrays] in [align/align_trace_data.py]) *)

Module NumpyArrays.

(** The instance attributes the operations below read or write. A channel
    (an entry of [_npy_mm]) is a two-dimensional array, kept as the list
    of its rows. *)
Record t : Type := mk {
  _npy_mm : gmap string (list trace);
  _records_written : Z;
  number_of_traces : Z;
  logged : list string;
}.

(** [NumpyArrays()], without files. *)
Definition new : t :=
  {| _npy_mm := ∅; _records_written := 0; number_of_traces := 0; logged := [] |}.

Definition has (self : t) (trace_type : string) : bool :=
  bool_decide (is_Some (_npy_mm self !! trace_type)).

Definition has_em (self : t) : bool := has self "em".
Definition has_power (self : t) : bool := has self "power".
Definition has_plain (self : t) : bool := has self "plain".
Definition has_cipher (self : t) : bool := has self "cipher".

Definition get_number_of_traces (self : t) : Z := number_of_traces self.

Definition set_number_of_traces (self : t) (n : Z) : t :=
  {| _npy_mm := _npy_mm self; _records_written := _records_written self;
     number_of_traces := n; logged := logged self |}.

(** [get_traces]: [self._npy_mm[trace_type]]. *)
Definition get_traces (self : t) (trace_type : string) : result (list trace) :=
  match _npy_mm self !! trace_type with
  | Some a => Ok a
  | None => Raise KeyError
  end.

(** [get_trace]: [None] for the empty channel name, else row [trace_nr]. *)
Definition get_trace (self : t) (trace_type : string) (trace_nr : Z)
  : result (option trace) :=
  if String.eqb trace_type "" then Ok None
  else a ← get_traces self trace_type;
       row ← getitem a trace_nr;
       Ok (Some row).

(** [register_data_file]: an array of [number_of_traces] rows of [length]
    samples. [numpy.ndarray] leaves the memory uninitialised; the rows
    are zeros here, and nothing below depends on what an unwritten row
    holds. *)
Definition register_data_file (self : t) (trace_type : string) (length : Z)
  : result t :=
  if (number_of_traces self <? 0) || (length <? 0) then Raise ValueError
  else Ok {| _npy_mm :=
               <[trace_type :=
                   replicate (Z.to_nat (number_of_traces self))
                             (replicate (Z.to_nat length) 0)]> (_npy_mm self);
             _records_written := _records_written self;
             number_of_traces := number_of_traces self;
             logged := logged self |}.

(** [a[i] = data] for a row [a[i]] that exists: [data] must have the
    length of the row, or one element, which is broadcast. *)
Definition assign_row (row data : trace) : result trace :=
  if bool_decide (length data = length row) then Ok data
  else match data with
       | [x] => Ok (replicate (length row) x)
       | _ => Raise ValueError
       end.

Definition setitem (a : list trace) (i : Z) (data : trace) : result (list trace) :=
  row ← getitem a i;
  row' ← assign_row row data;
  Ok (<[Z.to_nat (if i <? 0 then i + len a else i) := row']> a).

Definition warning : string :=
  "Can't write more traces into array! Ignoring trace.".

Definition add_trace (self : t) (trace_type : string) (trace_data : trace)
  : result t :=
  if number_of_traces self <=? _records_written self then
    Ok {| _npy_mm := _npy_mm self; _records_written := _records_written self;
          number_of_traces := number_of_traces self;
          logged := logged self ++ [warning] |}
  else
    a ← get_traces self trace_type;
    a' ← setitem a (_records_written self) trace_data;
    Ok {| _npy_mm := <[trace_type := a']> (_npy_mm self);
          _records_written := _records_written self + 1;
          number_of_traces := number_of_traces self;
          logged := logged self |}.

(** [reduce_data_from_mask]: the mask is padded with [False] up to the
    number of rows and selects the rows to keep. [numpy.pad] refuses a
    negative pad width. *)
Fixpoint select_rows (rows : list trace) (mask : list bool) : list trace :=
  match rows, mask with
  | r :: rows', b :: mask' =>
      if b then r :: select_rows rows' mask' else select_rows rows' mask'
  | _, _ => []
  end.

Definition reduce_data_from_mask (self : t) (trace_type : string)
    (input_data : list trace) (trace_mask : list bool) : result t :=
  if len input_data <? len trace_mask then Raise ValueError
  else Ok {| _npy_mm := <[trace_type := select_rows input_data trace_mask]> (_npy_mm self);
             _records_written := _records_written self;
             number_of_traces := number_of_traces self;
             logged := logged self |}.

(** [prepare_new_tracedata]: a new, empty dataset with the trace count
    copied. *)
Definition prepare_new_tracedata (self : t) : t :=
  set_number_of_traces new (get_number_of_traces self).

(** What [np.lib.format.open_memmap] finds in an array file, by its
    number of dimensions. *)
Inductive npy_file : Type :=
| Npy0 (x : Z)
| Npy1 (row : trace)
| Npy2 (rows : list trace)
| NpyHigher.

(** [np.atleast_2d]; [None] when the result has more than two
    dimensions. *)
Definition atleast_2d (f : npy_file) : option (list trace) :=
  match f with
  | Npy0 x => Some [[x]]
  | Npy1 row => Some [row]
  | Npy2 rows => Some rows
  | NpyHigher => None
  end.

(** The loop of [__init__] over [npy_files.items()]. [files] is the file
    system: the array files that exist, by name. [n_of_t] holds the row
    counts of the arrays loaded so far, in order; a file that does not
    exist is skipped. *)
Fixpoint load_files (files : gmap string npy_file)
    (npy_files : list (string * string)) (npy_mm : gmap string (list trace))
    (n_of_t : list Z) : result (gmap string (list trace) * list Z) :=
  match npy_files with
  | [] => Ok (npy_mm, n_of_t)
  | (trace_data_name, filename) :: rest =>
      match files !! filename with
      | None => load_files files rest npy_mm n_of_t
      | Some f =>
          match atleast_2d f with
          | None => Raise ValueError
          | Some a =>
              if match last n_of_t with
                 | Some previous => negb (len a =? previous)
                 | None => false
                 end
              then Raise ValueError
              else load_files files rest (<[trace_data_name := a]> npy_mm)
                     (n_of_t ++ [len a])
          end
      end
  end.

(** [NumpyArrays(npy_files)]. *)
Definition __init__ (files : gmap string npy_file)
    (npy_files : list (string * string)) : result t :=
  '(npy_mm, n_of_t) ← load_files files npy_files ∅ [];
  Ok {| _npy_mm := npy_mm; _records_written := 0;
        number_of_traces := default 0 (head n_of_t);
        logged := [] |}.

End NumpyArrays.

(** ** The structured backend ([align/tracelib/traces.py] and
       [D15TraceData] in [align/align_trace_data.py])

    A record handed to [_addTraceRaw] is a byte string, a [list Z] here.
    Numpy arrays stay abstract: [tobytes] is [ndarray.tobytes]. The SHA-256
    state [_hasher] is not part of the embedding. *)

Module D15.
Section WithArrays.

Context {ndarray : Type} (tobytes : ndarray → list Z).

Inductive save_method : Set := DIRECTWRITE | MEMMAP.

(** The argument of [addTrace]. *)
Inductive py_data : Type :=
| PyBytes (b : list Z)
| PyList (l : list Z)
| PyNdarray (a : ndarray)
| PyOther.

(** [DataObject] while recording. [data] is the content of the channel
  file as the list of its records: what has been written so far
  (DIRECTWRITE) or the [nrTraces] rows of the memory map (MEMMAP).
  [printed] collects what the object prints. *)
Record DataObject : Type := mkDataObject {
nrTraces : Z;
length : Z;
itemsize : Z;
_saveMethod : save_method;
_recordsWritten : Z;
_recording : bool;
data : list (list Z);
printed : list string;
}.

Definition print (self : DataObject) (msg : string) : DataObject :=
{| nrTraces := nrTraces self; length := length self; itemsize := itemsize self;
   _saveMethod := _saveMethod self; _recordsWritten := _recordsWritten self;
   _recording := _recording self; data := data self;
   printed := printed self ++ [msg] |}.

Definition written (self : DataObject) (data' : list (list Z)) : DataObject :=
{| nrTraces := nrTraces self; length := length self; itemsize := itemsize self;
   _saveMethod := _saveMethod self; _recordsWritten := _recordsWritten self + 1;
   _recording := _recording self; data := data';
   printed := printed self |}.

(** [prepareForRecord]: an empty file, or a zero-filled map of
  [nrTraces] rows. *)
Definition prepareForRecord (nrTraces length itemsize : Z)
  (saveMethod : save_method) : DataObject :=
{| nrTraces := nrTraces; length := length; itemsize := itemsize;
   _saveMethod := saveMethod; _recordsWritten := 0; _recording := true;
   data := match saveMethod with
           | DIRECTWRITE => []
           | MEMMAP => replicate (Z.to_nat nrTraces)
                         (replicate (Z.to_nat (length * itemsize)) 0)
           end;
   printed := [] |}.

Definition _addTraceRaw (self : DataObject) (raw : list Z) : DataObject :=
if negb (len raw =? length self * itemsize self) then
  print self "Warning - DataObject: Length mismatch!"
else
  match _saveMethod self with
  | DIRECTWRITE => written self (data self ++ [raw])
  | MEMMAP =>
      if nrTraces self <=? _recordsWritten self then
        print self "Warning - DataObject: Can't write more traces into memmap! Ignoring trace."
      else
        written self (<[Z.to_nat (_recordsWritten self) := raw]> (data self))
  end.

(** [bytearray(l)] needs every element in [range(256)]. *)
Definition bytearray (l : list Z) : result (list Z) :=
if forallb (fun x => (0 <=? x) && (x <? 256)) l then Ok l else Raise ValueError.

Definition addTrace (self : DataObject) (d : py_data) : result DataObject :=
if negb (_recording self) then
  Ok (print self "Error - DataObject: Not prepared for record, can't add trace!")
else
  match d with
  | PyBytes b => Ok (_addTraceRaw self b)
  | PyList l => b ← bytearray l; Ok (_addTraceRaw self b)
  | PyNdarray a => Ok (_addTraceRaw self (tobytes a))
  | PyOther => Ok (print self "Error - DataObject: Unsupported data format!")
  end.

(** [TraceData] and the [D15TraceData] wrapper around it: the trace
  count of the metadata, the recording flag and the channel objects
  ([em], [power], [plain], [cipher] and the [aux] entries, by name). *)
Record D15TraceData : Type := mkD15TraceData {
config_nrTraces : Z;
td_nrTraces : Z;
td_recording : bool;
channels : gmap string DataObject;
}.

(** [TraceData.startRecord]. *)
Definition startRecord (traceCount : Z) : D15TraceData :=
{| config_nrTraces := traceCount; td_nrTraces := traceCount;
   td_recording := true; channels := ∅ |}.

Definition get_number_of_traces (self : D15TraceData) : Z := config_nrTraces self.

Definition set_number_of_traces (self : D15TraceData) (n : Z) : D15TraceData :=
{| config_nrTraces := n; td_nrTraces := n;
   td_recording := td_recording self; channels := channels self |}.

(** [register_data_file] calls [registerEMFile] and its siblings without
  a [saveMethod], so the channel records with [DIRECTWRITE]. *)
Definition register_data_file (self : D15TraceData) (trace_type : string)
  (length itemsize : Z) : D15TraceData :=
if negb (td_recording self) then self
else {| config_nrTraces := config_nrTraces self; td_nrTraces := td_nrTraces self;
        td_recording := td_recording self;
        channels := <[trace_type :=
                        prepareForRecord (td_nrTraces self) length itemsize DIRECTWRITE]>
                      (channels self) |}.

Definition add_trace (self : D15TraceData) (trace_type : string) (d : py_data)
: result D15TraceData :=
match channels self !! trace_type with
| None => Raise AttributeError
| Some ch =>
    ch' ← addTrace ch d;
    Ok {| config_nrTraces := config_nrTraces self; td_nrTraces := td_nrTraces self;
          td_recording := td_recording self;
          channels := <[trace_type := ch']> (channels self) |}
end.

(** The loop of [D15TraceData.reduce_data_from_mask]: the rows of
  [input_data] whose mask entry is true are handed to [_addTraceRaw].
  [iTrace] is the index of the head of the mask. *)
Fixpoint reduce_rows (ch : DataObject) (input_data : list ndarray) (iTrace : nat)
  (trace_mask : list bool) : result DataObject :=
match trace_mask with
| [] => Ok ch
| b :: trace_mask' =>
    if b then
      match input_data !! iTrace with
      | Some row =>
          reduce_rows (_addTraceRaw ch (tobytes row)) input_data (S iTrace) trace_mask'
      | None => Raise IndexError
      end
    else reduce_rows ch input_data (S iTrace) trace_mask'
end.

(** [reduce_data_from_mask]; the channel object is looked up before the
  loop, as in [add_trace]. *)
Definition reduce_data_from_mask (self : D15TraceData) (trace_type : string)
  (input_data : list ndarray) (trace_mask : list bool) : result D15TraceData :=
match channels self !! trace_type with
| None => Raise AttributeError
| Some ch =>
    ch' ← reduce_rows ch input_data 0 trace_mask;
    Ok {| config_nrTraces := config_nrTraces self; td_nrTraces := td_nrTraces self;
          td_recording := td_recording self;
          channels := <[trace_type := ch']> (channels self) |}
end.

End WithArrays.
End D15.

(** ** Opening a dataset ([AlignTraceDataFactory.open_trace_data]) *)

Module AlignTraceDataFactory.

(** [str.rfind(c)]: the index of the last occurrence, [-1] if none. *)
Fixpoint rfind_from (p : list Ascii.ascii) (c : Ascii.ascii) (i found : Z) : Z :=
  match p with
  | [] => found
  | x :: p' => rfind_from p' c (i + 1) (if Ascii.eqb x c then i else found)
  end.

Definition rfind (p : list Ascii.ascii) (c : Ascii.ascii) : Z := rfind_from p c 0 (-1).

(** [os.path.splitext(p)[1]] on a POSIX system: the text from the last
    dot of the last path component on, unless that component consists of
    leading dots up to there. *)
Definition splitext_ext (path : string) : string :=
  let p := String.list_ascii_of_string path in
  let sepIndex := rfind p "/"%char in
  let dotIndex := rfind p "."%char in
  if sepIndex <? dotIndex then
    let name_before_dot :=
      take (Z.to_nat (dotIndex - (sepIndex + 1))) (drop (Z.to_nat (sepIndex + 1)) p) in
    if forallb (fun x => Ascii.eqb x "."%char) name_before_dot then ""
    else String.string_of_list_ascii (drop (Z.to_nat dotIndex) p)
  else "".

(** The shapes of argument the function tells apart with [isinstance]. *)
Inductive py_arg : Type :=
| ArgStr (s : string)
| ArgPath (s : string)
| ArgDict (npy_files : list (string * string))
| ArgOther.

Section WithBackends.

(** The two constructors, which open files and may raise. *)
Context {D N : Type}.
Variable D15TraceData : string → result D.
Variable NumpyArrays : list (string * string) → result N.

(** [Ok None] is the function running off its end: Python returns
    [None]. *)
Definition open_trace_data (trace_data_file : py_arg) : result (option (D + N)) :=
  match trace_data_file with
  | ArgStr s | ArgPath s =>
      if String.eqb (splitext_ext s) ".meta" then
        d ← D15TraceData s; Ok (Some (inl d))
      else Ok None
  | ArgDict npy_files =>
      n ← NumpyArrays npy_files; Ok (Some (inr n))
  | ArgOther => Raise ValueError
  end.

End WithBackends.

End AlignTraceDataFactory.

(** ** The batch aligner ([align/batch_processing.py])

    [BatchProcessingThread] over the array backend. The thread is taken to
    run undisturbed: [stop()] is not called, so [_is_running] stays true,
    and the progress signal is not part of the embedding. Element types
    are not part of it either: [np.array(x, dtype=dtype)] is [x]. *)

Module BatchProcessingThread.

(** [for x in l: s = f(s, x)], stopping at the first exception. *)
Fixpoint for_each {S A : Type} (f : S → A → result S) (s : S) (l : list A)
  : result S :=
  match l with
  | [] => Ok s
  | x :: l' => s' ← f s x; for_each f s' l'
  end.

(** [self]. [filter_dict] and [trigger_dict] map a plugin name to its
    settings, [filter_parameter[1]], in the order of the chain. *)
Record t : Type := mk {
  trace_data : NumpyArrays.t;
  new_trace_data : NumpyArrays.t;
  filter_dict : list (string * params);
  trigger_dict : list (string * params);
  region_around_peak : Z * Z;
  tracetype : string;
  trace_count : nat;
  peak_array : list (Z * Z);
  valid_traces_array : list bool;
  logged : list string;
}.

(** [__init__]. *)
Definition init (align_trace_data : NumpyArrays.t)
    (filter_dict trigger_dict : list (string * params))
    (region_around_peak : Z * Z) (trace_type : string)
    (trace_count : option nat) : t :=
  let n := match trace_count with
           | Some n => n
           | None => Z.to_nat (NumpyArrays.get_number_of_traces align_trace_data)
           end in
  {| trace_data := align_trace_data;
     new_trace_data := NumpyArrays.prepare_new_tracedata align_trace_data;
     filter_dict := filter_dict; trigger_dict := trigger_dict;
     region_around_peak := region_around_peak; tracetype := trace_type;
     trace_count := n;
     peak_array := replicate n (0, 0);
     valid_traces_array := replicate n false;
     logged := [] |}.

(** The three attributes the scan of a trace assigns to. *)
Definition set_scan (self : t) (region : Z * Z) (peaks : list (Z * Z))
    (valid : list bool) : t :=
  {| trace_data := trace_data self; new_trace_data := new_trace_data self;
     filter_dict := filter_dict self; trigger_dict := trigger_dict self;
     region_around_peak := region; tracetype := tracetype self;
     trace_count := trace_count self;
     peak_array := peaks; valid_traces_array := valid;
     logged := logged self |}.

Definition set_new_trace_data (self : t) (new : NumpyArrays.t) : t :=
  {| trace_data := trace_data self; new_trace_data := new;
     filter_dict := filter_dict self; trigger_dict := trigger_dict self;
     region_around_peak := region_around_peak self; tracetype := tracetype self;
     trace_count := trace_count self;
     peak_array := peak_array self; valid_traces_array := valid_traces_array self;
     logged := logged self |}.

Definition log (self : t) (msg : string) : t :=
  {| trace_data := trace_data self; new_trace_data := new_trace_data self;
     filter_dict := filter_dict self; trigger_dict := trigger_dict self;
     region_around_peak := region_around_peak self; tracetype := tracetype self;
     trace_count := trace_count self;
     peak_array := peak_array self; valid_traces_array := valid_traces_array self;
     logged := logged self ++ [msg] |}.

Section WithPlugins.

(** [FilterLoader.get_filter_by_name] and
    [TriggerLoader.get_trigger_by_name]: the plugin sets are open. *)
Variable get_filter_by_name : string → option Filter.Filter.
Variable get_trigger_by_name : string → option Trigger.Trigger.

(** Calling a method of the [None] a loader returns for an unknown
    name is an [AttributeError]. *)
Definition filter_process_data (filter_name : string) (input_data : trace)
    (p : params) : result (option trace) :=
  match get_filter_by_name filter_name with
  | Some f => f input_data p
  | None => Raise AttributeError
  end.

Definition trigger_process_data (trigger_name : string) (input_data : trace)
    (offset : option Z) (p : params) : result Trigger.xmarks_entry :=
  match get_trigger_by_name trigger_name with
  | Some f => f input_data offset p
  | None => Raise AttributeError
  end.

(** [_run_triggers]; [xmarks] is the local of that name. Only a
    [KeyError] is caught. *)
Fixpoint _run_triggers_from (triggers : list (string * params))
    (temp_trace_data : trace) (current_offset : option Z)
    (xmarks : option (list (option Z))) : result (option (list (option Z))) :=
  match triggers with
  | [] => Ok xmarks
  | (trigger_name, trigger_parameter) :: rest =>
      match trigger_process_data trigger_name temp_trace_data current_offset
              trigger_parameter with
      | Raise KeyError => Ok xmarks
      | Raise e => Raise e
      | Ok Trigger.NoKey => Ok xmarks
      | Ok Trigger.XNone => Raise TypeError
      | Ok (Trigger.XList []) => Ok (Some [])
      | Ok (Trigger.XList ((first :: _) as marks)) =>
          _run_triggers_from rest temp_trace_data first (Some marks)
      end
  end.

Definition _run_triggers (self : t) (temp_trace_data : trace)
    (current_offset : option Z) : result (option (list (option Z))) :=
  _run_triggers_from (trigger_dict self) temp_trace_data current_offset None.

(** [bool(filter_parameter[1]["modify_data"][0])] when the settings
    have the key ["modify_data"]. *)
Definition modify_flag (filter_settings : params) : option bool :=
  truthy <$> filter_settings !! "modify_data".

(** [_run_filters]; [modify_data] is the local of that name: each
    filter that carries the flag assigns it. A filter whose flag is
    true is skipped here. The [try] covers the lookup of ['data'] in
    the result and nothing else. *)
Fixpoint _run_filters_from (filters : list (string * params))
    (modify_data : option bool) (temp_trace_data : trace)
  : result (option bool * trace) :=
  match filters with
  | [] => Ok (modify_data, temp_trace_data)
  | (filter_name, filter_settings) :: rest =>
      let modify_data :=
        match modify_flag filter_settings with
        | Some b => Some b
        | None => modify_data
        end in
      filter_result ←
        (if default false (modify_flag filter_settings)
         then Ok (Some temp_trace_data)
         else filter_process_data filter_name temp_trace_data filter_settings);
      match filter_result with
      | Some data => _run_filters_from rest modify_data data
      | None => _run_filters_from rest modify_data temp_trace_data
      end
  end.

Definition _run_filters (self : t) (temp_trace_data : trace)
  : result (option bool * trace) :=
  _run_filters_from (filter_dict self) None temp_trace_data.



(** [self.trace_data.get_trace(trace_type, tracenr)]. [get_trace]
    returns [None] for the empty channel name; the plugins are embedded
    as functions of a trace, not of [None], so the embedding stops with
    a [TypeError] there and says nothing more about such a run. *)
Definition fetch (self : t) (trace_type : string) (tracenr : nat) : result trace :=
  r ← NumpyArrays.get_trace (trace_data self) trace_type (Z.of_nat tracenr);
  match r with
  | Some row => Ok row
  | None => Raise TypeError
  end.

(** The first part of [run_filters_and_triggers]: the buffer the
    triggers see and the [modify_data] local. *)
Definition filter_stage (self : t) (raw : trace) : result (option bool * trace) :=
  match filter_dict self with
  | [] => Ok (None, raw)
  | _ => _run_filters self raw
  end.

Definition trigger_stage (self : t) (temp_trace_data : trace)
  : result (option (list (option Z))) :=
  match trigger_dict self with
  | [] => Ok None
  | _ => _run_triggers self temp_trace_data (Some 0)
  end.

(** The classification at the end of [run_filters_and_triggers]. *)
Definition classify (self : t) (tracenr : nat) (modify_data : option bool)
    (temp_trace_data : trace) (xmarks : option (list (option Z))) : t :=
  let region := region_around_peak self in
  let invalid :=
    set_scan self region (peak_array self)
             (<[tracenr := false]> (valid_traces_array self)) in
  let valid_at (anchors : Z * Z) :=
    set_scan self region (<[tracenr := anchors]> (peak_array self))
             (<[tracenr := true]> (valid_traces_array self)) in
  match xmarks with
  | Some [Some peak_at] =>
      if (len temp_trace_data <? peak_at + region.2) || (peak_at + region.1 <? 0)
      then invalid else valid_at (peak_at, peak_at)
  | Some [Some m1; Some m2] =>
      if (len temp_trace_data <? m2 + region.2) || (m1 + region.1 <? 0)
      then invalid else valid_at (m1, m2)
  | Some _ => invalid
  | None =>
      match modify_data with
      | Some true =>
          set_scan self (0, len temp_trace_data)
                   (<[tracenr := (0, 0)]> (peak_array self))
                   (<[tracenr := true]> (valid_traces_array self))
      | _ => invalid
      end
  end.

Definition run_filters_and_triggers (self : t) (tracenr : nat) : result t :=
  raw ← fetch self (tracetype self) tracenr;
  '(modify_data, temp_trace_data) ← filter_stage self raw;
  xmarks ← trigger_stage self temp_trace_data;
  Ok (classify self tracenr modify_data temp_trace_data xmarks).

(** [_run_modifying_filter]: the filters whose flag is true run, in
    order; here nothing is caught. *)
Fixpoint _run_modifying_filter_from (filters : list (string * params))
    (trace_data : trace) : result trace :=
  match filters with
  | [] => Ok trace_data
  | (filter_name, filter_settings) :: rest =>
      if default false (modify_flag filter_settings) then
        filter_result ← filter_process_data filter_name trace_data filter_settings;
        match filter_result with
        | Some data => _run_modifying_filter_from rest data
        | None => Raise KeyError
        end
      else _run_modifying_filter_from rest trace_data
  end.

Definition _run_modifying_filter (self : t) (trace_data : trace) : result trace :=
  _run_modifying_filter_from (filter_dict self) trace_data.

(** The slice [get_trace(trace_type, tracenr)[start:end]] of
    [cut_and_modify_traces], copied and resized when it is shorter
    than [trace_length]. *)
Definition cut (row : trace) (start trace_length : Z) : result trace :=
  let cutted_trace := slice row start (start + trace_length) in
  if len cutted_trace <? trace_length then resize cutted_trace trace_length
  else Ok cutted_trace.

(** The signal channels of the source, in the order they are cut. *)
Definition signal_types (self : t) : list string :=
  (if NumpyArrays.has_power (trace_data self) then ["power"] else []) ++
  (if NumpyArrays.has_em (trace_data self) then ["em"] else []).

Definition cut_channel (tracenr : nat) (start trace_length : Z)
    (self : t) (trace_type : string) : result t :=
  row ← fetch self trace_type tracenr;
  cutted_trace ← cut row start trace_length;
  filtered_data ← _run_modifying_filter self cutted_trace;
  new ← NumpyArrays.add_trace (new_trace_data self) trace_type filtered_data;
  Ok (set_new_trace_data self new).

(** [cut_and_modify_traces] returns the number of traces processed,
    [0] or [1], next to the updated [self]. *)
Definition cut_and_modify_traces (self : t) (tracenr : nat) (trace_length : Z)
  : result (t * Z) :=
  if negb (default false (valid_traces_array self !! tracenr)) then Ok (self, 0)
  else
    let start := (default (0, 0) (peak_array self !! tracenr)).1
                 + (region_around_peak self).1 in
    self' ← for_each (cut_channel tracenr start trace_length) self (signal_types self);
    Ok (self', 1).

(** [int(np.diff(self.peak_array)[0].max() + np.diff(self.region_around_peak)[0])]:
    [np.diff] of the two-column array has one column, and [[0]] is its
    first row. *)
Definition new_trace_length (self : t) : result Z :=
  match peak_array self with
  | [] => Raise IndexError
  | (anchor1, anchor2) :: _ =>
      Ok ((anchor2 - anchor1)
          + ((region_around_peak self).2 - (region_around_peak self).1))
  end.

Definition number_of_valid_traces (self : t) : Z :=
  len (filter (fun b => b = true) (valid_traces_array self)).

(** Registering the output file of a signal channel the source has. *)
Definition register_signal (length : Z) (self : t) (trace_type : string)
  : result t :=
  new ← NumpyArrays.register_data_file (new_trace_data self) trace_type length;
  Ok (set_new_trace_data self new).

(** [_finalize_new_traces]; [finish] writes the arrays to their files
    and changes nothing in the dataset. *)
Definition reduce_channel (self : t) (trace_type : string) : result t :=
  first ← fetch self trace_type 0%nat;
  new ← NumpyArrays.register_data_file (new_trace_data self) trace_type (len first);
  input_data ← NumpyArrays.get_traces (trace_data self) trace_type;
  new' ← NumpyArrays.reduce_data_from_mask new trace_type input_data
           (valid_traces_array self);
  Ok (set_new_trace_data self new').

Definition _finalize_new_traces (self : t) : result t :=
  for_each reduce_channel self
    ((if NumpyArrays.has_plain (trace_data self) then ["plain"] else []) ++
     (if NumpyArrays.has_cipher (trace_data self) then ["cipher"] else [])).

(** The scanning loop of [run]. *)
Definition scan (self : t) : result t :=
  for_each run_filters_and_triggers self (seq 0 (trace_count self)).

(** The cutting loop of [run], with its counter [new_trace_count]. *)
Definition cut_loop (trace_length : Z) (self : t) : result (t * Z) :=
  for_each (fun '(s, new_trace_count) tracenr =>
              '(s', k) ← cut_and_modify_traces s tracenr trace_length;
              Ok (s', new_trace_count + k))
           (self, 0) (seq 0 (trace_count self)).

(** What follows the scanning loop in [run]. *)
Definition cut_phase (self : t) : result t :=
  new_trace_length ← new_trace_length self;
  let number_of_valid_traces := number_of_valid_traces self in
  let self :=
    set_new_trace_data self
      (NumpyArrays.set_number_of_traces (new_trace_data self) number_of_valid_traces) in
  self ← for_each (register_signal new_trace_length) self (signal_types self);
  '(self, new_trace_count) ← cut_loop new_trace_length self;
  let self :=
    if negb (new_trace_count =? number_of_valid_traces)
    then log self "Trace count missmatch!" else self in
  _finalize_new_traces self.

Definition run (self : t) : result t :=
  self ← scan self;
  cut_phase self.

End WithPlugins.

End BatchProcessingThread.

(** ** The interactive path ([Model] in [align/model.py],
       [Helpers] in [align/helpers.py]) *)

Module Helpers.

(** [shift4(arr, shift_positions, fill_value)]. *)
Definition shift4 {A : Type} (arr : list A) (shift_positions : Z) (fill_value : A)
  : list A :=
  if shift_positions =? 0 then arr
  else if 0 <=? shift_positions then
    replicate (Z.to_nat shift_positions) fill_value
    ++ slice_opt arr None (Some (- shift_positions))
  else
    slice_opt arr (Some (- shift_positions)) None
    ++ replicate (Z.to_nat (- shift_positions)) fill_value.

End Helpers.

Module Model.
Section WithPlugins.

Variable get_filter_by_name : string → option Filter.Filter.
Variable get_trigger_by_name : string → option Trigger.Trigger.

(** The default [fill_value] of [shift4] is [np.nan], which is not a
    sample of the embedding; it is an argument here. *)
Variable nan : Z.

(** The filter loop of
    [run_filters_and_triggers_on_trace_data_and_shift]: every filter of
    the group runs, whatever its [modify_data] says, and nothing is
    caught. *)
Fixpoint process_filters (children : list (string * params)) (data : trace)
  : result trace :=
  match children with
  | [] => Ok data
  | (name, values) :: rest =>
      filter_result ←
        BatchProcessingThread.filter_process_data get_filter_by_name name data values;
      match filter_result with
      | Some data' => process_filters rest data'
      | None => Raise KeyError
      end
  end.

(** The trigger loop; [xmarks] is [filter_trigger_result["xmarks"]]. *)
Fixpoint process_triggers (children : list (string * params)) (data : trace)
    (current_offset : option Z) (xmarks : option (list (option Z)))
  : result (option (list (option Z))) :=
  match children with
  | [] => Ok xmarks
  | (name, values) :: rest =>
      trigger_result ←
        BatchProcessingThread.trigger_process_data get_trigger_by_name name data
          current_offset values;
      match trigger_result with
      | Trigger.NoKey => Raise KeyError
      | Trigger.XNone => Ok None
      | Trigger.XList [] => Ok (Some [])
      | Trigger.XList ((first :: _) as marks) =>
          process_triggers rest data first (Some marks)
      end
  end.

(** The dict returned: ["data"] and ["xmarks"]. As in the batch aligner,
    a [None] trace (the empty channel name) ends the embedding with a
    [TypeError]. *)
Definition run_filters_and_triggers_on_trace_data_and_shift
    (trace_data : NumpyArrays.t) (tracenr : nat) (tracetype : string)
    (filter_group trigger_group : list (string * params)) (shift : Z)
  : result (trace * option (list (option Z))) :=
  r ← NumpyArrays.get_trace trace_data tracetype (Z.of_nat tracenr);
  match r with
  | None => Raise TypeError
  | Some row =>
      data ← process_filters filter_group (Helpers.shift4 row shift nan);
      xmarks ← process_triggers trigger_group data (Some 0) None;
      Ok (data, xmarks)
  end.

End WithPlugins.
End Model.

(** ** File sizes ([align/tracelib/helperFunctions.py])

    The functions read the size of a file; here they take it as their
    first argument. *)

Module HelperFunctions.

Inductive outcome (A : Type) : Type :=
| Returns (a : A)
| RaisesValueError
| RaisesZeroDivisionError.
Arguments Returns {A} a.
Arguments RaisesValueError {A}.
Arguments RaisesZeroDivisionError {A}.

Section WithFloatDivision.

(** [int(a / b)] for Python integers [a] and [b]: the quotient is
    computed in floating point (rounded to a double) and truncated. As
    the other floating-point computations, it is an argument here. *)
Variable int_of_true_division : Z → Z → Z.

Definition checkFileSize (fileSize nrTraces length itemsize : Z) : bool :=
  fileSize =? itemsize * nrTraces * length.

Definition getSpareBytes (fileSize nrTraces length itemsize : Z) : outcome Z :=
  let arraySize := itemsize * nrTraces * length in
  if fileSize =? arraySize then Returns 0
  else if fileSize <? arraySize then RaisesValueError
  else if nrTraces =? 0 then RaisesZeroDivisionError
  else if (fileSize - arraySize) mod nrTraces =? 0
       then Returns (int_of_true_division (fileSize - arraySize) nrTraces)
       else Returns 0.

Definition getMaximumTracesInFile (fileSize length itemsize : Z) : outcome Z :=
  let traceSize := itemsize * length in
  if traceSize =? 0 then RaisesZeroDivisionError
  else Returns (int_of_true_division fileSize traceSize).

(** The shape [DataObject.load] maps a complete channel file with:
    [self.length += spareBytes]. *)
Definition load_shape (fileSize nrTraces length itemsize : Z) : outcome (Z * Z) :=
  match getSpareBytes fileSize nrTraces length itemsize with
  | Returns spareBytes => Returns (nrTraces, length + spareBytes)
  | RaisesValueError => RaisesValueError
  | RaisesZeroDivisionError => RaisesZeroDivisionError
  end.

End WithFloatDivision.

End HelperFunctions.

(** * Properties *)

Import BatchProcessingThread.

(** ** Concrete plugins and inputs used below *)

Definition dict (l : list (string * value)) : params := list_to_map l.

(** The loaders over the embedded plugins. The two floating-point
    kernels are never evaluated in the examples: the moving average lacks
    a parameter there, and the high-pass filter is flagged as modifying
    and only scanned. *)
Definition shipped_filters : string → option Filter.Filter :=
  Filter.get_filter_by_name (fun data _ => data) (fun _ _ _ data => data).

(** The settings of a high-pass filter flagged as modifying. *)
Definition modifying_highpass : string * params :=
  ("highpass_filter",
   dict [("enabled", VBool true); ("modify_data", VBool true); ("order", VInt 6);
         ("sampleFrequency", VInt 1000); ("cutoffFreq", VInt 100)]).
Definition shipped_triggers : string → option Trigger.Trigger :=
  Trigger.get_trigger_by_name.

(** A dataset with the single channel [em]. *)
Definition em_dataset (rows : list trace) : NumpyArrays.t :=
  {| NumpyArrays._npy_mm := {[ "em" := rows ]};
     NumpyArrays._records_written := 0;
     NumpyArrays.number_of_traces := len rows;
     NumpyArrays.logged := [] |}.

(** The reading of the specification for the output length: the largest
    span [anchor2 - anchor1] among the traces marked valid, plus the width
    of the cut region; [None] when no trace is valid. *)
Fixpoint spans_of_valid (peaks : list (Z * Z)) (valid : list bool) : list Z :=
  match peaks, valid with
  | (anchor1, anchor2) :: peaks', v :: valid' =>
      if v then (anchor2 - anchor1) :: spans_of_valid peaks' valid'
      else spans_of_valid peaks' valid'
  | _, _ => []
  end.

Definition maximum (l : list Z) : option Z :=
  match l with
  | [] => None
  | x :: l' => Some (foldr Z.max x l')
  end.

Definition spec_new_trace_length (self : BatchProcessingThread.t) : option Z :=
  (fun m => m + ((region_around_peak self).2 - (region_around_peak self).1))
    <$> maximum (spans_of_valid (peak_array self) (valid_traces_array self)).

(** Two traces whose threshold windows have different widths: the signal
    stays at 9 for two samples in the first and for four in the second. *)
Definition two_windows : BatchProcessingThread.t :=
  init (em_dataset [[0; 9; 9; 0; 0; 0; 0; 0]; [0; 9; 9; 9; 9; 0; 0; 0]])
       []
       [("threshold_trigger",
         dict [("threshold", VInt 5); ("hysteresis", VInt 0);
               ("min_range", VInt 1); ("inverse", VBool false)])]
       (0, 1) "em" None.


(** Two traces, no filter, and a hold-off trigger followed by a
    threshold trigger configured without its parameters. *)
Definition missing_threshold_parameters : BatchProcessingThread.t :=
  init (em_dataset [[1; 2; 3]; [4; 5; 6]])
       []
       [("hold_off", dict [("holdoff", VInt 1)]); ("threshold_trigger", dict [])]
       (0, 1) "em" None.




(** One trace with a peak at index 3 and a first-peak trigger. *)
Definition one_peak : BatchProcessingThread.t :=
  init (em_dataset [[0; 1; 2; 70; 2; 1; 0; 0]])
       []
       [("first_peak_trigger", dict [("threshold", VInt 60)])]
       (-2, 3) "em" None.

(** The parameters of a threshold trigger. *)
Definition threshold_parameters : params :=
  dict [("threshold", VInt 5); ("hysteresis", VInt 0);
        ("min_range", VInt 1); ("inverse", VBool false)].

(** The loader with the moving average over integer samples. *)
Definition averaging_filters : string → option Filter.Filter :=
  Filter.get_filter_by_name Filter.MovingAverageFilter._moving_average
    (fun _ _ _ data => data).

(** One trace of eight samples, a moving average over two samples, a
    hold-off of four samples, and a cut region of four samples from the
    mark on. *)
Definition averaged_trace : BatchProcessingThread.t :=
  init (em_dataset [[0; 0; 0; 0; 0; 0; 0; 0]])
       [("moving_average_filter", dict [("enabled", VBool true); ("window_len", VInt 2)])]
       [("hold_off", dict [("holdoff", VInt 4)])]
       (0, 4) "em" None.

(** One flat trace, and a threshold trigger followed by a hold-off. *)
Definition flat_trace_chain : BatchProcessingThread.t :=
  init (em_dataset [[0; 0; 0]])
       []
       [("threshold_trigger", threshold_parameters);
        ("hold_off", dict [("holdoff", VInt 1)])]
       (0, 1) "em" None.

(** A sequence of [add_trace] calls on a dataset of the array backend,
    each with its channel and its row. *)
Definition add_traces (self : NumpyArrays.t) (calls : list (string * trace))
  : result NumpyArrays.t :=
  for_each (fun s call => NumpyArrays.add_trace s call.1 call.2) self calls.

(** Every channel of the dataset has [n] rows. *)
Definition has_rows (self : NumpyArrays.t) (n : nat) : Prop :=
  ∀ c rows, NumpyArrays._npy_mm self !! c = Some rows → length rows = n.

(** The channel of a call is registered and its rows have the length of
    the row supplied. *)
Definition fits (self : NumpyArrays.t) (call : string * trace) : Prop :=
  ∃ rows, NumpyArrays._npy_mm self !! call.1 = Some rows
          ∧ Forall (fun r => length r = length call.2) rows.

(** The dataset after [k] more warnings. *)
Definition warned (self : NumpyArrays.t) (k : nat) : NumpyArrays.t :=
  {| NumpyArrays._npy_mm := NumpyArrays._npy_mm self;
     NumpyArrays._records_written := NumpyArrays._records_written self;
     NumpyArrays.number_of_traces := NumpyArrays.number_of_traces self;
     NumpyArrays.logged := NumpyArrays.logged self ++ replicate k NumpyArrays.warning |}.

(** Two signal channels of two declared traces, two samples each. *)
Definition two_channels : NumpyArrays.t :=
  {| NumpyArrays._npy_mm :=
       <["em" := [[0; 0]; [0; 0]]]> (<["power" := [[0; 0]; [0; 0]]]> ∅);
     NumpyArrays._records_written := 0;
     NumpyArrays.number_of_traces := 2;
     NumpyArrays.logged := [] |}.

(** The writes of the cutting loop for two valid traces: first the power
    row, then the em row of each trace. *)
Definition interleaved_calls : list (string * trace) :=
  [("power", [1; 1]); ("em", [2; 2]); ("power", [3; 3]); ("em", [4; 4])].


(** Arrays of unsigned bytes: [tobytes] is the list of the samples. *)
Definition uint8_tobytes (a : trace) : list Z := a.


Definition d15_channel (n L : nat) (c : string) : D15.D15TraceData :=
  D15.register_data_file (D15.startRecord (Z.of_nat n)) c (Z.of_nat L) 1.

(** Every row of channel [c] has [L] samples. *)
Definition rows_of_length (new : NumpyArrays.t) (c : string) (L : Z) : Prop :=
  ∃ rows, NumpyArrays._npy_mm new !! c = Some rows
          ∧ Forall (fun r => len r = L) rows.

(** The cut region of [s] is the whole-trace region of one of its traces:
    [[0, length of the filtered buffer of trace j]]. *)
Definition whole_trace_region (get_filter_by_name : string → option Filter.Filter)
    (s : BatchProcessingThread.t) (j : nat) (buf : trace) : Prop :=
  ∃ raw md,
    fetch s (tracetype s) j = Ok raw
    ∧ filter_stage get_filter_by_name s raw = Ok (md, buf)
    ∧ region_around_peak s = (0, len buf).

(** Three traces of different lengths cannot be one array; three traces
    of one length, a modifying filter and no trigger. *)
Definition pure_modify_three : BatchProcessingThread.t :=
  init (em_dataset [[1; -2; 3; 4]; [5; 6; -7; 8]; [9; 9; 9; 9]])
       [modifying_highpass]
       []
       (-1, 2) "em" None.

(** What the cutting phase keeps: the source, and the length of the rows
    of an output channel. *)
Definition keeps_rows (s s' : BatchProcessingThread.t) : Prop :=
  trace_data s' = trace_data s
  ∧ filter_dict s' = filter_dict s
  ∧ valid_traces_array s' = valid_traces_array s
  ∧ ∀ c L, rows_of_length (new_trace_data s) c L →
           rows_of_length (new_trace_data s') c L.

Ltac unfold_bind := unfold mbind, result_bind, bind in *.

(** A source with a power and an em channel, two traces each, and a
    hold-off trigger that marks index 1 of every trace. *)
Definition power_and_em : BatchProcessingThread.t :=
  init {| NumpyArrays._npy_mm :=
            <["em" := [[1; 2; 3]; [4; 5; 6]]]>
              (<["power" := [[11; 12; 13]; [14; 15; 16]]]> ∅);
          NumpyArrays._records_written := 0;
          NumpyArrays.number_of_traces := 2;
          NumpyArrays.logged := [] |}
       []
       [("hold_off", dict [("holdoff", VInt 1)])]
       (0, 2) "em" None.

(** ** Predicates and inputs of the further properties *)

(** [a] is a better peak value than [b]: larger when maxima are looked
    for, smaller when minima are. *)
Definition beats (findMax : bool) (a b : Z) : Prop :=
  if findMax then b < a else a < b.

(** What the loop of [findFirstPeak] has established before iteration
    [i]: with a peak, the peak meets the threshold, beats every sample
    before it and is beaten by none between it and [i]; without one,
    [peakPos] is still [0] and every sample seen that beats the first
    one fails the threshold. *)
Definition peak_invariant (tr : trace) (threshold : option Z) (findMax : bool)
    (i : Z) (hasPeak : bool) (peakPos : Z) : Prop :=
  if hasPeak then
    0 < peakPos < i
    ∧ Dsp.meets threshold findMax (Dsp.at_ tr peakPos) = true
    ∧ (∀ j, 0 <= j < peakPos → beats findMax (Dsp.at_ tr peakPos) (Dsp.at_ tr j))
    ∧ (∀ j, peakPos < j < i → ¬ beats findMax (Dsp.at_ tr j) (Dsp.at_ tr peakPos))
  else
    peakPos = 0
    ∧ ∀ j, 0 <= j < i → beats findMax (Dsp.at_ tr j) (Dsp.at_ tr 0) →
           Dsp.meets threshold findMax (Dsp.at_ tr j) = false.

(** The tests of the threshold trigger: a sample that opens a window and
    a sample that closes it. *)
Definition enters (threshold hysteresis : Z) (inverse : bool) (v : Z) : bool :=
  if inverse then v <=? threshold - hysteresis else threshold + hysteresis <=? v.

Definition leaves (threshold hysteresis : Z) (inverse : bool) (v : Z) : bool :=
  if inverse then threshold + hysteresis <=? v else v <=? threshold - hysteresis.

(** A source with an em and a plain channel, two traces each, and a
    rising-edge trigger that finds a mark in the second trace only. *)
Definition em_and_plain : BatchProcessingThread.t :=
  init {| NumpyArrays._npy_mm :=
            <["em" := [[1; 2; 3]; [4; 5; 6]]]> (<["plain" := [[10]; [20]]]> ∅);
          NumpyArrays._records_written := 0;
          NumpyArrays.number_of_traces := 2;
          NumpyArrays.logged := [] |}
       []
       [("rising_edge_trigger", dict [("threshold", VInt 4)])]
       (0, 2) "em" None.

(** One trace and a trigger chain that names a trigger no file of
    [align/trigger] defines. *)
Definition misspelled_trigger : BatchProcessingThread.t :=
  init (em_dataset [[1; 2; 3]])
       []
       [("rising_edge", dict [("threshold", VInt 1)])]
       (0, 1) "em" None.

(** What the theorems on file sizes take from floating-point division:
    integers of magnitude at most 2^53 are doubles, and when their
    quotient is an integer it is one as well, so the division returns
    it exactly. *)
Definition exact_on_integer_quotients (int_of_true_division : Z → Z → Z) : Prop :=
  ∀ a b q, b ≠ 0 → a = q * b → Z.abs a <= 2 ^ 53 → Z.abs b <= 2 ^ 53 →
           int_of_true_division a b = q.

(** The row the cutting phase hands to [add_trace] for trace [tracenr]
    and channel [trace_type]: the cut of [L] samples of the trace from
    [anchor1 + region_start] on, after the modifying filters. *)
Definition cut_row (get_filter_by_name : string → option Filter.Filter)
    (s : BatchProcessingThread.t) (L : Z) (tracenr : nat) (trace_type : string)
  : result trace :=
  row ← fetch s trace_type tracenr;
  cutted ← cut row ((default (0, 0) (peak_array s !! tracenr)).1
                    + (region_around_peak s).1) L;
  _run_modifying_filter get_filter_by_name s cutted.

(** The traces the cutting loop visits that are marked valid, in order. *)
Definition valid_traces (s : BatchProcessingThread.t) : list nat :=
  filter (λ i, valid_traces_array s !! i = Some true) (seq 0 (trace_count s)).

(** The writes of the traces [traces], in order: for each trace one
    per signal channel, power before em. *)
Definition writes_of (s : BatchProcessingThread.t) (traces : list nat)
  : list (nat * string) :=
  traces ≫= λ i, (λ c, (i, c)) <$> signal_types s.

(** [calls] are [add_trace] calls with the cut rows of [writes], one
    for one. *)
Definition calls_with_the_cuts (get_filter_by_name : string → option Filter.Filter)
    (s : BatchProcessingThread.t) (L : Z) (writes : list (nat * string))
    (calls : list (string * trace)) : Prop :=
  Forall2 (λ w call, call.1 = w.2 ∧ cut_row get_filter_by_name s L w.1 w.2 = Ok call.2)
          writes calls.

(** ** Generic facts about the loops *)

Lemma for_each_app {S A : Type} (f : S → A → result S) (s : S) (l1 l2 : list A) :
  for_each f s (l1 ++ l2) = (s' ← for_each f s l1; for_each f s' l2).
Proof.
  revert s. induction l1 as [|x l1 IH]; intros s; simpl; [done|].
  destruct (f s x) as [s'|e]; simpl; [apply IH | done].
Qed.

Lemma for_each_invariant {S A : Type} (P : S → Prop) (f : S → A → result S)
    (l : list A) (s s' : S) :
  P s →
  for_each f s l = Ok s' →
  (∀ s x s', P s → f s x = Ok s' → P s') →
  P s'.
Proof.
  intros HP Hrun Hf. revert s HP Hrun.
  induction l as [|x l IH]; intros s HP Hrun; simpl in Hrun.
  - by inversion Hrun; subst.
  - destruct (f s x) as [s1|e] eqn:Hfx; simpl in Hrun; [|done].
    eapply IH; [|exact Hrun]. by eapply Hf.
Qed.

(** ** C1: the uniform output length *)

(** The length [run] computes reads the first row of [peak_array] only. *)
Lemma new_trace_length_first_row self anchors rest :
  peak_array self = anchors :: rest →
  new_trace_length self
  = Ok ((anchors.2 - anchors.1)
        + ((region_around_peak self).2 - (region_around_peak self).1)).
Proof. intros H. unfold new_trace_length. rewrite H. by destruct anchors. Qed.

(** C1 (the code departs from the claim). On [two_windows] both traces are
    valid, with spans 2 and 4, and the cut region is one sample wide: the
    claimed length is the largest span plus the width, 5, and the length
    [run] computes is 3, the span of trace 0 plus the width. *)
Theorem C1_new_trace_length_is_span_of_trace_0 :
  ∃ s, scan shipped_filters shipped_triggers two_windows = Ok s
       ∧ valid_traces_array s = [true; true]
       ∧ peak_array s = [(1, 3); (1, 5)]
       ∧ new_trace_length s = Ok 3
       ∧ spec_new_trace_length s = Some 5.
Proof.
  eexists. split; [vm_compute; reflexivity|].
  repeat split; vm_compute; reflexivity.
Qed.

(** What this does to the output: the window of trace 1 is cut short. *)
Example two_windows_output :
  (s ← run shipped_filters shipped_triggers two_windows;
   Ok (NumpyArrays._npy_mm (new_trace_data s) !! "em"))
  = Ok (Some [[9; 9; 0]; [9; 9; 9]]).
Proof. vm_compute. reflexivity. Qed.

(** ** C2: missing parameters in a chain *)

Section Chains.

Variable get_filter_by_name : string → option Filter.Filter.
Variable get_trigger_by_name : string → option Trigger.Trigger.

Local Abbreviation run_triggers_from := (_run_triggers_from get_trigger_by_name).
Local Abbreviation run_filters_from := (_run_filters_from get_filter_by_name).
Local Abbreviation scan_trace := (run_filters_and_triggers get_filter_by_name get_trigger_by_name).


(** The scan of one trace leaves the configuration alone. *)
Lemma classify_frame self tracenr md buf xm :
  let s := classify self tracenr md buf xm in
  trace_data s = trace_data self ∧ new_trace_data s = new_trace_data self
  ∧ filter_dict s = filter_dict self ∧ trigger_dict s = trigger_dict self
  ∧ tracetype s = tracetype self ∧ trace_count s = trace_count self
  ∧ logged s = logged self.
Proof. unfold classify. repeat case_match; done. Qed.

Lemma scan_trace_inv self tracenr s :
  scan_trace self tracenr = Ok s →
  ∃ raw md buf xm,
    fetch self (tracetype self) tracenr = Ok raw
    ∧ filter_stage get_filter_by_name self raw = Ok (md, buf)
    ∧ trigger_stage get_trigger_by_name self buf = Ok xm
    ∧ s = classify self tracenr md buf xm.
Proof.
  unfold run_filters_and_triggers. intros H.
  destruct (fetch self (tracetype self) tracenr) as [raw|] eqn:Hraw; [|done].
  simpl in H.
  destruct (filter_stage get_filter_by_name self raw) as [[md buf]|] eqn:Hf; [|done].
  simpl in H.
  destruct (trigger_stage get_trigger_by_name self buf) as [xm|] eqn:Ht; [|done].
  simpl in H. inversion H. by exists raw, md, buf, xm.
Qed.

Lemma scan_trace_frame self tracenr s :
  scan_trace self tracenr = Ok s →
  trace_data s = trace_data self ∧ new_trace_data s = new_trace_data self
  ∧ filter_dict s = filter_dict self ∧ trigger_dict s = trigger_dict self
  ∧ tracetype s = tracetype self ∧ trace_count s = trace_count self
  ∧ logged s = logged self.
Proof.
  intros (raw & md & buf & xm & _ & _ & _ & ->)%scan_trace_inv.
  apply classify_frame.
Qed.

(** An exception in the scan of the first trace ends [run]. *)
Lemma run_aborts_at_first_trace self e :
  (0 < trace_count self)%nat →
  scan_trace self 0%nat = Raise e →
  run get_filter_by_name get_trigger_by_name self = Raise e.
Proof.
  intros Hn H. unfold run, scan.
  destruct (trace_count self) as [|n]; [lia|].
  simpl. by rewrite H.
Qed.







End Chains.



(** The run of [missing_threshold_parameters]: in both traces the
    hold-off finds its mark, the threshold trigger raises [KeyError]
    for its missing parameters, and the trace is classified from the
    mark of the hold-off. *)
Example missing_threshold_parameters_output :
  (s ← run shipped_filters shipped_triggers missing_threshold_parameters;
   Ok (valid_traces_array s, peak_array s,
       NumpyArrays._npy_mm (new_trace_data s) !! "em"))
  = Ok ([true; true], [(1, 1); (1, 1)], Some [[2]; [5]]).
Proof. vm_compute. reflexivity. Qed.

(** ** C3 and C5: the classification of a trace *)

Section Classification.

Variable get_filter_by_name : string → option Filter.Filter.
Variable get_trigger_by_name : string → option Trigger.Trigger.

Local Abbreviation scan_trace :=
  (run_filters_and_triggers get_filter_by_name get_trigger_by_name).

Lemma scan_trace_classifies self tracenr raw md buf xm :
  fetch self (tracetype self) tracenr = Ok raw →
  filter_stage get_filter_by_name self raw = Ok (md, buf) →
  trigger_stage get_trigger_by_name self buf = Ok xm →
  scan_trace self tracenr = Ok (classify self tracenr md buf xm).
Proof.
  intros Hraw Hf Ht. unfold run_filters_and_triggers.
  rewrite Hraw. simpl. rewrite Hf. simpl. by rewrite Ht.
Qed.

(** Without a configured trigger [xmarks] stays [None]. *)
Lemma trigger_stage_no_trigger self buf :
  trigger_dict self = [] → trigger_stage get_trigger_by_name self buf = Ok None.
Proof. intros H. unfold trigger_stage. by rewrite H. Qed.

(** So it does when the first trigger stage lacks a parameter. *)
Lemma trigger_stage_first_KeyError self buf name p rest :
  trigger_dict self = (name, p) :: rest →
  trigger_process_data get_trigger_by_name name buf (Some 0) p = Raise KeyError →
  trigger_stage get_trigger_by_name self buf = Ok None.
Proof.
  intros H He. unfold trigger_stage, _run_triggers. rewrite H. simpl. by rewrite He.
Qed.


(** C5 (amended). When the trigger chain returns exactly one mark [m] on the
    buffer it searched, with [m + region_start >= 0] and
    [m + region_end <= length of that buffer], the scan classifies the
    trace as valid and stores [(m, m)] as its anchor pair. The buffer is
    the trace itself when no filter is configured. *)
Theorem C5_single_mark_valid self tracenr raw md buf m :
  (tracenr < length (valid_traces_array self))%nat →
  (tracenr < length (peak_array self))%nat →
  fetch self (tracetype self) tracenr = Ok raw →
  filter_stage get_filter_by_name self raw = Ok (md, buf) →
  trigger_stage get_trigger_by_name self buf = Ok (Some [Some m]) →
  0 <= m + (region_around_peak self).1 →
  m + (region_around_peak self).2 <= len buf →
  (filter_dict self = [] → buf = raw)
  ∧ ∃ s, scan_trace self tracenr = Ok s
         ∧ valid_traces_array s !! tracenr = Some true
         ∧ peak_array s !! tracenr = Some (m, m)
         ∧ region_around_peak s = region_around_peak self.
Proof.
  intros Hv Hp Hraw Hf Ht Hlo Hhi. split.
  { intros Hnil. unfold filter_stage in Hf. rewrite Hnil in Hf. by inversion Hf. }
  eexists. split.
  { by eapply scan_trace_classifies. }
  simpl.
  replace (len buf <? m + (region_around_peak self).2) with false
    by (symmetry; apply Z.ltb_ge; lia).
  replace (m + (region_around_peak self).1 <? 0) with false
    by (symmetry; apply Z.ltb_ge; lia).
  simpl. by rewrite !list_lookup_insert_eq.
Qed.

End Classification.



Lemma C5_single_mark_valid_witness :
  ∃ s, run_filters_and_triggers shipped_filters shipped_triggers one_peak 0 = Ok s
       ∧ valid_traces_array s !! 0%nat = Some true
       ∧ peak_array s !! 0%nat = Some (3, 3)
       ∧ region_around_peak s = (-2, 3).
Proof.
  destruct (C5_single_mark_valid shipped_filters shipped_triggers
              one_peak 0%nat [0; 1; 2; 70; 2; 1; 0; 0] None
              [0; 1; 2; 70; 2; 1; 0; 0] 3)
    as (_ & s & Hs).
  - simpl. lia.
  - simpl. lia.
  - vm_compute. reflexivity.
  - vm_compute. reflexivity.
  - vm_compute. reflexivity.
  - simpl. lia.
  - simpl. vm_compute. discriminate.
  - exists s. exact Hs.
Defined.

(** C5 (counterexample). In [averaged_trace] the trace has eight samples
    and the trigger chain returns the single mark 4, with
    [4 + region_start >= 0] and [4 + region_end <= 8]. The moving average
    leaves a buffer of seven samples, the bounds check reads the length
    of that buffer, and the scan classifies the trace as invalid and
    stores no anchor pair. *)
Lemma C5_bounds_are_checked_on_the_filtered_buffer :
  fetch averaged_trace "em" 0 = Ok [0; 0; 0; 0; 0; 0; 0; 0]
  ∧ filter_stage averaging_filters averaged_trace [0; 0; 0; 0; 0; 0; 0; 0]
    = Ok (None, [0; 0; 0; 0; 0; 0; 0])
  ∧ trigger_stage shipped_triggers averaged_trace [0; 0; 0; 0; 0; 0; 0]
    = Ok (Some [Some 4])
  ∧ 0 <= 4 + (region_around_peak averaged_trace).1
  ∧ 4 + (region_around_peak averaged_trace).2 <= len [0; 0; 0; 0; 0; 0; 0; 0]
  ∧ ∃ s, run_filters_and_triggers averaging_filters shipped_triggers averaged_trace 0
         = Ok s
         ∧ valid_traces_array s = [false]
         ∧ peak_array s = [(0, 0)].
Proof.
  split_and!; try (vm_compute; reflexivity); try (vm_compute; discriminate).
  eexists. split_and!; vm_compute; reflexivity.
Qed.

(** ** C4: what a trigger returns when it finds no mark *)

(** What the triggers other than the threshold trigger return: the list
    with the mark, or the empty list when they find none. *)
Lemma sibling_triggers_return_marks (t : Trigger.variant) (data : trace)
    (offset : option Z) (p : params) (e : Trigger.xmarks_entry) :
  t ≠ Trigger.threshold_trigger →
  Trigger.process_data t data offset p = Ok e →
  e = Trigger.XList [] ∨ ∃ m, e = Trigger.XList [Some m].
Proof.
  intros Ht He. destruct t; simpl in *; try done;
    [ unfold Trigger.HoldoffTrigger.process_data in He
    | unfold Trigger.RisingEdgeTrigger.process_data in He
    | unfold Trigger.FallingEdgeTrigger.process_data in He
    | unfold Trigger.FirstPeakFilter.process_data in He
    | unfold Trigger.LastPeakFilter.process_data in He ];
    unfold_bind; repeat case_match; simplify_eq; eauto.
Qed.

(** C4 (the code departs from the claim). On the flat trace [0; 0; 0]
    the threshold trigger finds no window and returns the two
    placeholders [[None, None]], where the rising-edge, first-peak,
    last-peak and hold-off triggers return the empty list when they find
    no mark. The trigger chain of the batch aligner takes the first
    placeholder for the next offset: with a hold-off after the threshold
    trigger the chain raises [TypeError], and so do the scan of the trace
    and [run]. *)
Theorem C4_placeholders_break_the_trigger_chain :
  Trigger.process_data Trigger.threshold_trigger [0; 0; 0] (Some 0) threshold_parameters
  = Ok (Trigger.XList [None; None])
  ∧ Trigger.process_data Trigger.rising_edge_trigger [0; 0; 0] (Some 0)
      (dict [("threshold", VInt 5)]) = Ok (Trigger.XList [])
  ∧ Trigger.process_data Trigger.first_peak_trigger [0; 0; 0] (Some 0)
      (dict [("threshold", VInt 5)]) = Ok (Trigger.XList [])
  ∧ Trigger.process_data Trigger.last_peak_filter [0; 0; 0] (Some 0)
      (dict [("threshold", VInt 5)]) = Ok (Trigger.XList [])
  ∧ Trigger.process_data Trigger.hold_off [0; 0; 0] (Some 0)
      (dict [("holdoff", VInt 3)]) = Ok (Trigger.XList [])
  ∧ _run_triggers shipped_triggers flat_trace_chain [0; 0; 0] (Some 0)
    = Raise TypeError
  ∧ run_filters_and_triggers shipped_filters shipped_triggers flat_trace_chain 0
    = Raise TypeError
  ∧ run shipped_filters shipped_triggers flat_trace_chain = Raise TypeError.
Proof. split_and!; vm_compute; reflexivity. Qed.

(** ** C8: opening something that is not a dataset *)

Section Opening.

Context {D N : Type}.
Variable D15TraceData : string → result D.
Variable NumpyArrays : list (string * string) → result N.

Local Abbreviation open_trace_data :=
  (AlignTraceDataFactory.open_trace_data D15TraceData NumpyArrays).

(** The [else] of the function belongs to the [isinstance] tests: it is
    reached by an argument that is neither a string, a path nor a dict. *)
Lemma open_trace_data_other_type :
  open_trace_data AlignTraceDataFactory.ArgOther = Raise ValueError.
Proof. reflexivity. Qed.

(** A string or path without the extension [.meta] falls through. *)
Lemma open_trace_data_other_extension s :
  AlignTraceDataFactory.splitext_ext s ≠ ".meta" →
  open_trace_data (AlignTraceDataFactory.ArgStr s) = Ok None
  ∧ open_trace_data (AlignTraceDataFactory.ArgPath s) = Ok None.
Proof.
  intros H. simpl.
  destruct (String.eqb_spec (AlignTraceDataFactory.splitext_ext s) ".meta"); done.
Qed.

(** C8 (the code departs from the claim). For the path ["traces.npy"],
    which is neither a dict nor the path of a [.meta] file, the claim and
    the docstring of the function promise a [ValueError]; the function
    returns [None]. *)
Theorem C8_open_npy_path_returns_None :
  AlignTraceDataFactory.splitext_ext "traces.npy" = ".npy"
  ∧ open_trace_data (AlignTraceDataFactory.ArgStr "traces.npy") = Ok None
  ∧ open_trace_data (AlignTraceDataFactory.ArgPath "traces.npy") = Ok None.
Proof. split_and!; reflexivity. Qed.

End Opening.

(** ** The write budget of the array backend (C9, C7) *)

Lemma add_trace_dropped self c d :
  NumpyArrays.number_of_traces self <= NumpyArrays._records_written self →
  NumpyArrays.add_trace self c d = Ok (warned self 1).
Proof.
  intros H. unfold NumpyArrays.add_trace.
  by replace (_ <=? _) with true by (symmetry; apply Z.leb_le; lia).
Qed.

Lemma add_trace_stored self c d rows row (w : nat) :
  NumpyArrays._records_written self = Z.of_nat w →
  Z.of_nat w < NumpyArrays.number_of_traces self →
  NumpyArrays._npy_mm self !! c = Some rows →
  rows !! w = Some row →
  length d = length row →
  NumpyArrays.add_trace self c d
  = Ok {| NumpyArrays._npy_mm := <[c := <[w := d]> rows]> (NumpyArrays._npy_mm self);
          NumpyArrays._records_written := Z.of_nat w + 1;
          NumpyArrays.number_of_traces := NumpyArrays.number_of_traces self;
          NumpyArrays.logged := NumpyArrays.logged self |}.
Proof.
  intros Hw Hlt Hc Hrow Hlen. unfold NumpyArrays.add_trace.
  replace (_ <=? _) with false by (symmetry; apply Z.leb_gt; lia).
  unfold NumpyArrays.get_traces, NumpyArrays.setitem, getitem, NumpyArrays.assign_row.
  rewrite Hc, Hw. simpl.
  replace (Z.of_nat w <? 0) with false by (symmetry; apply Z.ltb_ge; lia).
  replace (Z.of_nat w <? 0) with false by (symmetry; apply Z.ltb_ge; lia).
  rewrite Nat2Z.id, Hrow. simpl.
  by rewrite bool_decide_eq_true_2.
Qed.

Lemma add_traces_full self calls :
  NumpyArrays.number_of_traces self <= NumpyArrays._records_written self →
  add_traces self calls = Ok (warned self (length calls)).
Proof.
  revert self. induction calls as [|call calls IH]; intros self H.
  - unfold add_traces, warned. simpl. rewrite app_nil_r. by destruct self.
  - unfold add_traces. simpl. rewrite add_trace_dropped by done. simpl.
    fold (add_traces (warned self 1) calls). rewrite IH by done.
    unfold warned. simpl. by rewrite <-app_assoc.
Qed.

(** What a sequence of calls does to a dataset of [n] declared traces
    that holds [w] records: the calls are stored at the rows [w], [w + 1],
    ... of their channels while the counter is below [n]. *)
Lemma add_traces_from (n : nat) calls : ∀ self (w : nat),
  NumpyArrays.number_of_traces self = Z.of_nat n →
  NumpyArrays._records_written self = Z.of_nat w →
  (w ≤ n)%nat →
  has_rows self n →
  Forall (fits self) calls →
  ∃ self',
    add_traces self calls = Ok self'
    ∧ NumpyArrays.number_of_traces self' = Z.of_nat n
    ∧ NumpyArrays._records_written self' = Z.of_nat (Nat.min (w + length calls) n)
    ∧ NumpyArrays.logged self'
      = NumpyArrays.logged self ++ replicate (w + length calls - n) NumpyArrays.warning
    ∧ (∀ c rows, NumpyArrays._npy_mm self !! c = Some rows →
         ∃ rows', NumpyArrays._npy_mm self' !! c = Some rows'
                  ∧ length rows' = length rows
                  ∧ ∀ j, (j < w ∨ w + length calls ≤ j)%nat → rows' !! j = rows !! j)
    ∧ (∀ c, NumpyArrays._npy_mm self !! c = None → NumpyArrays._npy_mm self' !! c = None)
    ∧ (∀ k c d, calls !! k = Some (c, d) → (w + k < n)%nat →
         ∃ rows', NumpyArrays._npy_mm self' !! c = Some rows' ∧ rows' !! (w + k)%nat = Some d).
Proof.
  induction calls as [|[c0 d0] calls IH]; intros self w Hn Hw Hle Hrows Hfits.
  - exists self. unfold add_traces. simpl.
    replace (w + 0 - n)%nat with 0%nat by lia. simpl. rewrite app_nil_r.
    split_and!; try done.
    + rewrite Hw. f_equal. lia.
    + intros c rows Hc. by exists rows.
  - apply Forall_cons in Hfits as [(rows0 & Hc0 & Hlen0) Hfits]. simpl in Hc0, Hlen0.
    destruct (decide (w < n)%nat) as [Hlt|Hge].
    + (* the call is stored at row [w] *)
      pose proof (Hrows c0 rows0 Hc0) as Hn0.
      destruct (lookup_lt_is_Some_2 rows0 w) as [row0 Hrow0]; [lia|].
      assert (length d0 = length row0) as Hd0.
      { symmetry. eapply (Forall_lookup_1 _ _ _ _ Hlen0 Hrow0). }
      set (self1 :=
        {| NumpyArrays._npy_mm := <[c0 := <[w := d0]> rows0]> (NumpyArrays._npy_mm self);
           NumpyArrays._records_written := Z.of_nat w + 1;
           NumpyArrays.number_of_traces := NumpyArrays.number_of_traces self;
           NumpyArrays.logged := NumpyArrays.logged self |}).
      destruct (IH self1 (S w)) as (self' & Hrun & Hn' & Hw' & Hlog' & Hold & Hnone & Hnew).
      * done.
      * simpl. lia.
      * lia.
      * intros c rows. simpl. destruct (decide (c = c0)) as [->|Hne].
        -- rewrite lookup_insert_eq. intros [= <-]. rewrite length_insert. eauto.
        -- rewrite lookup_insert_ne by done. apply Hrows.
      * eapply Forall_impl; [exact Hfits|]. intros [c d] (rows & Hc & Hlen).
        simpl in *. destruct (decide (c = c0)) as [->|Hne].
        -- exists (<[w := d0]> rows0). simpl. rewrite lookup_insert_eq. split; [done|].
           rewrite Hc0 in Hc. injection Hc as <-.
           apply Forall_insert; [done|].
           rewrite Hd0. eapply (Forall_lookup_1 _ _ _ _ Hlen Hrow0).
        -- exists rows. simpl. by rewrite lookup_insert_ne.
      * exists self'. split_and!.
        -- unfold add_traces. simpl.
           rewrite (add_trace_stored self c0 d0 rows0 row0 w) by (done || lia).
           exact Hrun.
        -- done.
        -- rewrite Hw'. simpl length. f_equal. lia.
        -- rewrite Hlog'. simpl length. simpl NumpyArrays.logged. do 2 f_equal. lia.
        -- intros c rows Hc. destruct (decide (c = c0)) as [->|Hne].
           ++ destruct (Hold c0 (<[w := d0]> rows0)) as (rows' & Hc' & Hlen' & Hsame).
              { simpl. by rewrite lookup_insert_eq. }
              rewrite Hc0 in Hc. injection Hc as <-.
              exists rows'. split_and!; [done|by rewrite Hlen', length_insert|].
              intros j Hj. simpl in Hj. rewrite Hsame by lia.
              apply list_lookup_insert_ne. lia.
           ++ destruct (Hold c rows) as (rows' & Hc' & Hlen' & Hsame).
              { simpl. by rewrite lookup_insert_ne. }
              exists rows'. split_and!; [done..|].
              intros j Hj. simpl in Hj. apply Hsame. lia.
        -- intros c Hc. apply Hnone. simpl.
           rewrite lookup_insert_ne; [done|]. intros ->. by rewrite Hc0 in Hc.
        -- intros k c d Hk Hkn. destruct k as [|k]; simpl in Hk.
           ++ injection Hk as -> ->.
              destruct (Hold c (<[w := d]> rows0)) as (rows' & Hc' & Hlen' & Hsame).
              { simpl. by rewrite lookup_insert_eq. }
              exists rows'. split; [done|].
              rewrite Nat.add_0_r, Hsame by lia.
              apply list_lookup_insert_eq. lia.
           ++ destruct (Hnew k c d Hk) as (rows' & Hc' & Hrow'); [lia|].
              exists rows'. split; [done|].
              by replace (w + S k)%nat with (S w + k)%nat by lia.
    + (* the budget is used up: every call is dropped *)
      exists (warned self (length ((c0, d0) :: calls))). split_and!.
      * apply add_traces_full. lia.
      * done.
      * simpl NumpyArrays._records_written. simpl length. rewrite Hw. f_equal. lia.
      * by replace (w + length ((c0, d0) :: calls) - n)%nat
          with (length ((c0, d0) :: calls)) by lia.
      * intros c rows Hc. by exists rows.
      * done.
      * intros k c d _ Hk. lia.
Qed.

(** C9. A dataset of the array backend declared with [n] traces, nothing
    written yet, takes any sequence of [add_trace] calls on its channels:
    the calls share one counter, the call number [k] (from 0, over all
    channels) is stored, at row [k] of its channel, exactly when [k < n],
    and what comes after the first [n] calls only adds warnings. *)
Theorem C9_shared_write_budget (self : NumpyArrays.t) (calls : list (string * trace))
    (n : nat) :
  NumpyArrays.number_of_traces self = Z.of_nat n →
  NumpyArrays._records_written self = 0 →
  has_rows self n →
  Forall (fits self) calls →
  ∃ self',
    add_traces self calls = Ok self'
    ∧ NumpyArrays._records_written self' = Z.of_nat (Nat.min (length calls) n)
    ∧ (∀ k c d, calls !! k = Some (c, d) → (k < n)%nat →
         ∃ rows, NumpyArrays._npy_mm self' !! c = Some rows ∧ rows !! k = Some d)
    ∧ ∃ self_n, add_traces self (take n calls) = Ok self_n
                ∧ self' = warned self_n (length calls - n).
Proof.
  intros Hn Hw Hrows Hfits.
  destruct (add_traces_from n (take n calls) self 0%nat)
    as (self_n & Hrun_n & Hn_n & Hw_n & _); [done|done|lia|done| |].
  { by apply Forall_take. }
  destruct (add_traces_from n calls self 0%nat)
    as (self' & Hrun & _ & Hw' & _ & _ & _ & Hnew); [done|done|lia|done|done|].
  exists self'. split_and!; [done|done|exact Hnew|].
  exists self_n. split; [done|].
  rewrite <-(take_drop n calls) in Hrun at 1.
  unfold add_traces in *. rewrite for_each_app, Hrun_n in Hrun. simpl in Hrun.
  destruct (decide (n ≤ length calls)%nat) as [Hle|Hgt].
  - fold (add_traces self_n (drop n calls)) in Hrun.
    rewrite add_traces_full, length_drop in Hrun.
    + by inversion Hrun.
    + rewrite Hn_n, Hw_n, length_take. lia.
  - rewrite drop_ge in Hrun by lia. simpl in Hrun. inversion Hrun. subst.
    replace (length calls - n)%nat with 0%nat by lia.
    unfold warned. simpl. rewrite app_nil_r. by destruct self'.
Qed.

Lemma C9_shared_write_budget_witness :
  ∃ self',
    add_traces two_channels interleaved_calls = Ok self'
    ∧ NumpyArrays._records_written self' = 2
    ∧ NumpyArrays._npy_mm self' !! "power" = Some [[1; 1]; [0; 0]]
    ∧ NumpyArrays._npy_mm self' !! "em" = Some [[0; 0]; [2; 2]]
    ∧ NumpyArrays.logged self' = [NumpyArrays.warning; NumpyArrays.warning].
Proof.
  destruct (C9_shared_write_budget two_channels interleaved_calls 2)
    as (self' & Hrun & Hw & _).
  - reflexivity.
  - reflexivity.
  - intros c rows Hc. unfold two_channels in Hc. cbn [NumpyArrays._npy_mm] in Hc.
    destruct (decide (c = "em")) as [->|Hem].
    + vm_compute in Hc. by injection Hc as <-.
    + destruct (decide (c = "power")) as [->|Hpower].
      * vm_compute in Hc. by injection Hc as <-.
      * rewrite lookup_insert_ne, lookup_insert_ne, lookup_empty in Hc by done. done.
  - repeat constructor; eexists; (split; [vm_compute; reflexivity|]);
      repeat constructor.
  - exists self'. split; [exact Hrun|].
    vm_compute in Hrun. injection Hrun as <-. split_and!; vm_compute; reflexivity.
Defined.

(** The cutting loop on a source with both signal channels: two traces
    are valid, four rows are handed to [add_trace], and the two of the
    second trace are dropped. *)
Example power_and_em_output :
  (s ← run shipped_filters shipped_triggers power_and_em;
   Ok (valid_traces_array s,
       NumpyArrays._npy_mm (new_trace_data s) !! "power",
       NumpyArrays._npy_mm (new_trace_data s) !! "em",
       length (NumpyArrays.logged (new_trace_data s))))
  = Ok ([true; true], Some [[12; 13]; [0; 0]], Some [[0; 0]; [2; 3]], 2%nat).
Proof. vm_compute. reflexivity. Qed.

(** ** C7: writing more traces than declared *)





(** ** C6: the length of the traces written *)

Lemma slice_length_le {A : Type} (l : list A) start L :
  0 <= L → len (slice l start (start + L)) <= L.
Proof.
  intros HL. unfold slice, clip, len. rewrite length_take, length_drop.
  destruct (start <? 0) eqn:Hs, (start + L <? 0) eqn:He;
    [apply Z.ltb_lt in Hs | apply Z.ltb_lt in Hs | apply Z.ltb_ge in Hs
    | apply Z.ltb_ge in Hs];
    [apply Z.ltb_lt in He | apply Z.ltb_ge in He | apply Z.ltb_lt in He
    | apply Z.ltb_ge in He]; lia.
Qed.

(** The cut has exactly the length asked for. *)
Lemma cut_length row start L :
  0 <= L → ∃ cutted, cut row start L = Ok cutted ∧ len cutted = L.
Proof.
  intros HL. unfold cut, resize.
  pose proof (slice_length_le row start L HL) as Hle.
  destruct (len (slice row start (start + L)) <? L) eqn:Hlt.
  - apply Z.ltb_lt in Hlt.
    replace (L <? 0) with false by (symmetry; apply Z.ltb_ge; lia).
    eexists. split; [done|].
    unfold len in *. rewrite length_app, length_take, length_replicate. lia.
  - apply Z.ltb_ge in Hlt. eexists. split; [done|]. lia.
Qed.

(** From a start inside the trace (or at its end) the cut is the trace
    from [start] on, followed by zeros, up to the length asked for. *)
Lemma cut_content row start L :
  0 <= start → 0 <= L →
  cut row start L
  = Ok (take (Z.to_nat L) (drop (Z.to_nat start) row ++ replicate (Z.to_nat L) 0)).
Proof.
  intros Hs HL. unfold cut.
  assert (slice row start (start + L) = take (Z.to_nat L) (drop (Z.to_nat start) row))
    as Hslice.
  { unfold slice, clip, len.
    replace (start <? 0) with false by (symmetry; apply Z.ltb_ge; lia).
    replace (start + L <? 0) with false by (symmetry; apply Z.ltb_ge; lia).
    destruct (decide (start <= Z.of_nat (length row))) as [Hin|Hout].
    - rewrite (Z.min_l start) by lia.
      destruct (decide (start + L <= Z.of_nat (length row))) as [Hfit|Hover].
      + rewrite Z.min_l by lia. f_equal. lia.
      + rewrite Z.min_r by lia.
        rewrite !take_ge; [done|rewrite length_drop; lia|rewrite length_drop; lia].
    - rewrite !Z.min_r by lia.
      rewrite (drop_ge row (Z.to_nat start)) by lia.
      rewrite Z.sub_diag, take_nil. done. }
  rewrite Hslice. unfold resize, len.
  destruct (decide (Z.to_nat L ≤ length (drop (Z.to_nat start) row))%nat) as [Hfit|Hover].
  - rewrite take_app_le by done.
    replace (_ <? L) with false; [done|].
    symmetry. apply Z.ltb_ge. rewrite length_take. lia.
  - replace (_ <? L) with true
      by (symmetry; apply Z.ltb_lt; rewrite length_take; lia).
    replace (L <? 0) with false by (symmetry; apply Z.ltb_ge; lia).
    f_equal. rewrite take_take, Nat.min_id.
    rewrite (take_ge (drop _ _)) by lia.
    rewrite take_app_ge by lia. f_equal.
    rewrite take_replicate. f_equal. lia.
Qed.

Lemma assign_row_length row d row' :
  NumpyArrays.assign_row row d = Ok row' → length row' = length row.
Proof.
  unfold NumpyArrays.assign_row. case_bool_decide as Hlen.
  - by intros [= <-].
  - destruct d as [|x [|y d]]; intros [= <-]. apply length_replicate.
Qed.

Lemma getitem_Forall {A : Type} (P : A → Prop) (l : list A) i x :
  Forall P l → getitem l i = Ok x → P x.
Proof.
  intros Hl. unfold getitem.
  repeat case_match; intros [= <-]; by eapply Forall_lookup_1.
Qed.

(** [add_trace] never changes the length of a row. *)
Lemma add_trace_rows_of_length new c' d new' c L :
  NumpyArrays.add_trace new c' d = Ok new' →
  rows_of_length new c L → rows_of_length new' c L.
Proof.
  unfold NumpyArrays.add_trace, NumpyArrays.get_traces, NumpyArrays.setitem.
  intros Hadd (rows & Hc & Hlen).
  destruct (_ <=? _); [injection Hadd as <-; by exists rows|].
  destruct (NumpyArrays._npy_mm new !! c') as [a|] eqn:Hc'; [|done].
  unfold_bind.
  destruct (getitem a _) as [row|] eqn:Hrow; [|done].
  destruct (NumpyArrays.assign_row row d) as [row'|] eqn:Hrow'; [|done].
  injection Hadd as <-. unfold rows_of_length. simpl.
  destruct (decide (c = c')) as [->|Hne].
  - rewrite Hc in Hc'. injection Hc' as <-.
    eexists. rewrite lookup_insert_eq. split; [done|].
    apply Forall_insert; [done|].
    unfold len. rewrite (assign_row_length _ _ _ Hrow').
    by apply (getitem_Forall (fun r => len r = L) rows _ row Hlen Hrow).
  - exists rows. by rewrite lookup_insert_ne.
Qed.

Lemma register_data_file_rows_of_length new c L new' :
  NumpyArrays.register_data_file new c L = Ok new' →
  rows_of_length new' c L
  ∧ ∀ c' L', c' ≠ c → rows_of_length new c' L' → rows_of_length new' c' L'.
Proof.
  unfold NumpyArrays.register_data_file.
  destruct (_ || _) eqn:Hneg; [done|]. intros [= <-].
  apply orb_false_elim in Hneg as [_ HL%Z.ltb_ge]. split.
  - eexists. simpl. rewrite lookup_insert_eq. split; [done|].
    apply Forall_replicate. unfold len. rewrite length_replicate. lia.
  - intros c' L' Hne (rows & Hc' & Hlen). exists rows. simpl.
    by rewrite lookup_insert_ne.
Qed.

Lemma reduce_data_from_mask_rows_of_length new c input_data mask new' c' L' :
  NumpyArrays.reduce_data_from_mask new c input_data mask = Ok new' →
  c' ≠ c → rows_of_length new c' L' → rows_of_length new' c' L'.
Proof.
  unfold NumpyArrays.reduce_data_from_mask. destruct (_ <? _); [done|].
  intros [= <-] Hne (rows & Hc' & Hlen). exists rows. simpl.
  by rewrite lookup_insert_ne.
Qed.

Section Cutting.

Variable get_filter_by_name : string → option Filter.Filter.
Variable get_trigger_by_name : string → option Trigger.Trigger.

Lemma keeps_rows_refl s : keeps_rows s s.
Proof. by repeat split. Qed.

Lemma keeps_rows_trans s1 s2 s3 :
  keeps_rows s1 s2 → keeps_rows s2 s3 → keeps_rows s1 s3.
Proof.
  intros (H1 & H2 & H3 & H4) (G1 & G2 & G3 & G4). repeat split; try congruence.
  intros c L H. by apply G4, H4.
Qed.

Lemma cut_channel_keeps tracenr start L s c s' :
  cut_channel get_filter_by_name tracenr start L s c = Ok s' → keeps_rows s s'.
Proof.
  unfold cut_channel. unfold_bind. intros H.
  destruct (fetch s c tracenr) as [row|]; [|done].
  destruct (cut row start L) as [cutted|]; [|done].
  destruct (_run_modifying_filter _ s cutted) as [filtered|]; [|done].
  destruct (NumpyArrays.add_trace _ c filtered) as [new|] eqn:Hadd; [|done].
  injection H as <-. repeat split; try done.
  intros c0 L0. simpl. by eapply add_trace_rows_of_length.
Qed.

Lemma for_each_keeps {A : Type} (f : BatchProcessingThread.t → A → result BatchProcessingThread.t) l :
  (∀ s x s', f s x = Ok s' → keeps_rows s s') →
  ∀ s s', for_each f s l = Ok s' → keeps_rows s s'.
Proof.
  intros Hf s s' Hrun.
  eapply (for_each_invariant (keeps_rows s)); [apply keeps_rows_refl|exact Hrun|].
  intros s1 x s2 H1 H2. eapply keeps_rows_trans; [exact H1|]. by eapply Hf.
Qed.

Lemma cut_and_modify_traces_keeps s tracenr L s' k :
  cut_and_modify_traces get_filter_by_name s tracenr L = Ok (s', k) → keeps_rows s s'.
Proof.
  unfold cut_and_modify_traces. destruct (negb _).
  - intros [= <- _]. apply keeps_rows_refl.
  - unfold_bind.
    destruct (for_each _ s (signal_types s)) as [s1|] eqn:Hrun; [|done].
    intros [= <- _]. eapply for_each_keeps; [|exact Hrun].
    intros s0 c s0'. apply cut_channel_keeps.
Qed.

Lemma cut_loop_keeps L s s' k :
  cut_loop get_filter_by_name L s = Ok (s', k) → keeps_rows s s'.
Proof.
  unfold cut_loop. intros Hrun.
  eapply (for_each_invariant (fun sk => keeps_rows s sk.1) _ _ (s, 0) (s', k));
    [apply keeps_rows_refl|exact Hrun|].
  intros [s1 k1] tracenr [s2 k2] H1. simpl in *. unfold_bind.
  destruct (cut_and_modify_traces _ s1 tracenr L) as [[s3 k3]|] eqn:Hcut; [|done].
  intros [= <- _]. eapply keeps_rows_trans; [exact H1|].
  by eapply cut_and_modify_traces_keeps.
Qed.

(** Registering the signal channels gives each of them rows of the new
    length. *)
Lemma register_signals L l : ∀ s s',
  for_each (register_signal L) s l = Ok s' →
  trace_data s' = trace_data s ∧ filter_dict s' = filter_dict s
  ∧ valid_traces_array s' = valid_traces_array s
  ∧ ∀ c, c ∈ l ∨ rows_of_length (new_trace_data s) c L →
         rows_of_length (new_trace_data s') c L.
Proof.
  induction l as [|c0 l IH]; intros s s' Hrun; simpl in Hrun.
  - injection Hrun as <-. split_and!; try done.
    intros c [Hin|H]; [by apply elem_of_nil in Hin|done].
  - unfold register_signal in Hrun at 2. unfold_bind.
    destruct (NumpyArrays.register_data_file _ c0 L) as [new|] eqn:Hreg; [|done].
    apply register_data_file_rows_of_length in Hreg as [Hc0 Hothers].
    apply IH in Hrun as (Htd & Hfd & Hva & Hrows). simpl in *.
    split_and!; try done. intros c Hc. apply Hrows. simpl.
    destruct (decide (c = c0)) as [->|Hne]; [by right|].
    destruct Hc as [Hin|H].
    + apply elem_of_cons in Hin as [->|Hin]; [done|by left].
    + right. by apply Hothers.
Qed.

Lemma register_signals_nonneg L l s s' :
  for_each (register_signal L) s l = Ok s' → l ≠ [] → 0 <= L.
Proof.
  destruct l as [|c0 l]; [done|]. simpl. intros Hrun _.
  unfold register_signal in Hrun at 2. unfold_bind.
  unfold NumpyArrays.register_data_file in Hrun.
  destruct (_ || _) eqn:Hneg; [done|].
  apply orb_false_elim in Hneg as [_ HL%Z.ltb_ge]. done.
Qed.

(** The channels [_finalize_new_traces] writes are not signal channels. *)
Lemma reduce_channel_keeps s c0 s' c L :
  reduce_channel s c0 = Ok s' → c ≠ c0 →
  rows_of_length (new_trace_data s) c L → rows_of_length (new_trace_data s') c L.
Proof.
  unfold reduce_channel. unfold_bind. intros H Hne Hrows.
  destruct (fetch s c0 0) as [first|]; [|done].
  destruct (NumpyArrays.register_data_file _ c0 _) as [new|] eqn:Hreg; [|done].
  destruct (NumpyArrays.get_traces _ c0) as [input_data|]; [|done].
  destruct (NumpyArrays.reduce_data_from_mask new c0 _ _) as [new'|] eqn:Hred; [|done].
  injection H as <-. simpl.
  eapply reduce_data_from_mask_rows_of_length; [exact Hred|done|].
  apply register_data_file_rows_of_length in Hreg as [_ Hothers]. by apply Hothers.
Qed.

Lemma finalize_keeps s s' c L :
  _finalize_new_traces s = Ok s' → c = "em" ∨ c = "power" →
  rows_of_length (new_trace_data s) c L → rows_of_length (new_trace_data s') c L.
Proof.
  unfold _finalize_new_traces. intros Hrun Hc Hrows.
  assert (c ≠ "plain" ∧ c ≠ "cipher") as [Hplain Hcipher].
  { by destruct Hc as [->| ->]. }
  destruct (NumpyArrays.has_plain _), (NumpyArrays.has_cipher _);
    simpl in Hrun; unfold_bind.
  - destruct (reduce_channel s "plain") as [s1|] eqn:H1; [|done].
    destruct (reduce_channel s1 "cipher") as [s2|] eqn:H2; [|done].
    injection Hrun as <-.
    eapply reduce_channel_keeps; [exact H2|done|].
    by eapply reduce_channel_keeps.
  - destruct (reduce_channel s "plain") as [s1|] eqn:H1; [|done].
    injection Hrun as <-. by eapply reduce_channel_keeps.
  - destruct (reduce_channel s "cipher") as [s1|] eqn:H1; [|done].
    injection Hrun as <-. by eapply reduce_channel_keeps.
  - by injection Hrun as <-.
Qed.

Lemma signal_types_cases self c :
  c ∈ signal_types self → c = "em" ∨ c = "power".
Proof.
  unfold signal_types.
  destruct (NumpyArrays.has_power _), (NumpyArrays.has_em _); simpl;
    intros Hc; repeat (apply elem_of_cons in Hc as [->|Hc]; [by eauto|]);
    by apply elem_of_nil in Hc.
Qed.

(** The scanning loop leaves the configuration and the output alone. *)
Lemma scan_frame self s :
  scan get_filter_by_name get_trigger_by_name self = Ok s →
  trace_data s = trace_data self ∧ new_trace_data s = new_trace_data self
  ∧ filter_dict s = filter_dict self ∧ trigger_dict s = trigger_dict self
  ∧ tracetype s = tracetype self ∧ trace_count s = trace_count self
  ∧ logged s = logged self.
Proof.
  unfold scan. intros Hrun.
  eapply (for_each_invariant
            (fun s => trace_data s = trace_data self
                      ∧ new_trace_data s = new_trace_data self
                      ∧ filter_dict s = filter_dict self
                      ∧ trigger_dict s = trigger_dict self
                      ∧ tracetype s = tracetype self
                      ∧ trace_count s = trace_count self
                      ∧ logged s = logged self));
    [|exact Hrun|]; [done|].
  intros s1 tracenr s2 H1 H2.
  apply scan_trace_frame in H2. destruct_and!. split_and!; congruence.
Qed.

(** The rows of the signal channels after the cutting phase. *)
Lemma cut_phase_rows s L s' :
  new_trace_length s = Ok L →
  cut_phase get_filter_by_name s = Ok s' →
  ∀ c, c ∈ signal_types s → 0 <= L ∧ rows_of_length (new_trace_data s') c L.
Proof.
  intros HL Hrun c Hc. unfold cut_phase in Hrun. rewrite HL in Hrun.
  unfold_bind. simpl in Hrun.
  set (s1 := set_new_trace_data s _) in Hrun.
  change (signal_types s1) with (signal_types s) in Hrun.
  destruct (for_each (register_signal L) s1 (signal_types s)) as [s2|] eqn:Hreg;
    [|done].
  destruct (cut_loop _ L s2) as [[s3 k]|] eqn:Hcut; [|done].
  split.
  { eapply register_signals_nonneg; [exact Hreg|]. intros Hnil.
    rewrite Hnil in Hc. by apply elem_of_nil in Hc. }
  apply register_signals in Hreg as (_ & _ & _ & Hrows).
  apply cut_loop_keeps in Hcut as (_ & _ & _ & Hkeep).
  eapply finalize_keeps; [exact Hrun|by apply (signal_types_cases s)|].
  assert (rows_of_length (new_trace_data s3) c L) as H3.
  { apply Hkeep, Hrows. by left. }
  by destruct (negb _).
Qed.

Lemma set_new_trace_data_same s : set_new_trace_data s (new_trace_data s) = s.
Proof. by destruct s. Qed.

(** One write of the cutting loop: the cut row goes to [add_trace]. *)
Lemma cut_channel_writes s new1 tracenr L c s' :
  cut_channel get_filter_by_name tracenr
    ((default (0, 0) (peak_array s !! tracenr)).1 + (region_around_peak s).1) L
    (set_new_trace_data s new1) c = Ok s' →
  ∃ row new,
    cut_row get_filter_by_name s L tracenr c = Ok row
    ∧ NumpyArrays.add_trace new1 c row = Ok new
    ∧ s' = set_new_trace_data s new.
Proof.
  unfold cut_channel, cut_row. unfold_bind. intros H.
  change (fetch (set_new_trace_data s new1) c tracenr) with (fetch s c tracenr) in H.
  destruct (fetch s c tracenr) as [row|]; [|done].
  destruct (cut row _ L) as [cutted|]; [|done].
  change (_run_modifying_filter get_filter_by_name (set_new_trace_data s new1) cutted)
    with (_run_modifying_filter get_filter_by_name s cutted) in H.
  destruct (_run_modifying_filter get_filter_by_name s cutted) as [filtered|]; [|done].
  simpl in H.
  destruct (NumpyArrays.add_trace new1 c filtered) as [new|] eqn:Hadd; [|done].
  injection H as <-. by exists filtered, new.
Qed.

(** The writes of one trace. *)
Lemma cut_channels_write s tracenr L :
  ∀ cs new1 s',
    for_each (cut_channel get_filter_by_name tracenr
                ((default (0, 0) (peak_array s !! tracenr)).1
                 + (region_around_peak s).1) L)
             (set_new_trace_data s new1) cs = Ok s' →
    ∃ calls,
      calls_with_the_cuts get_filter_by_name s L ((λ c, (tracenr, c)) <$> cs) calls
      ∧ add_traces new1 calls = Ok (new_trace_data s')
      ∧ s' = set_new_trace_data s (new_trace_data s').
Proof.
  induction cs as [|c cs IH]; intros new1 s' Hrun; simpl in Hrun.
  - injection Hrun as <-. exists []. split; [constructor|]. by split.
  - destruct (cut_channel _ _ _ _ _ c) as [s1|] eqn:Hc; simpl in Hrun; [|done].
    apply cut_channel_writes in Hc as (row & new & Hrow & Hadd & ->).
    apply IH in Hrun as (calls & Hcalls & Hadds & Hs').
    exists ((c, row) :: calls). split; [by constructor|]. split; [|done].
    unfold add_traces in *. simpl. rewrite Hadd. simpl. exact Hadds.
Qed.

Lemma add_traces_app self calls1 calls2 :
  add_traces self (calls1 ++ calls2)
  = (self' ← add_traces self calls1; add_traces self' calls2).
Proof. unfold add_traces. apply for_each_app. Qed.

(** The writes of the cutting loop over the traces [traces]. *)
Lemma cut_loop_writes s L :
  ∀ traces new1 k1 s' k',
    for_each (fun '(s, new_trace_count) tracenr =>
                '(s', k) ← cut_and_modify_traces get_filter_by_name s tracenr L;
                Ok (s', new_trace_count + k))
             (set_new_trace_data s new1, k1) traces = Ok (s', k') →
    ∃ calls,
      calls_with_the_cuts get_filter_by_name s L
        (writes_of s (filter (λ i, valid_traces_array s !! i = Some true) traces)) calls
      ∧ add_traces new1 calls = Ok (new_trace_data s')
      ∧ s' = set_new_trace_data s (new_trace_data s').
Proof.
  induction traces as [|i traces IH]; intros new1 k1 s' k' Hrun; simpl in Hrun.
  - injection Hrun as <- <-. exists []. split; [constructor|]. by split.
  - unfold_bind.
    destruct (cut_and_modify_traces _ _ i L) as [[s1 k]|] eqn:Hcut; [|done].
    unfold cut_and_modify_traces in Hcut.
    change (valid_traces_array (set_new_trace_data s new1))
      with (valid_traces_array s) in Hcut.
    change (peak_array (set_new_trace_data s new1)) with (peak_array s) in Hcut.
    change (region_around_peak (set_new_trace_data s new1))
      with (region_around_peak s) in Hcut.
    change (signal_types (set_new_trace_data s new1)) with (signal_types s) in Hcut.
    rewrite filter_cons.
    destruct (valid_traces_array s !! i) as [[|]|] eqn:Hvalid; simpl in Hcut.
    + rewrite decide_True by done. unfold_bind.
      destruct (for_each _ _ (signal_types s)) as [s2|] eqn:Hchannels; [|done].
      injection Hcut as <- <-.
      apply cut_channels_write in Hchannels as (calls1 & Hcalls1 & Hadd1 & Hs2).
      rewrite Hs2 in Hrun.
      apply IH in Hrun as (calls2 & Hcalls2 & Hadd2 & Hs').
      exists (calls1 ++ calls2). split; [|split; [|done]].
      * unfold calls_with_the_cuts, writes_of in *. rewrite bind_cons.
        by apply Forall2_app.
      * rewrite add_traces_app, Hadd1. simpl. exact Hadd2.
    + rewrite decide_False by done. injection Hcut as <- <-.
      by apply IH in Hrun.
    + rewrite decide_False by done. injection Hcut as <- <-.
      by apply IH in Hrun.
Qed.

(** Registering the signal channels: each gets an array of
    [number_of_traces] rows of [L] zeros; nothing else changes. *)
Lemma register_signals_content L :
  ∀ cs s1 s2,
    for_each (register_signal L) s1 cs = Ok s2 →
    ∃ reg,
      s2 = set_new_trace_data s1 reg
      ∧ NumpyArrays.number_of_traces reg
        = NumpyArrays.number_of_traces (new_trace_data s1)
      ∧ NumpyArrays._records_written reg
        = NumpyArrays._records_written (new_trace_data s1)
      ∧ (∀ c, c ∈ cs →
           NumpyArrays._npy_mm reg !! c
           = Some (replicate (Z.to_nat (NumpyArrays.number_of_traces (new_trace_data s1)))
                     (replicate (Z.to_nat L) 0)))
      ∧ (∀ c, c ∉ cs →
           NumpyArrays._npy_mm reg !! c
           = NumpyArrays._npy_mm (new_trace_data s1) !! c).
Proof.
  induction cs as [|c0 cs IH]; intros s1 s2 Hrun; simpl in Hrun.
  - injection Hrun as <-. exists (new_trace_data s1).
    rewrite set_new_trace_data_same. split_and!; try done.
    intros c Hc. by apply elem_of_nil in Hc.
  - unfold register_signal in Hrun at 2. unfold_bind.
    unfold NumpyArrays.register_data_file in Hrun.
    destruct (_ || _); [done|]. simpl in Hrun.
    apply IH in Hrun as (reg & -> & Hn & Hw & Hin & Hout). simpl in *.
    exists reg. split_and!; try done.
    + intros c Hc. destruct (decide (c ∈ cs)) as [Hcs|Hcs]; [by apply Hin|].
      apply elem_of_cons in Hc as [->|Hc]; [|done].
      rewrite Hout by done. by rewrite lookup_insert_eq.
    + intros c Hc. apply not_elem_of_cons in Hc as [Hne Hcs].
      rewrite Hout by done. by rewrite lookup_insert_ne.
Qed.

(** [_finalize_new_traces] writes the channels [plain] and [cipher] and
    no other. *)
Lemma reduce_channel_other s c0 s' c :
  reduce_channel s c0 = Ok s' → c ≠ c0 →
  NumpyArrays._npy_mm (new_trace_data s') !! c
  = NumpyArrays._npy_mm (new_trace_data s) !! c.
Proof.
  unfold reduce_channel. unfold_bind. intros H Hne.
  destruct (fetch s c0 0) as [first|]; [|done].
  unfold NumpyArrays.register_data_file in H.
  destruct (_ || _); [done|]. simpl in H.
  destruct (NumpyArrays.get_traces _ c0) as [input_data|]; [|done].
  unfold NumpyArrays.reduce_data_from_mask in H.
  destruct (_ <? _); [done|]. injection H as <-. simpl.
  by rewrite !lookup_insert_ne.
Qed.

Lemma finalize_other s s' c :
  _finalize_new_traces s = Ok s' → c = "em" ∨ c = "power" →
  NumpyArrays._npy_mm (new_trace_data s') !! c
  = NumpyArrays._npy_mm (new_trace_data s) !! c.
Proof.
  unfold _finalize_new_traces. intros Hrun Hc.
  assert (c ≠ "plain" ∧ c ≠ "cipher") as [Hplain Hcipher].
  { by destruct Hc as [->| ->]. }
  destruct (NumpyArrays.has_plain _), (NumpyArrays.has_cipher _);
    simpl in Hrun; unfold_bind.
  - destruct (reduce_channel s "plain") as [s1|] eqn:H1; [|done].
    destruct (reduce_channel s1 "cipher") as [s2|] eqn:H2; [|done].
    injection Hrun as <-.
    rewrite (reduce_channel_other _ _ _ _ H2) by done.
    by rewrite (reduce_channel_other _ _ _ _ H1).
  - destruct (reduce_channel s "plain") as [s1|] eqn:H1; [|done].
    injection Hrun as <-. by rewrite (reduce_channel_other _ _ _ _ H1).
  - destruct (reduce_channel s "cipher") as [s1|] eqn:H1; [|done].
    injection Hrun as <-. by rewrite (reduce_channel_other _ _ _ _ H1).
  - by injection Hrun as <-.
Qed.

(** What the cutting phase writes. *)
Lemma cut_phase_writes s L s' :
  new_trace_length s = Ok L →
  cut_phase get_filter_by_name s = Ok s' →
  ∃ reg calls written,
    NumpyArrays.number_of_traces reg = number_of_valid_traces s
    ∧ NumpyArrays._records_written reg
      = NumpyArrays._records_written (new_trace_data s)
    ∧ (∀ c, c ∈ signal_types s →
         NumpyArrays._npy_mm reg !! c
         = Some (replicate (Z.to_nat (number_of_valid_traces s))
                   (replicate (Z.to_nat L) 0)))
    ∧ calls_with_the_cuts get_filter_by_name s L (writes_of s (valid_traces s)) calls
    ∧ add_traces reg calls = Ok written
    ∧ (∀ c, c ∈ signal_types s →
         NumpyArrays._npy_mm (new_trace_data s') !! c
         = NumpyArrays._npy_mm written !! c).
Proof.
  intros HL Hrun. unfold cut_phase in Hrun. rewrite HL in Hrun.
  unfold_bind. simpl in Hrun.
  set (s1 := set_new_trace_data s _) in Hrun.
  change (signal_types s1) with (signal_types s) in Hrun.
  destruct (for_each (register_signal L) s1 (signal_types s)) as [s2|] eqn:Hreg;
    [|done].
  apply register_signals_content in Hreg as (reg & -> & Hn & Hw & Hin & _).
  destruct (cut_loop _ L _) as [[s3 k]|] eqn:Hcut; [|done].
  unfold cut_loop in Hcut.
  change (set_new_trace_data s1 reg) with (set_new_trace_data s reg) in Hcut.
  change (trace_count (set_new_trace_data s reg)) with (trace_count s) in Hcut.
  apply cut_loop_writes in Hcut as (calls & Hcalls & Hadd & Hs3).
  exists reg, calls, (new_trace_data s3).
  split_and!; [done|done|done|done|done|].
  intros c Hc. apply signal_types_cases in Hc.
  rewrite (finalize_other _ _ _ Hrun Hc). by destruct (negb _).
Qed.

(** Writes to one channel of an array of zero rows that holds them all:
    the rows fill the array from the write counter on. *)
Lemma add_traces_one_channel c (n : nat) (z : trace) :
  ∀ calls self self' (stored0 : list trace),
    NumpyArrays.number_of_traces self = Z.of_nat n →
    NumpyArrays._records_written self = Z.of_nat (length stored0) →
    (length stored0 + length calls ≤ n)%nat →
    NumpyArrays._npy_mm self !! c
    = Some (stored0 ++ replicate (n - length stored0) z) →
    Forall (λ call, call.1 = c) calls →
    add_traces self calls = Ok self' →
    ∃ stored,
      Forall2 (λ call row, NumpyArrays.assign_row z call.2 = Ok row) calls stored
      ∧ NumpyArrays._npy_mm self' !! c
        = Some (stored0 ++ stored
                ++ replicate (n - length stored0 - length calls) z).
Proof.
  induction calls as [|[c0 d] calls IH];
    intros self self' stored0 Hn Hw Hle Hc Hall Hrun.
  - unfold add_traces in Hrun. simpl in Hrun. injection Hrun as <-.
    exists []. split; [constructor|]. simpl. rewrite Hc. do 3 f_equal. lia.
  - apply Forall_cons in Hall as [Hc0 Hall]. simpl in Hc0. subst c0.
    simpl in Hle.
    change (add_traces self ((c, d) :: calls))
      with (s1 ← NumpyArrays.add_trace self c d; add_traces s1 calls) in Hrun.
    unfold_bind.
    destruct (NumpyArrays.add_trace self c d) as [s1|] eqn:Hadd; [|done].
    unfold NumpyArrays.add_trace in Hadd.
    rewrite Hn, Hw in Hadd.
    replace (Z.of_nat n <=? Z.of_nat (length stored0)) with false in Hadd
      by (symmetry; apply Z.leb_gt; lia).
    unfold NumpyArrays.get_traces, NumpyArrays.setitem, getitem in Hadd.
    rewrite Hc in Hadd. unfold_bind.
    replace (Z.of_nat (length stored0) <? 0) with false in Hadd
      by (symmetry; apply Z.ltb_ge; lia).
    rewrite Nat2Z.id in Hadd.
    assert ((stored0 ++ replicate (n - length stored0) z) !! length stored0 = Some z)
      as Hrow.
    { rewrite lookup_app_r by lia. rewrite Nat.sub_diag.
      apply lookup_replicate_2. lia. }
    rewrite Hrow in Hadd.
    destruct (Z.ltb_spec (Z.of_nat (length stored0)) 0) as [?|_]; [lia|].
    destruct (NumpyArrays.assign_row z d) as [row|] eqn:Hassign; [|done].
    injection Hadd as <-.
    specialize (λ H1 H2 H3 H4 H5, IH _ _ (stored0 ++ [row]) H1 H2 H3 H4 H5 Hrun).
    destruct IH as (stored & Hstored & Hlookup).
    + done.
    + simpl. rewrite length_app. simpl. lia.
    + rewrite length_app. simpl. lia.
    + simpl. rewrite lookup_insert_eq. f_equal.
      rewrite length_app. simpl.
      replace (n - length stored0)%nat with (S (n - (length stored0 + 1)))%nat by lia.
      simpl. rewrite insert_app_r_alt by lia. rewrite Nat.sub_diag. simpl.
      by rewrite <- app_assoc.
    + done.
    + exists (row :: stored). split; [by constructor|].
      rewrite Hlookup, length_app. f_equal. rewrite <- app_assoc. simpl.
      f_equal. f_equal. f_equal. f_equal. lia.
Qed.

(** As many traces are valid among the first [trace_count] as the array
    of flags marks, when the array has [trace_count] entries. *)
Lemma valid_traces_count (flags : list bool) :
  ∀ (first : nat) (all : list bool),
    drop first all = flags →
    length (filter (λ i, all !! i = Some true) (seq first (length flags)))
    = length (filter (λ b, b = true) flags).
Proof.
  induction flags as [|b flags IH]; intros first all Hdrop; [done|].
  simpl. rewrite !filter_cons.
  assert (all !! first = Some b) as Hb.
  { rewrite <- (Nat.add_0_r first), <- lookup_drop, Hdrop. done. }
  assert (drop (S first) all = flags) as Hdrop'.
  { replace (S first) with (first + 1)%nat by lia. by rewrite <- drop_drop, Hdrop. }
  rewrite Hb. destruct b.
  - rewrite !decide_True by done. simpl. f_equal. by apply IH.
  - rewrite !decide_False by done. by apply IH.
Qed.

Lemma writes_of_one_channel s c traces :
  signal_types s = [c] → writes_of s traces = (λ i, (i, c)) <$> traces.
Proof.
  intros Hc. unfold writes_of. rewrite Hc.
  induction traces as [|i traces IH]; [done|].
  rewrite bind_cons, IH. done.
Qed.

(** The rows stored for the calls with the cut rows of one channel. *)
Lemma stored_cut_rows s L c (z : trace) :
  ∀ traces calls stored,
    calls_with_the_cuts get_filter_by_name s L ((λ i, (i, c)) <$> traces) calls →
    Forall2 (λ call row, NumpyArrays.assign_row z call.2 = Ok row) calls stored →
    Forall (λ call, call.1 = c) calls
    ∧ Forall2 (λ i row, ∃ filtered,
                 cut_row get_filter_by_name s L i c = Ok filtered
                 ∧ NumpyArrays.assign_row z filtered = Ok row)
              traces stored.
Proof.
  unfold calls_with_the_cuts.
  induction traces as [|i traces IH]; intros calls stored Hcalls Hstored.
  - inversion Hcalls; subst. inversion Hstored; subst. by split; constructor.
  - rewrite fmap_cons in Hcalls.
    inversion Hcalls as [|w call ws calls' [Hc Hrow] Hcalls']; subst.
    inversion Hstored as [|call' row calls'' stored' Hassign Hstored']; subst.
    destruct (IH _ _ Hcalls' Hstored') as [Hall Hrows]. simpl in *.
    split; constructor; try done. by exists call.2.
Qed.

(** Without a modifying filter the cut row is the cut. *)
Lemma run_modifying_filter_unflagged (filters : list (string * params)) data :
  (∀ name p, (name, p) ∈ filters → default false (modify_flag p) = false) →
  _run_modifying_filter_from get_filter_by_name filters data = Ok data.
Proof.
  induction filters as [|[name p] filters IH]; intros Hflags; [done|].
  simpl. rewrite (Hflags name p) by (apply elem_of_cons; by left).
  apply IH. intros name' p' Hin. apply (Hflags name' p'). by (apply elem_of_cons; right).
Qed.

(** C6. After [run], every row of every signal channel of the output
    has the length [new_trace_length] computed, and that length is not
    negative. The cut of a trace has exactly that length; it starts at
    [anchor1 + region_start], and from a start inside the trace it is
    the trace from there on, extended with zeros where the trace ends
    before the cut does. In the structured backend a record reaches the
    channel file only when it has the registered length.

    What is written: the cutting phase registers for every signal
    channel an array of one row of [L] zeros per valid trace, and its
    [add_trace] calls are, in order, one per valid trace and signal
    channel, each with the cut row of that trace and channel: the cut
    of [L] samples of the trace from [anchor1 + region_start] on, after
    the modifying filters. The signal channels of the output are what
    these calls leave. With one signal channel, a fresh output and one
    flag per trace, the rows of the output are the cut rows of the
    valid traces, in order, and without a modifying filter they are the
    cuts themselves. *)
Theorem C6_written_traces_have_new_length self s L s' :
  scan get_filter_by_name get_trigger_by_name self = Ok s →
  new_trace_length s = Ok L →
  cut_phase get_filter_by_name s = Ok s' →
  run get_filter_by_name get_trigger_by_name self = Ok s'
  ∧ (∀ c, c ∈ signal_types self →
       0 <= L ∧ rows_of_length (new_trace_data s') c L)
  ∧ (0 <= L → ∀ row start,
       ∃ cutted, cut row start L = Ok cutted ∧ len cutted = L
         ∧ (0 <= start →
            cutted = take (Z.to_nat L)
                       (drop (Z.to_nat start) row ++ replicate (Z.to_nat L) 0)))
  ∧ (∀ s0 tracenr anchors,
       valid_traces_array s0 !! tracenr = Some true →
       peak_array s0 !! tracenr = Some anchors →
       cut_and_modify_traces get_filter_by_name s0 tracenr L
       = (s1 ← for_each
                 (cut_channel get_filter_by_name tracenr
                    (anchors.1 + (region_around_peak s0).1) L)
                 s0 (signal_types s0);
          Ok (s1, 1)))
  ∧ (∀ (ch : D15.DataObject) raw,
       D15._saveMethod ch = D15.DIRECTWRITE →
       D15.data (D15._addTraceRaw ch raw)
       = if len raw =? D15.length ch * D15.itemsize ch
         then D15.data ch ++ [raw] else D15.data ch)
  ∧ (∃ reg calls written,
       NumpyArrays.number_of_traces reg = number_of_valid_traces s
       ∧ NumpyArrays._records_written reg
         = NumpyArrays._records_written (new_trace_data s)
       ∧ (∀ c, c ∈ signal_types s →
            NumpyArrays._npy_mm reg !! c
            = Some (replicate (Z.to_nat (number_of_valid_traces s))
                      (replicate (Z.to_nat L) 0)))
       ∧ calls_with_the_cuts get_filter_by_name s L (writes_of s (valid_traces s)) calls
       ∧ add_traces reg calls = Ok written
       ∧ (∀ c, c ∈ signal_types s →
            NumpyArrays._npy_mm (new_trace_data s') !! c
            = NumpyArrays._npy_mm written !! c))
  ∧ (∀ c, signal_types s = [c] →
       NumpyArrays._records_written (new_trace_data s) = 0 →
       length (valid_traces_array s) = trace_count s →
       ∃ rows,
         NumpyArrays._npy_mm (new_trace_data s') !! c = Some rows
         ∧ Forall2 (λ i row, ∃ filtered,
                      cut_row get_filter_by_name s L i c = Ok filtered
                      ∧ NumpyArrays.assign_row (replicate (Z.to_nat L) 0) filtered
                        = Ok row)
                   (valid_traces s) rows
         ∧ ((∀ name p, (name, p) ∈ filter_dict s →
               default false (modify_flag p) = false) →
            Forall2 (λ i row, ∃ raw,
                       fetch s c i = Ok raw
                       ∧ cut raw ((default (0, 0) (peak_array s !! i)).1
                                  + (region_around_peak s).1) L = Ok row)
                    (valid_traces s) rows)).
Proof.
  intros Hscan HL Hcut. split_and!.
  - unfold run. by rewrite Hscan.
  - intros c Hc. apply (cut_phase_rows s L s' HL Hcut).
    apply scan_frame in Hscan as (Htd & _). unfold signal_types in *.
    by rewrite Htd.
  - intros HL0 row start.
    destruct (cut_length row start L HL0) as (cutted & Hcutted & Hlen).
    exists cutted. split_and!; [done|done|].
    intros Hstart. rewrite cut_content in Hcutted by done. by injection Hcutted.
  - intros s0 tracenr anchors Hvalid Hpeak.
    unfold cut_and_modify_traces. by rewrite Hvalid, Hpeak.
  - intros ch raw Hmode. unfold D15._addTraceRaw. rewrite Hmode.
    by destruct (len raw =? _).
  - by apply cut_phase_writes.
  - intros c Hc Hwritten Hflags.
    assert (c ∈ signal_types s) as Hin by (rewrite Hc; apply elem_of_cons; by left).
    destruct (cut_phase_rows s L s' HL Hcut c Hin) as [HL0 _].
    destruct (cut_phase_writes s L s' HL Hcut)
      as (reg & calls & written & Hn & Hw & Hreg & Hcalls & Hadd & Hout).
    rewrite (writes_of_one_channel s c _ Hc) in Hcalls.
    assert (Forall (λ call : string * trace, call.1 = c) calls) as Hall.
    { clear -Hcalls. unfold calls_with_the_cuts in Hcalls.
      remember ((λ i, (i, c)) <$> valid_traces s) as ws eqn:Hws.
      revert Hws. generalize (valid_traces s).
      induction Hcalls as [|w call ws calls [Hc _] _ IH]; intros l Hws; [constructor|].
      destruct l as [|i l]; [done|]. injection Hws as -> ->.
      constructor; [done|by apply (IH l)]. }
    set (n := length (filter (λ b, b = true) (valid_traces_array s))).
    assert (length (valid_traces s) = n) as Hcount.
    { unfold valid_traces. rewrite <- Hflags. by apply valid_traces_count. }
    assert (length calls = n) as Hcalls_n.
    { rewrite <- (Forall2_length _ _ _ Hcalls), length_fmap. exact Hcount. }
    assert (number_of_valid_traces s = Z.of_nat n) as Hvalid by done.
    destruct (add_traces_one_channel c n (replicate (Z.to_nat L) 0)
                calls reg written []) as (stored & Hstored & Hlookup).
    + by rewrite Hn.
    + by rewrite Hw, Hwritten.
    + simpl. lia.
    + rewrite (Hreg c Hin), Hvalid, Nat2Z.id. simpl. by rewrite Nat.sub_0_r.
    + done.
    + done.
    + simpl in Hlookup. rewrite Hcalls_n, Nat.sub_0_r, Nat.sub_diag in Hlookup.
      simpl in Hlookup. rewrite app_nil_r in Hlookup.
      destruct (stored_cut_rows s L c _ _ _ _ Hcalls Hstored) as [_ Hrows].
      exists stored. split; [by rewrite (Hout c Hin)|]. split; [done|].
      intros Hunflagged.
      eapply Forall2_impl; [exact Hrows|].
      intros i row (filtered & Hrow & Hassign). simpl in Hrow.
      unfold cut_row in Hrow. unfold_bind.
      destruct (fetch s c i) as [raw|]; [|done]. exists raw. split; [done|].
      destruct (cut_length raw ((default (0, 0) (peak_array s !! i)).1
                                + (region_around_peak s).1) L HL0)
        as (cutted & Hcutted & Hlen).
      rewrite Hcutted in Hrow |- *.
      unfold _run_modifying_filter in Hrow.
      rewrite run_modifying_filter_unflagged in Hrow by done.
      injection Hrow as <-.
      unfold NumpyArrays.assign_row in Hassign.
      rewrite bool_decide_true in Hassign; [done|].
      rewrite length_replicate. unfold len in Hlen. lia.
Qed.

End Cutting.

Lemma C6_written_traces_have_new_length_witness :
  ∃ s s' rows,
    scan shipped_filters shipped_triggers two_windows = Ok s
    ∧ run shipped_filters shipped_triggers two_windows = Ok s'
    ∧ rows_of_length (new_trace_data s') "em" 3
    ∧ NumpyArrays._npy_mm (new_trace_data s') !! "em" = Some rows
    ∧ Forall2 (λ i row, ∃ raw,
                 fetch s "em" i = Ok raw
                 ∧ cut raw ((default (0, 0) (peak_array s !! i)).1
                            + (region_around_peak s).1) 3 = Ok row)
              (valid_traces s) rows.
Proof.
  eassert (scan shipped_filters shipped_triggers two_windows = Ok _) as Hscan
    by (vm_compute; reflexivity).
  match type of Hscan with
  | _ = Ok ?s =>
      assert (new_trace_length s = Ok 3) as HL by (vm_compute; reflexivity);
      eassert (cut_phase shipped_filters s = Ok _) as Hcut by (vm_compute; reflexivity)
  end.
  destruct (C6_written_traces_have_new_length shipped_filters shipped_triggers
              two_windows _ 3 _ Hscan HL Hcut)
    as (Hrun & Hrows & _ & _ & _ & _ & Hwritten).
  destruct (Hwritten "em") as (rows & Hlookup & _ & Hcuts);
    [vm_compute; reflexivity|vm_compute; reflexivity|vm_compute; reflexivity|].
  eexists _, _, rows. split; [exact Hscan|]. split; [exact Hrun|].
  split; [apply Hrows; vm_compute; repeat constructor|].
  split; [exact Hlookup|]. apply Hcuts.
  intros name p Hin. simpl in Hin. inversion Hin.
Defined.

(** ** C10: the whole-trace fallback and the shared cut region *)

Section SharedRegion.

Variable get_filter_by_name : string → option Filter.Filter.
Variable get_trigger_by_name : string → option Trigger.Trigger.

Local Abbreviation scan_trace :=
  (run_filters_and_triggers get_filter_by_name get_trigger_by_name).

(** The one branch of the classification that assigns the cut region. *)
Lemma classify_region self tracenr md buf xm :
  region_around_peak (classify self tracenr md buf xm)
  = match xm, md with
    | None, Some true => (0, len buf)
    | _, _ => region_around_peak self
    end.
Proof. unfold classify. repeat case_match; done. Qed.

Lemma fetch_frame s s' trace_type j :
  trace_data s' = trace_data s → fetch s' trace_type j = fetch s trace_type j.
Proof. intros H. unfold fetch. by rewrite H. Qed.

Lemma filter_stage_frame s s' raw :
  filter_dict s' = filter_dict s →
  filter_stage get_filter_by_name s' raw = filter_stage get_filter_by_name s raw.
Proof. intros H. unfold filter_stage, _run_filters. by rewrite H. Qed.

(** Once the region is a whole-trace region it stays one. *)
Lemma whole_trace_region_step s j buf k s' :
  whole_trace_region get_filter_by_name s j buf →
  scan_trace s k = Ok s' →
  ∃ j' buf', whole_trace_region get_filter_by_name s' j' buf'.
Proof.
  intros (raw & md & Hraw & Hbuf & Hregion) Hscan.
  destruct (scan_trace_inv _ _ _ _ _ Hscan) as (raw1 & md1 & buf1 & xm & Hraw1 & Hbuf1 & _ & ->).
  pose proof (classify_frame s k md1 buf1 xm) as (Htd & _ & Hfd & _ & Htt & _).
  pose proof (classify_region s k md1 buf1 xm) as Hreg.
  destruct (decide (xm = None ∧ md1 = Some true)) as [[-> ->]|Hother].
  - exists k, buf1, raw1, (Some true). split_and!; [| |done].
    + by rewrite Htt, (fetch_frame s _ _ _ Htd).
    + by rewrite (filter_stage_frame s _ _ Hfd).
  - exists j, buf, raw, md. split_and!.
    + by rewrite Htt, (fetch_frame s _ _ _ Htd).
    + by rewrite (filter_stage_frame s _ _ Hfd).
    + rewrite Hreg, <-Hregion. destruct xm as [?|], md1 as [[|]|]; try done.
      by destruct Hother.
Qed.

(** C10. When the scan of trace [i] takes the branch for no marks with
    a modifying filter, the cut region of the thread becomes
    [[0, length of the filtered buffer of trace i]]. Every state the
    scan goes through afterwards has a cut region of that form, for
    trace [i] or a later trace that took the branch again, and it is
    this region, not the one the thread was created with, that the
    bounds check of a later trace, the length computation and the start
    of every cut read. No other branch of the classification assigns
    the cut region. *)
Theorem C10_fallback_overwrites_shared_region self i s_i raw buf :
  for_each scan_trace self (seq 0 i) = Ok s_i →
  fetch s_i (tracetype s_i) i = Ok raw →
  filter_stage get_filter_by_name s_i raw = Ok (Some true, buf) →
  trigger_stage get_trigger_by_name s_i buf = Ok None →
  (∃ s_i', scan_trace s_i i = Ok s_i'
           ∧ region_around_peak s_i' = (0, len buf))
  ∧ (∀ n s, (i < n)%nat → for_each scan_trace self (seq 0 n) = Ok s →
       ∃ j buf_j,
         whole_trace_region get_filter_by_name s j buf_j
         ∧ (∀ tracenr md buf1 m,
              (tracenr < length (valid_traces_array s))%nat →
              valid_traces_array (classify s tracenr md buf1 (Some [Some m])) !! tracenr
              = Some (bool_decide (0 <= m + 0 ∧ m + len buf_j <= len buf1)))
         ∧ (∀ anchors rest, peak_array s = anchors :: rest →
              new_trace_length s = Ok ((anchors.2 - anchors.1) + (len buf_j - 0)))
         ∧ (∀ s0 tracenr anchors L,
              region_around_peak s0 = region_around_peak s →
              valid_traces_array s0 !! tracenr = Some true →
              peak_array s0 !! tracenr = Some anchors →
              cut_and_modify_traces get_filter_by_name s0 tracenr L
              = (s1 ← for_each
                        (cut_channel get_filter_by_name tracenr (anchors.1 + 0) L)
                        s0 (signal_types s0);
                 Ok (s1, 1))))
  ∧ (∀ s tracenr md buf1 xm,
       ¬ (xm = None ∧ md = Some true) →
       region_around_peak (classify s tracenr md buf1 xm) = region_around_peak s).
Proof.
  intros Hpre Hraw Hbuf Hxm.
  pose proof (scan_trace_classifies _ _ s_i i raw (Some true) buf None Hraw Hbuf Hxm)
    as Hstep.
  split_and!.
  - eexists. split; [exact Hstep|]. by rewrite classify_region.
  - intros n s Hin Hrun.
    replace n with (i + S (n - S i))%nat in Hrun by lia.
    rewrite seq_app, for_each_app, Hpre in Hrun.
    change ((s' ← scan_trace s_i i; for_each scan_trace s' (seq (S i) (n - S i)))
            = Ok s) in Hrun.
    rewrite Hstep in Hrun.
    change (for_each scan_trace (classify s_i i (Some true) buf None)
              (seq (S i) (n - S i)) = Ok s) in Hrun.
    assert (∃ j buf_j, whole_trace_region get_filter_by_name s j buf_j)
      as (j & buf_j & Hwhole).
    { eapply (for_each_invariant
                (fun s => ∃ j buf_j, whole_trace_region get_filter_by_name s j buf_j));
        [|exact Hrun|].
      - pose proof (classify_frame s_i i (Some true) buf None) as (Htd & _ & Hfd & _ & Htt & _).
        exists i, buf, raw, (Some true). split_and!.
        + by rewrite Htt, (fetch_frame s_i _ _ _ Htd).
        + by rewrite (filter_stage_frame s_i _ _ Hfd).
        + by rewrite classify_region.
      - intros s1 k s2 (j1 & buf1 & H1) H2. by eapply whole_trace_region_step. }
    exists j, buf_j. split; [done|].
    destruct Hwhole as (raw_j & md_j & _ & _ & Hregion). split_and!.
    + intros tracenr md buf1 m Hrange. simpl. rewrite Hregion. simpl.
      case_bool_decide as Hb.
      * replace (len buf1 <? m + len buf_j) with false
          by (symmetry; apply Z.ltb_ge; lia).
        replace (m + 0 <? 0) with false by (symmetry; apply Z.ltb_ge; lia).
        simpl. by rewrite list_lookup_insert_eq.
      * destruct (len buf1 <? m + len buf_j) eqn:H1; simpl;
          [by rewrite list_lookup_insert_eq|].
        destruct (m + 0 <? 0) eqn:H2; simpl; [by rewrite list_lookup_insert_eq|].
        apply Z.ltb_ge in H1, H2. lia.
    + intros anchors rest Hpeaks.
      rewrite (new_trace_length_first_row s anchors rest Hpeaks). by rewrite Hregion.
    + intros s0 tracenr anchors L Hsame Hvalid Hpeak.
      unfold cut_and_modify_traces. by rewrite Hvalid, Hpeak, Hsame, Hregion.
  - intros s tracenr md buf1 xm Hother. rewrite classify_region.
    destruct xm as [?|], md as [[|]|]; try done. by destruct Hother.
Qed.

End SharedRegion.

Lemma C10_fallback_overwrites_shared_region_witness :
  ∃ s, scan shipped_filters shipped_triggers pure_modify_three = Ok s
       ∧ region_around_peak pure_modify_three = (-1, 2)
       ∧ region_around_peak s = (0, 4)
       ∧ new_trace_length s = Ok 4.
Proof.
  destruct (C10_fallback_overwrites_shared_region shipped_filters shipped_triggers
              pure_modify_three 0%nat pure_modify_three [1; -2; 3; 4] [1; -2; 3; 4])
    as (_ & Hlater & _).
  - reflexivity.
  - vm_compute. reflexivity.
  - vm_compute. reflexivity.
  - vm_compute. reflexivity.
  - eassert (scan shipped_filters shipped_triggers pure_modify_three = Ok _) as Hscan
      by (vm_compute; reflexivity).
    destruct (Hlater 3%nat _ ltac:(lia) Hscan)
      as (j & buf_j & (raw & md & _ & _ & Hregion) & _ & Hlength & _).
    eexists. split; [exact Hscan|]. split; [reflexivity|].
    split; vm_compute; reflexivity.
Defined.

(** * Further properties of the code *)

(** ** Shifting a trace ([Helpers.shift4], [shiftTrace]) *)

Lemma slice_opt_drop_last {A : Type} (l : list A) k :
  0 < k → slice_opt l None (Some (- k)) = take (length l - Z.to_nat k) l.
Proof.
  intros Hk. unfold slice_opt, slice_bounds, clip, len.
  replace (- k <? 0) with true by (symmetry; apply Z.ltb_lt; lia).
  rewrite drop_0. f_equal. lia.
Qed.

Lemma slice_opt_drop_first {A : Type} (l : list A) k :
  0 < k → slice_opt l (Some k) None = drop (Z.to_nat k) l.
Proof.
  intros Hk. unfold slice_opt, slice_bounds, clip, len.
  replace (k <? 0) with false by (symmetry; apply Z.ltb_ge; lia).
  destruct (decide (k <= Z.of_nat (length l))) as [Hin|Hout].
  - rewrite Z.min_l by lia. apply take_ge. rewrite length_drop. lia.
  - rewrite Z.min_r by lia. rewrite Z.sub_diag, take_0.
    symmetry. apply drop_ge. lia.
Qed.



(** What [shift4] returns for a shift to the right and to the left. *)
Lemma shift4_right {A : Type} (arr : list A) k x :
  0 < k →
  Helpers.shift4 arr k x
  = replicate (Z.to_nat k) x ++ take (length arr - Z.to_nat k) arr.
Proof.
  intros Hk. unfold Helpers.shift4.
  replace (k =? 0) with false by (symmetry; apply Z.eqb_neq; lia).
  replace (0 <=? k) with true by (symmetry; apply Z.leb_le; lia).
  by rewrite slice_opt_drop_last.
Qed.

Lemma shift4_left {A : Type} (arr : list A) k x :
  k < 0 →
  Helpers.shift4 arr k x
  = drop (Z.to_nat (- k)) arr ++ replicate (Z.to_nat (- k)) x.
Proof.
  intros Hk. unfold Helpers.shift4.
  replace (k =? 0) with false by (symmetry; apply Z.eqb_neq; lia).
  replace (0 <=? k) with false by (symmetry; apply Z.leb_gt; lia).
  by rewrite slice_opt_drop_first by lia.
Qed.

(** X1. [shift4] keeps the length of the array only for a shift that is
    not longer than the array; a longer shift returns an array of the
    length of the shift, all of it the fill value. *)
Theorem X1_shift4_length {A : Type} (arr : list A) (k : Z) (x : A) :
  length (Helpers.shift4 arr k x) = Nat.max (length arr) (Z.to_nat (Z.abs k))
  ∧ (len arr <= Z.abs k →
     k ≠ 0 → Helpers.shift4 arr k x = replicate (Z.to_nat (Z.abs k)) x).
Proof.
  destruct (Z.lt_trichotomy k 0) as [Hneg|[->|Hpos]].
  - rewrite shift4_left by done. split.
    + rewrite length_app, length_drop, length_replicate. lia.
    + unfold len. intros Hlong _. rewrite drop_ge by lia. simpl. f_equal. lia.
  - change (Helpers.shift4 arr 0 x) with arr. split; [lia|done].
  - rewrite shift4_right by done. split.
    + rewrite length_app, length_take, length_replicate. lia.
    + unfold len. intros Hlong _.
      replace (length arr - Z.to_nat k)%nat with 0%nat by lia.
      rewrite take_0, app_nil_r. f_equal. lia.
Qed.

Lemma X1_shift4_length_witness :
  length (Helpers.shift4 [1; 2; 3] 5 0) = Nat.max (length [1; 2; 3]) (Z.to_nat (Z.abs 5))
  ∧ Helpers.shift4 [1; 2; 3] 5 0 = replicate (Z.to_nat (Z.abs 5)) 0.
Proof.
  destruct (X1_shift4_length [1; 2; 3] 5 0) as [Hlen Hlong].
  split; [exact Hlen|]. apply Hlong.
  - unfold len. simpl. lia.
  - lia.
Defined.

(** X2. Shifting to the right by [k] and back to the left by [k] keeps
    the first [len - k] samples where they were and fills the rest. *)
Theorem X2_shift4_there_and_back {A : Type} (arr : list A) (k : Z) (x : A) :
  0 < k <= len arr →
  Helpers.shift4 (Helpers.shift4 arr k x) (- k) x
  = take (length arr - Z.to_nat k) arr ++ replicate (Z.to_nat k) x.
Proof.
  unfold len. intros Hk. rewrite shift4_left by lia. rewrite shift4_right by lia.
  replace (Z.to_nat (- - k)) with (Z.to_nat k) by lia.
  rewrite drop_app_length'; [done|]. by rewrite length_replicate.
Qed.

Lemma X2_shift4_there_and_back_witness :
  Helpers.shift4 (Helpers.shift4 [1; 2; 3; 4] 1 0) (-1) 0 = [1; 2; 3; 0].
Proof.
  apply (X2_shift4_there_and_back [1; 2; 3; 4] 1 0). unfold len. simpl. lia.
Defined.







(** ** The edge triggers ([matchRisingEdge], [matchFallingEdge]) *)

Lemma slice_from_drop {A : Type} (l : list A) o :
  0 <= o <= len l → slice_from l (Some o) = drop (Z.to_nat o) l.
Proof.
  intros Ho. unfold slice_from, slice, clip, len in *.
  replace (o <? 0) with false by (symmetry; apply Z.ltb_ge; lia).
  replace (Z.of_nat (length l) <? 0) with false by (symmetry; apply Z.ltb_ge; lia).
  rewrite Z.min_id, Z.min_l by lia.
  apply take_ge. rewrite length_drop. lia.
Qed.

Lemma at_drop (tr : trace) (o k : nat) :
  default 0 (drop o tr !! k) = Dsp.at_ tr (Z.of_nat (o + k)).
Proof. unfold Dsp.at_. by rewrite lookup_drop, Nat2Z.id. Qed.

(** [first_true] on the image of a list: nothing is found, or the index
    of the first element that satisfies the test, counted from [i]. *)
Lemma first_true_cases (f : Z → bool) (l : list Z) (i : Z) :
  (Forall (λ v, f v = false) l ∧ Dsp.first_true (f <$> l) i = 0)
  ∨ (∃ (k : nat) v, l !! k = Some v ∧ f v = true
       ∧ (∀ (j : nat) v', (j < k)%nat → l !! j = Some v' → f v' = false)
       ∧ Dsp.first_true (f <$> l) i = i + Z.of_nat k).
Proof.
  revert i. induction l as [|x l IH]; intros i; simpl.
  - left. by split.
  - destruct (f x) eqn:Hx.
    + right. exists 0%nat, x. split_and!; [done|done|intros; lia|lia].
    + destruct (IH (i + 1)) as [[Hall H0]|(k & v & Hk & Hv & Hbefore & Hr)].
      * left. split; [by constructor|done].
      * right. exists (S k), v. split_and!; [done|done| |etrans; [exact Hr|lia]].
        intros [|j] v' Hj Hl; simpl in Hl; [by inversion Hl; subst|].
        apply (Hbefore j); [lia|done].
Qed.

(** What the two edge matchers compute for a test [f] on the samples:
    [0] when the sample at the offset passes the test or none from there
    on does, else the index of the first sample after the offset that
    passes it. *)
Lemma edge_cases (f : Z → bool) (tr : trace) (o : Z) :
  0 <= o < len tr →
  let r := x ← Dsp.argmax (f <$> slice_from tr (Some o));
           if negb (x =? 0) then Dsp.add_offset x (Some o) else Ok x in
  (r = Ok 0 ∧ (f (Dsp.at_ tr o) = true
               ∨ ∀ j, o <= j < len tr → f (Dsp.at_ tr j) = false))
  ∨ (∃ m, r = Ok m ∧ o < m < len tr ∧ f (Dsp.at_ tr m) = true
          ∧ ∀ j, o <= j < m → f (Dsp.at_ tr j) = false).
Proof.
  intros Ho r. subst r. rewrite slice_from_drop by lia.
  remember (drop (Z.to_nat o) tr) as l eqn:Hl.
  assert (length l = (length tr - Z.to_nat o)%nat) as Hlen
    by (subst l; apply length_drop).
  assert (∀ k : nat, default 0 (l !! k) = Dsp.at_ tr (o + Z.of_nat k)) as Hat.
  { intros k. subst l. rewrite at_drop. f_equal. lia. }
  clear Hl. unfold len in Ho.
  assert (Dsp.argmax (f <$> l) = Ok (Dsp.first_true (f <$> l) 0)) as ->.
  { destruct l; [simpl in Hlen; lia|done]. }
  unfold_bind.
  destruct (first_true_cases f l 0) as [[Hall ->]|(k & v & Hk & Hv & Hbefore & ->)].
  - left. split; [done|]. right. intros j Hj.
    rewrite Forall_lookup in Hall.
    destruct (l !! Z.to_nat (j - o)) as [v|] eqn:Hv.
    + specialize (Hat (Z.to_nat (j - o))). rewrite Hv in Hat. simpl in Hat.
      replace (o + Z.of_nat (Z.to_nat (j - o))) with j in Hat by lia.
      rewrite <- Hat. by eapply Hall.
    + apply lookup_ge_None in Hv. unfold len in *. lia.
  - assert (Dsp.at_ tr (o + Z.of_nat k) = v) as Hatk
      by (rewrite <- Hat, Hk; done).
    destruct k as [|k].
    + left. split; [done|]. left. by rewrite Z.add_0_r in Hatk; rewrite Hatk.
    + right. exists (Z.of_nat (S k) + o).
      replace (0 + Z.of_nat (S k) =? 0) with false by (symmetry; apply Z.eqb_neq; lia).
      simpl negb. cbv iota. unfold Dsp.add_offset. rewrite Z.add_0_l.
      split; [done|].
      apply lookup_lt_Some in Hk as Hklt. unfold len in *.
      split; [lia|]. split; [by rewrite Z.add_comm, Hatk|].
      intros j Hj.
      destruct (l !! Z.to_nat (j - o)) as [v'|] eqn:Hv'.
      * specialize (Hat (Z.to_nat (j - o))). rewrite Hv' in Hat. simpl in Hat.
        replace (o + Z.of_nat (Z.to_nat (j - o))) with j in Hat by lia.
        rewrite <- Hat. eapply (Hbefore (Z.to_nat (j - o))); [lia|done].
      * apply lookup_ge_None in Hv'. lia.
Qed.

(** X4. The rising-edge trigger, started inside the trace: its mark is
    the first sample after the offset that exceeds the threshold, and it
    reports nothing when the sample at the offset itself exceeds the
    threshold or no sample from the offset on does. *)
Theorem X4_rising_edge_first_crossing (tr : trace) (o : Z) (p : params) (thr : value) :
  p !! "threshold" = Some thr →
  0 <= o < len tr →
  (∃ m, Trigger.RisingEdgeTrigger.process_data tr (Some o) p
        = Ok (Trigger.XList [Some m])
        ∧ o < m < len tr ∧ as_int thr < Dsp.at_ tr m
        ∧ ∀ j, o <= j < m → Dsp.at_ tr j <= as_int thr)
  ∨ (Trigger.RisingEdgeTrigger.process_data tr (Some o) p = Ok (Trigger.XList [])
     ∧ (as_int thr < Dsp.at_ tr o
        ∨ ∀ j, o <= j < len tr → Dsp.at_ tr j <= as_int thr)).
Proof.
  intros Hp Ho.
  unfold Trigger.RisingEdgeTrigger.process_data, Dsp.matchRisingEdge, param.
  rewrite Hp. unfold_bind.
  pose proof (edge_cases (λ v, as_int thr <? v) tr o Ho) as H. cbv zeta in H.
  unfold_bind.
  destruct H as [[Hr Hwhy]|(m & Hr & Hm & Hat & Hbefore)]; rewrite Hr.
  - right. split; [done|].
    destruct Hwhy as [H|H]; [left; by apply Z.ltb_lt|right].
    intros j Hj. specialize (H j Hj). by apply Z.ltb_ge in H.
  - left. exists m.
    replace (m =? 0) with false by (symmetry; apply Z.eqb_neq; lia).
    split; [done|]. split; [done|]. split; [by apply Z.ltb_lt|].
    intros j Hj. specialize (Hbefore j Hj). by apply Z.ltb_ge in Hbefore.
Qed.

Lemma X4_rising_edge_first_crossing_witness :
  (∃ m, Trigger.RisingEdgeTrigger.process_data [0; 7; 1; 8; 9] (Some 1)
          (dict [("threshold", VInt 5)])
        = Ok (Trigger.XList [Some m])
        ∧ 1 < m < len [0; 7; 1; 8; 9] ∧ as_int (VInt 5) < Dsp.at_ [0; 7; 1; 8; 9] m
        ∧ ∀ j, 1 <= j < m → Dsp.at_ [0; 7; 1; 8; 9] j <= as_int (VInt 5))
  ∨ (Trigger.RisingEdgeTrigger.process_data [0; 7; 1; 8; 9] (Some 1)
       (dict [("threshold", VInt 5)]) = Ok (Trigger.XList [])
     ∧ (as_int (VInt 5) < Dsp.at_ [0; 7; 1; 8; 9] 1
        ∨ ∀ j, 1 <= j < len [0; 7; 1; 8; 9] →
               Dsp.at_ [0; 7; 1; 8; 9] j <= as_int (VInt 5))).
Proof.
  apply (X4_rising_edge_first_crossing [0; 7; 1; 8; 9] 1
           (dict [("threshold", VInt 5)]) (VInt 5)).
  - reflexivity.
  - unfold len. simpl. lia.
Defined.

(** X5. The falling-edge trigger, started inside the trace: its mark is
    the first sample after the offset that is below the threshold, and it
    reports nothing when the sample at the offset itself is below the
    threshold or no sample from the offset on is. *)
Theorem X5_falling_edge_first_crossing (tr : trace) (o : Z) (p : params) (thr : value) :
  p !! "threshold" = Some thr →
  0 <= o < len tr →
  (∃ m, Trigger.FallingEdgeTrigger.process_data tr (Some o) p
        = Ok (Trigger.XList [Some m])
        ∧ o < m < len tr ∧ Dsp.at_ tr m < as_int thr
        ∧ ∀ j, o <= j < m → as_int thr <= Dsp.at_ tr j)
  ∨ (Trigger.FallingEdgeTrigger.process_data tr (Some o) p = Ok (Trigger.XList [])
     ∧ (Dsp.at_ tr o < as_int thr
        ∨ ∀ j, o <= j < len tr → as_int thr <= Dsp.at_ tr j)).
Proof.
  intros Hp Ho.
  unfold Trigger.FallingEdgeTrigger.process_data, Dsp.matchFallingEdge, param.
  rewrite Hp. unfold_bind.
  pose proof (edge_cases (λ v, v <? as_int thr) tr o Ho) as H. cbv zeta in H.
  unfold_bind.
  destruct H as [[Hr Hwhy]|(m & Hr & Hm & Hat & Hbefore)]; rewrite Hr.
  - right. split; [done|].
    destruct Hwhy as [H|H]; [left; by apply Z.ltb_lt|right].
    intros j Hj. specialize (H j Hj). by apply Z.ltb_ge in H.
  - left. exists m.
    replace (m =? 0) with false by (symmetry; apply Z.eqb_neq; lia).
    split; [done|]. split; [done|]. split; [by apply Z.ltb_lt|].
    intros j Hj. specialize (Hbefore j Hj). by apply Z.ltb_ge in Hbefore.
Qed.

Lemma X5_falling_edge_first_crossing_witness :
  (∃ m, Trigger.FallingEdgeTrigger.process_data [9; 7; 8; 2; 9] (Some 1)
          (dict [("threshold", VInt 5)])
        = Ok (Trigger.XList [Some m])
        ∧ 1 < m < len [9; 7; 8; 2; 9] ∧ Dsp.at_ [9; 7; 8; 2; 9] m < as_int (VInt 5)
        ∧ ∀ j, 1 <= j < m → as_int (VInt 5) <= Dsp.at_ [9; 7; 8; 2; 9] j)
  ∨ (Trigger.FallingEdgeTrigger.process_data [9; 7; 8; 2; 9] (Some 1)
       (dict [("threshold", VInt 5)]) = Ok (Trigger.XList [])
     ∧ (Dsp.at_ [9; 7; 8; 2; 9] 1 < as_int (VInt 5)
        ∨ ∀ j, 1 <= j < len [9; 7; 8; 2; 9] →
               as_int (VInt 5) <= Dsp.at_ [9; 7; 8; 2; 9] j)).
Proof.
  apply (X5_falling_edge_first_crossing [9; 7; 8; 2; 9] 1
           (dict [("threshold", VInt 5)]) (VInt 5)).
  - reflexivity.
  - unfold len. simpl. lia.
Defined.

(** ** Edge triggers in a chain *)

Lemma slice_from_past_end {A : Type} (l : list A) o :
  len l <= o → slice_from l (Some o) = [].
Proof.
  intros Ho. unfold slice_from, slice, clip, len in *.
  replace (o <? 0) with false by (symmetry; apply Z.ltb_ge; lia).
  replace (Z.of_nat (length l) <? 0) with false by (symmetry; apply Z.ltb_ge; lia).
  rewrite Z.min_id, Z.min_r by lia. by rewrite Z.sub_diag.
Qed.

(** The equation of [_run_triggers] for a chain that is not empty. *)
Lemma run_triggers_from_cons get_trigger_by_name name p rest data off xm :
  _run_triggers_from get_trigger_by_name ((name, p) :: rest) data off xm
  = match trigger_process_data get_trigger_by_name name data off p with
    | Raise KeyError => Ok xm
    | Raise e => Raise e
    | Ok Trigger.NoKey => Ok xm
    | Ok Trigger.XNone => Raise TypeError
    | Ok (Trigger.XList []) => Ok (Some [])
    | Ok (Trigger.XList ((first :: _) as marks)) =>
        _run_triggers_from get_trigger_by_name rest data first (Some marks)
    end.
Proof. reflexivity. Qed.

(** X6. Started at or beyond the end of the trace (an empty trace
    included), both edge triggers raise [ValueError], and a trigger chain
    of the batch aligner that reaches such a stage raises it as well. *)
Theorem X6_edge_trigger_past_end (tr : trace) (o : Z) (p : params) (thr : value) :
  p !! "threshold" = Some thr →
  len tr <= o →
  Trigger.RisingEdgeTrigger.process_data tr (Some o) p = Raise ValueError
  ∧ Trigger.FallingEdgeTrigger.process_data tr (Some o) p = Raise ValueError
  ∧ ∀ rest xm,
      _run_triggers_from Trigger.get_trigger_by_name
        (("rising_edge_trigger", p) :: rest) tr (Some o) xm = Raise ValueError.
Proof.
  intros Hp Ho.
  assert (Trigger.RisingEdgeTrigger.process_data tr (Some o) p = Raise ValueError) as Hr.
  { unfold Trigger.RisingEdgeTrigger.process_data, Dsp.matchRisingEdge, param.
    by rewrite Hp, slice_from_past_end. }
  split; [done|]. split.
  - unfold Trigger.FallingEdgeTrigger.process_data, Dsp.matchFallingEdge, param.
    by rewrite Hp, slice_from_past_end.
  - intros rest xm. rewrite run_triggers_from_cons. unfold trigger_process_data.
    change (Trigger.get_trigger_by_name "rising_edge_trigger")
      with (Some Trigger.RisingEdgeTrigger.process_data).
    cbv beta iota. by rewrite Hr.
Qed.

Lemma X6_edge_trigger_past_end_witness :
  Trigger.RisingEdgeTrigger.process_data [] (Some 0) (dict [("threshold", VInt 5)])
  = Raise ValueError
  ∧ Trigger.FallingEdgeTrigger.process_data [] (Some 0) (dict [("threshold", VInt 5)])
    = Raise ValueError
  ∧ ∀ rest xm,
      _run_triggers_from Trigger.get_trigger_by_name
        (("rising_edge_trigger", dict [("threshold", VInt 5)]) :: rest) [] (Some 0) xm
      = Raise ValueError.
Proof.
  apply (X6_edge_trigger_past_end [] 0 (dict [("threshold", VInt 5)]) (VInt 5)).
  - reflexivity.
  - unfold len. simpl. lia.
Defined.

(** X7. A hold-off followed by a rising-edge trigger: the chain marks the
    first sample after the hold-off position that exceeds the threshold.
    It returns the empty list, which makes the trace invalid, when the
    hold-off leads past the end of the trace, when the sample at the
    hold-off position itself exceeds the threshold, or when no sample
    from there on does. *)
Theorem X7_holdoff_then_rising_edge (tr : trace) (ph pr : params) (h thr : value) :
  ph !! "holdoff" = Some h →
  pr !! "threshold" = Some thr →
  0 <= as_int h →
  (∃ m, _run_triggers_from Trigger.get_trigger_by_name
          [("hold_off", ph); ("rising_edge_trigger", pr)] tr (Some 0) None
        = Ok (Some [Some m])
        ∧ as_int h < m < len tr ∧ as_int thr < Dsp.at_ tr m
        ∧ ∀ j, as_int h <= j < m → Dsp.at_ tr j <= as_int thr)
  ∨ (_run_triggers_from Trigger.get_trigger_by_name
       [("hold_off", ph); ("rising_edge_trigger", pr)] tr (Some 0) None
     = Ok (Some [])
     ∧ (len tr <= as_int h
        ∨ as_int thr < Dsp.at_ tr (as_int h)
        ∨ ∀ j, as_int h <= j < len tr → Dsp.at_ tr j <= as_int thr)).
Proof.
  intros Hh Hthr Hpos. rewrite run_triggers_from_cons. unfold trigger_process_data.
  change (Trigger.get_trigger_by_name "hold_off")
    with (Some Trigger.HoldoffTrigger.process_data).
  cbv beta iota.
  unfold Trigger.HoldoffTrigger.process_data, param. rewrite Hh.
  unfold_bind. unfold Dsp.add_offset. rewrite Z.add_0_r.
  destruct (as_int h <? len tr) eqn:Hin.
  - apply Z.ltb_lt in Hin. rewrite run_triggers_from_cons.
    unfold trigger_process_data.
    change (Trigger.get_trigger_by_name "rising_edge_trigger")
      with (Some Trigger.RisingEdgeTrigger.process_data).
    cbv beta iota.
    pose proof (edge_cases (λ v, as_int thr <? v) tr (as_int h) (conj Hpos Hin)) as H.
    cbv zeta in H.
    unfold Trigger.RisingEdgeTrigger.process_data, Dsp.matchRisingEdge, param.
    rewrite Hthr. unfold_bind.
    destruct H as [[Hr Hwhy]|(m & Hr & Hm & Hat & Hbefore)]; rewrite Hr.
    + right. split; [done|]. right.
      destruct Hwhy as [H|H]; [left; by apply Z.ltb_lt|right].
      intros j Hj. specialize (H j Hj). by apply Z.ltb_ge in H.
    + left. exists m.
      replace (m =? 0) with false by (symmetry; apply Z.eqb_neq; lia).
      split; [done|]. split; [done|]. split; [by apply Z.ltb_lt|].
      intros j Hj. specialize (Hbefore j Hj). by apply Z.ltb_ge in Hbefore.
  - apply Z.ltb_ge in Hin. right. split; [done|]. by left.
Qed.

Lemma X7_holdoff_then_rising_edge_witness :
  (∃ m, _run_triggers_from Trigger.get_trigger_by_name
          [("hold_off", dict [("holdoff", VInt 2)]);
           ("rising_edge_trigger", dict [("threshold", VInt 5)])]
          [9; 0; 0; 1; 8; 9] (Some 0) None
        = Ok (Some [Some m])
        ∧ as_int (VInt 2) < m < len [9; 0; 0; 1; 8; 9]
        ∧ as_int (VInt 5) < Dsp.at_ [9; 0; 0; 1; 8; 9] m
        ∧ ∀ j, as_int (VInt 2) <= j < m → Dsp.at_ [9; 0; 0; 1; 8; 9] j <= as_int (VInt 5))
  ∨ (_run_triggers_from Trigger.get_trigger_by_name
       [("hold_off", dict [("holdoff", VInt 2)]);
        ("rising_edge_trigger", dict [("threshold", VInt 5)])]
       [9; 0; 0; 1; 8; 9] (Some 0) None
     = Ok (Some [])
     ∧ (len [9; 0; 0; 1; 8; 9] <= as_int (VInt 2)
        ∨ as_int (VInt 5) < Dsp.at_ [9; 0; 0; 1; 8; 9] (as_int (VInt 2))
        ∨ ∀ j, as_int (VInt 2) <= j < len [9; 0; 0; 1; 8; 9] →
               Dsp.at_ [9; 0; 0; 1; 8; 9] j <= as_int (VInt 5))).
Proof.
  apply (X7_holdoff_then_rising_edge [9; 0; 0; 1; 8; 9]
           (dict [("holdoff", VInt 2)]) (dict [("threshold", VInt 5)])
           (VInt 2) (VInt 5)).
  - reflexivity.
  - reflexivity.
  - simpl. lia.
Defined.

(** ** The peak finders ([findFirstPeak], [findLastPeak]) *)

Lemma meets_beats threshold findMax a b :
  beats findMax a b → Dsp.meets threshold findMax b = true →
  Dsp.meets threshold findMax a = true.
Proof.
  unfold beats, Dsp.meets. destruct threshold as [t|], findMax; try done;
    rewrite !Z.leb_le; lia.
Qed.

Lemma meets_fails_beats threshold findMax a b :
  Dsp.meets threshold findMax a = true → Dsp.meets threshold findMax b = false →
  beats findMax a b.
Proof.
  unfold beats, Dsp.meets. destruct threshold as [t|], findMax; try done;
    rewrite Z.leb_le, Z.leb_gt; lia.
Qed.

Lemma beats_or_not findMax a b : beats findMax a b ∨ ¬ beats findMax a b.
Proof. unfold beats. destruct findMax; lia. Qed.

Lemma findFirstPeak_loop_sound tr minDist threshold findMax :
  ∀ (fuel : nat) i hasPeak peakPos peakPos',
    0 <= i → i + Z.of_nat fuel = len tr →
    peak_invariant tr threshold findMax i hasPeak peakPos →
    Dsp.findFirstPeak_loop tr minDist threshold findMax fuel i hasPeak peakPos
    = (true, peakPos') →
    0 < peakPos' < len tr
    ∧ Dsp.meets threshold findMax (Dsp.at_ tr peakPos') = true
    ∧ (∀ j, 0 <= j < peakPos' →
            beats findMax (Dsp.at_ tr peakPos') (Dsp.at_ tr j))
    ∧ (∀ j, peakPos' < j < len tr → j <= peakPos' + minDist + 1 →
            ¬ beats findMax (Dsp.at_ tr j) (Dsp.at_ tr peakPos')).
Proof.
  induction fuel as [|fuel IH]; intros i h p p' Hi Hfuel Hinv Hrun.
  - simpl in Hrun. inversion Hrun; subst. simpl in Hinv.
    destruct Hinv as (Hp & Hm & Hbefore & Hafter).
    split_and!; [lia|lia|done|done|]. intros j Hj _. apply Hafter. lia.
  - simpl in Hrun.
    assert (beats findMax (Dsp.at_ tr i) (Dsp.at_ tr p)
            ↔ (findMax && (Dsp.at_ tr p <? Dsp.at_ tr i)
               || negb findMax && (Dsp.at_ tr i <? Dsp.at_ tr p)) = true) as Hbeats.
    { unfold beats. destruct findMax; simpl.
      - rewrite orb_false_r. symmetry. apply Z.ltb_lt.
      - symmetry. apply Z.ltb_lt. }
    assert (∀ h' q,
              peak_invariant tr threshold findMax (i + 1) h' q →
              Dsp.findFirstPeak_loop tr minDist threshold findMax fuel (i + 1) h' q
              = (true, p') →
              0 < p' < len tr
              ∧ Dsp.meets threshold findMax (Dsp.at_ tr p') = true
              ∧ (∀ j, 0 <= j < p' → beats findMax (Dsp.at_ tr p') (Dsp.at_ tr j))
              ∧ (∀ j, p' < j < len tr → j <= p' + minDist + 1 →
                      ¬ beats findMax (Dsp.at_ tr j) (Dsp.at_ tr p'))) as Hnext.
    { intros h' q Hinv' Hrun'. apply (IH (i + 1) h' q p'); [lia|lia|done|done]. }
    (* the sample beats the peak and meets the threshold: a new peak *)
    assert (beats findMax (Dsp.at_ tr i) (Dsp.at_ tr p) →
            Dsp.meets threshold findMax (Dsp.at_ tr i) = true →
            peak_invariant tr threshold findMax (i + 1) true i) as Hnew.
    { intros Hb Hm. simpl.
      assert (0 < i) as Hi0.
      { destruct (decide (i = 0)) as [->|]; [|lia].
        assert (p = 0) as -> by (destruct h; simpl in Hinv; lia).
        unfold beats in Hb. destruct findMax; lia. }
      split_and!; [lia|lia|done| |intros; lia].
      intros j Hj. destruct h; simpl in Hinv.
      - destruct Hinv as (Hp & Hmp & Hbefore & Hafter).
        destruct (decide (j < p)) as [Hjp|Hjp].
        + specialize (Hbefore j ltac:(lia)). unfold beats in *. destruct findMax; lia.
        + destruct (decide (j = p)) as [->|]; [done|].
          specialize (Hafter j ltac:(lia)). unfold beats in *. destruct findMax; lia.
      - destruct Hinv as (-> & Hseen).
        destruct (beats_or_not findMax (Dsp.at_ tr j) (Dsp.at_ tr 0)) as [Hbj|Hbj].
        + apply (meets_fails_beats threshold); [done|]. by apply Hseen.
        + unfold beats in *. destruct findMax; lia. }
    (* the state is kept *)
    assert ((h = true → ¬ beats findMax (Dsp.at_ tr i) (Dsp.at_ tr p)) →
            (h = false → beats findMax (Dsp.at_ tr i) (Dsp.at_ tr p) →
                         Dsp.meets threshold findMax (Dsp.at_ tr i) = false) →
            peak_invariant tr threshold findMax (i + 1) h p) as Hkeep.
    { intros Ht Hf. destruct h; simpl in *.
      - destruct Hinv as (Hp & Hmp & Hbefore & Hafter).
        split_and!; [lia|lia|done|done|].
        intros j Hj. destruct (decide (j = i)) as [->|]; [by apply Ht|].
        apply Hafter. lia.
      - destruct Hinv as (-> & Hseen). split; [done|].
        intros j Hj Hb. destruct (decide (j = i)) as [->|]; [by apply Hf|].
        apply Hseen; [lia|done]. }
    destruct findMax; simpl in Hrun, Hbeats.
    + rewrite orb_false_r in Hbeats.
      destruct (Dsp.at_ tr p <? Dsp.at_ tr i) eqn:Hc.
      * destruct (Dsp.meets threshold true (Dsp.at_ tr i)) eqn:Hm.
        -- apply (Hnext true i); [|done]. apply Hnew; [by apply Hbeats|done].
        -- apply (Hnext h p); [|done]. apply Hkeep; [|done].
           intros -> _. simpl in Hinv. destruct Hinv as (_ & Hmp & _).
           assert (Dsp.meets threshold true (Dsp.at_ tr i) = true) as Hm'
             by (apply (meets_beats _ _ _ (Dsp.at_ tr p)); [by apply Hbeats|done]).
           congruence.
      * assert (¬ beats true (Dsp.at_ tr i) (Dsp.at_ tr p)) as Hnb
          by (rewrite Hbeats; done).
        destruct (h && (minDist <? i - p)) eqn:Hexit.
        -- inversion Hrun; subst. apply andb_true_iff in Hexit as [_ Hd].
           apply Z.ltb_lt in Hd. simpl in Hinv.
           destruct Hinv as (Hp & Hmp & Hbefore & Hafter).
           split_and!; [lia|lia|done|done|].
           intros j Hj Hj'. destruct (decide (j = i)) as [->|]; [done|].
           apply Hafter. lia.
        -- apply (Hnext h p); [|done]. apply Hkeep; [done|]. intros _ Hb. done.
    + destruct (Dsp.at_ tr i <? Dsp.at_ tr p) eqn:Hc.
      * destruct (Dsp.meets threshold false (Dsp.at_ tr i)) eqn:Hm.
        -- apply (Hnext true i); [|done]. apply Hnew; [by apply Hbeats|done].
        -- apply (Hnext h p); [|done]. apply Hkeep; [|done].
           intros -> _. simpl in Hinv. destruct Hinv as (_ & Hmp & _).
           assert (Dsp.meets threshold false (Dsp.at_ tr i) = true) as Hm'
             by (apply (meets_beats _ _ _ (Dsp.at_ tr p)); [by apply Hbeats|done]).
           congruence.
      * assert (¬ beats false (Dsp.at_ tr i) (Dsp.at_ tr p)) as Hnb
          by (rewrite Hbeats; done).
        destruct (h && (minDist <? i - p)) eqn:Hexit.
        -- inversion Hrun; subst. apply andb_true_iff in Hexit as [_ Hd].
           apply Z.ltb_lt in Hd. simpl in Hinv.
           destruct Hinv as (Hp & Hmp & Hbefore & Hafter).
           split_and!; [lia|lia|done|done|].
           intros j Hj Hj'. destruct (decide (j = i)) as [->|]; [done|].
           apply Hafter. lia.
        -- apply (Hnext h p); [|done]. apply Hkeep; [done|]. intros _ Hb. done.
Qed.

(** The peak [findFirstPeak] returns is the one its loop ends with. *)
Lemma findFirstPeak_Some tr minDist threshold findMax pos v :
  Dsp.findFirstPeak tr minDist threshold findMax = Some (pos, v) →
  v = Dsp.at_ tr pos
  ∧ Dsp.findFirstPeak_loop tr minDist threshold findMax (length tr) 0 false 0
    = (true, pos).
Proof.
  unfold Dsp.findFirstPeak. intros H.
  destruct (Dsp.findFirstPeak_loop tr minDist threshold findMax (length tr) 0 false 0)
    as [h p] eqn:Hloop.
  destruct h; [|done]. by inversion H; subst.
Qed.

Lemma peak_invariant_start tr threshold findMax :
  peak_invariant tr threshold findMax 0 false 0.
Proof. simpl. split; [done|]. intros j Hj. lia. Qed.

(** X8. A peak [findFirstPeak] returns is not the first sample, meets the
    threshold, beats every sample before it, and is beaten by no sample
    among the [minDist + 1] that follow it. *)
Theorem X8_findFirstPeak_sound (tr : trace) (minDist : Z) (threshold : option Z)
    (findMax : bool) (pos v : Z) :
  Dsp.findFirstPeak tr minDist threshold findMax = Some (pos, v) →
  0 < pos < len tr
  ∧ v = Dsp.at_ tr pos
  ∧ Dsp.meets threshold findMax v = true
  ∧ (∀ j, 0 <= j < pos → beats findMax v (Dsp.at_ tr j))
  ∧ (∀ j, pos < j < len tr → j <= pos + minDist + 1 →
          ¬ beats findMax (Dsp.at_ tr j) v).
Proof.
  intros [-> Hloop]%findFirstPeak_Some.
  destruct (findFirstPeak_loop_sound tr minDist threshold findMax
              (length tr) 0 false 0 pos) as (Hp & Hm & Hbefore & Hafter);
    [lia|unfold len; lia|apply peak_invariant_start|done|done].
Qed.

Lemma X8_findFirstPeak_sound_witness :
  0 < 3 < len [0; 1; 2; 70; 2; 1; 80; 0]
  ∧ 70 = Dsp.at_ [0; 1; 2; 70; 2; 1; 80; 0] 3
  ∧ Dsp.meets (Some 60) true 70 = true
  ∧ (∀ j, 0 <= j < 3 → beats true 70 (Dsp.at_ [0; 1; 2; 70; 2; 1; 80; 0] j))
  ∧ (∀ j, 3 < j < len [0; 1; 2; 70; 2; 1; 80; 0] → j <= 3 + 1 + 1 →
          ¬ beats true (Dsp.at_ [0; 1; 2; 70; 2; 1; 80; 0] j) 70).
Proof.
  apply (X8_findFirstPeak_sound [0; 1; 2; 70; 2; 1; 80; 0] 1 (Some 60) true 3 70).
  vm_compute. reflexivity.
Defined.

(** ** The peak triggers *)

Lemma at_slice_from (tr : trace) o k :
  0 <= o <= len tr → 0 <= k →
  Dsp.at_ (slice_from tr (Some o)) k = Dsp.at_ tr (o + k).
Proof.
  intros Ho Hk. rewrite slice_from_drop by done.
  unfold Dsp.at_ at 1. rewrite at_drop. f_equal. lia.
Qed.

Lemma len_slice_from {A : Type} (l : list A) o :
  0 <= o <= len l → len (slice_from l (Some o)) = len l - o.
Proof.
  intros Ho. rewrite slice_from_drop by done. unfold len in *.
  rewrite length_drop. lia.
Qed.

Lemma at_reverse (s : trace) k :
  0 <= k < len s → Dsp.at_ (reverse s) k = Dsp.at_ s (len s - 1 - k).
Proof.
  intros Hk. unfold Dsp.at_, len in *.
  rewrite reverse_lookup by lia. do 2 f_equal. lia.
Qed.

(** X9. A mark of the first-peak trigger lies after the offset and inside
    the trace; the sample there meets the threshold (at least the
    threshold when it is not negative, at most the threshold when it is)
    and beats every sample from the offset up to the mark. *)
Theorem X9_first_peak_trigger_mark (tr : trace) (o : Z) (p : params) (thr : value) (m : Z) :
  p !! "threshold" = Some thr →
  0 <= o <= len tr →
  Trigger.FirstPeakFilter.process_data tr (Some o) p = Ok (Trigger.XList [Some m]) →
  o < m < len tr
  ∧ (if 0 <=? as_int thr then as_int thr <= Dsp.at_ tr m
     else Dsp.at_ tr m <= as_int thr)
  ∧ ∀ j, o <= j < m →
         beats (0 <=? as_int thr) (Dsp.at_ tr m) (Dsp.at_ tr j).
Proof.
  intros Hp Ho. unfold Trigger.FirstPeakFilter.process_data, param.
  rewrite Hp. unfold_bind.
  destruct (Dsp.findFirstPeak _ _ _ _) as [[pos v]|] eqn:Hpeak; [|done].
  unfold Dsp.add_offset. intros [= <-].
  apply findFirstPeak_Some in Hpeak as [-> Hloop].
  destruct (findFirstPeak_loop_sound _ _ _ _ _ 0 false 0 pos
              (Z.le_refl 0) (eq_refl _) (peak_invariant_start _ _ _) Hloop)
    as (Hpos & Hm & Hbefore & _).
  rewrite len_slice_from in Hpos by done.
  rewrite at_slice_from in Hm by lia.
  split; [lia|]. split.
  - replace (pos + o) with (o + pos) by lia.
    unfold Dsp.meets in Hm. destruct (0 <=? as_int thr); lia.
  - intros j Hj. specialize (Hbefore (j - o) ltac:(lia)).
    rewrite !at_slice_from in Hbefore by lia.
    replace (pos + o) with (o + pos) by lia.
    by replace (o + (j - o)) with j in Hbefore by lia.
Qed.

Lemma X9_first_peak_trigger_mark_witness :
  2 < 5 < len [0; 90; 0; 1; 2; 70; 2; 1]
  ∧ (if 0 <=? as_int (VInt 60) then as_int (VInt 60) <= Dsp.at_ [0; 90; 0; 1; 2; 70; 2; 1] 5
     else Dsp.at_ [0; 90; 0; 1; 2; 70; 2; 1] 5 <= as_int (VInt 60))
  ∧ ∀ j, 2 <= j < 5 →
         beats (0 <=? as_int (VInt 60)) (Dsp.at_ [0; 90; 0; 1; 2; 70; 2; 1] 5)
               (Dsp.at_ [0; 90; 0; 1; 2; 70; 2; 1] j).
Proof.
  apply (X9_first_peak_trigger_mark [0; 90; 0; 1; 2; 70; 2; 1] 2
           (dict [("threshold", VInt 60)]) (VInt 60) 5).
  - reflexivity.
  - unfold len. simpl. lia.
  - vm_compute. reflexivity.
Defined.

(** X10. A mark of the last-peak trigger is an index into the part of
    the trace that starts at the offset, to which the offset is not
    added: it is less than the length of that part minus one, and the
    sample it names there, [trace[offset + mark]], meets the threshold
    and beats every sample after it. *)
Theorem X10_last_peak_trigger_mark (tr : trace) (o : Z) (p : params) (thr : value) (m : Z) :
  p !! "threshold" = Some thr →
  0 <= o <= len tr →
  Trigger.LastPeakFilter.process_data tr (Some o) p = Ok (Trigger.XList [Some m]) →
  0 <= m < len tr - o - 1
  ∧ (if 0 <=? as_int thr then as_int thr <= Dsp.at_ tr (o + m)
     else Dsp.at_ tr (o + m) <= as_int thr)
  ∧ ∀ j, m < j < len tr - o →
         beats (0 <=? as_int thr) (Dsp.at_ tr (o + m)) (Dsp.at_ tr (o + j)).
Proof.
  intros Hp Ho. unfold Trigger.LastPeakFilter.process_data, param.
  rewrite Hp. unfold_bind. unfold Dsp.findLastPeak.
  set (s := slice_from tr (Some o)).
  assert (len s = len tr - o) as Hs by (by apply len_slice_from).
  destruct (Dsp.findFirstPeak _ _ _ _) as [[pos v]|] eqn:Hpeak; [|done].
  intros [= <-].
  apply findFirstPeak_Some in Hpeak as [-> Hloop].
  assert (len (reverse s) = len s) as Hrev by (unfold len; by rewrite length_reverse).
  destruct (findFirstPeak_loop_sound _ _ _ _ _ 0 false 0 pos
              (Z.le_refl 0) (eq_refl _) (peak_invariant_start _ _ _) Hloop)
    as (Hpos & Hm & Hbefore & _).
  rewrite Hrev in Hpos.
  assert (∀ k, 0 <= k < len s →
               Dsp.at_ (reverse s) k = Dsp.at_ tr (o + (len s - 1 - k))) as Hat.
  { intros k Hk. rewrite at_reverse by done. apply at_slice_from; [done|lia]. }
  rewrite Hat in Hm by lia.
  split; [lia|]. split.
  - unfold Dsp.meets in Hm. destruct (0 <=? as_int thr); lia.
  - intros j Hj. specialize (Hbefore (len s - 1 - j) ltac:(lia)).
    rewrite !Hat in Hbefore by lia.
    by replace (o + (len s - 1 - (len s - 1 - j))) with (o + j) in Hbefore by lia.
Qed.

Lemma X10_last_peak_trigger_mark_witness :
  0 <= 3 < len [0; 90; 0; 1; 2; 70; 2; 1] - 2 - 1
  ∧ (if 0 <=? as_int (VInt 60)
     then as_int (VInt 60) <= Dsp.at_ [0; 90; 0; 1; 2; 70; 2; 1] (2 + 3)
     else Dsp.at_ [0; 90; 0; 1; 2; 70; 2; 1] (2 + 3) <= as_int (VInt 60))
  ∧ ∀ j, 3 < j < len [0; 90; 0; 1; 2; 70; 2; 1] - 2 →
         beats (0 <=? as_int (VInt 60)) (Dsp.at_ [0; 90; 0; 1; 2; 70; 2; 1] (2 + 3))
               (Dsp.at_ [0; 90; 0; 1; 2; 70; 2; 1] (2 + j)).
Proof.
  apply (X10_last_peak_trigger_mark [0; 90; 0; 1; 2; 70; 2; 1] 2
           (dict [("threshold", VInt 60)]) (VInt 60) 3).
  - reflexivity.
  - unfold len. simpl. lia.
  - vm_compute. reflexivity.
Defined.

(** ** The threshold trigger *)

Lemma getitem_at (l : trace) i :
  0 <= i < len l → getitem l i = Ok (Dsp.at_ l i).
Proof.
  intros Hi. unfold getitem, Dsp.at_.
  replace (i <? 0) with false by (symmetry; apply Z.ltb_ge; lia).
  replace (i <? 0) with false by (symmetry; apply Z.ltb_ge; lia).
  destruct (lookup_lt_is_Some_2 l (Z.to_nat i)) as [x Hx].
  { unfold len in Hi. lia. }
  by rewrite Hx.
Qed.

(** The window the loop returns: [peak0], when set, opened a window that
    no sample up to [i] has closed. *)
Lemma threshold_loop_sound data threshold hysteresis min_range inverse o :
  ∀ (fuel : nat) i peak0 a b,
    0 <= o <= i → i + Z.of_nat fuel <= len data →
    (∀ a0, peak0 = Some a0 →
       o <= a0 < i
       ∧ enters threshold hysteresis inverse (Dsp.at_ data a0) = true
       ∧ ∀ j, a0 < j < i → leaves threshold hysteresis inverse (Dsp.at_ data j) = false) →
    Trigger.ThresholdTrigger.loop data threshold hysteresis min_range inverse
      fuel i peak0 = Ok (Some a, Some b) →
    o <= a < b ∧ b < len data ∧ min_range <= b - a
    ∧ enters threshold hysteresis inverse (Dsp.at_ data a) = true
    ∧ leaves threshold hysteresis inverse (Dsp.at_ data b) = true
    ∧ ∀ j, a < j < b → leaves threshold hysteresis inverse (Dsp.at_ data j) = false.
Proof.
  induction fuel as [|fuel IH]; intros i peak0 a b Hi Hfuel Hinv Hrun;
    simpl in Hrun; [done|].
  rewrite getitem_at in Hrun by lia. unfold_bind.
  fold (enters threshold hysteresis inverse (Dsp.at_ data i)) in Hrun.
  fold (leaves threshold hysteresis inverse (Dsp.at_ data i)) in Hrun.
  destruct peak0 as [a0|].
  - destruct (Hinv a0 eq_refl) as (Ha0 & Henter & Hopen).
    destruct (leaves threshold hysteresis inverse (Dsp.at_ data i)) eqn:Hl.
    + destruct (min_range <=? i - a0) eqn:Hr.
      * inversion Hrun; subst. apply Z.leb_le in Hr.
        split_and!; [lia|lia|lia|lia|done|done|done].
      * apply (IH (i + 1) None a b); [lia|lia|done|done].
    + apply (IH (i + 1) (Some a0) a b); [lia|lia| |done].
      intros ? [= <-]. split_and!; [lia|lia|done|].
      intros j Hj. destruct (decide (j = i)) as [->|]; [done|]. apply Hopen. lia.
  - destruct (enters threshold hysteresis inverse (Dsp.at_ data i)) eqn:He.
    + apply (IH (i + 1) (Some i) a b); [lia|lia| |done].
      intros ? [= <-]. split_and!; [lia|lia|done|intros; lia].
    + apply (IH (i + 1) None a b); [lia|lia|done|done].
Qed.

(** X11. The two marks of the threshold trigger delimit a window: the
    first is at or after the offset, where a sample opens the window;
    the second is the first sample after it that closes the window; and
    they are at least [min_range] apart. *)
Theorem X11_threshold_trigger_window (tr : trace) (o : Z) (p : params)
    (threshold hysteresis min_range inverse : value) (a b : Z) :
  p !! "threshold" = Some threshold →
  p !! "hysteresis" = Some hysteresis →
  p !! "min_range" = Some min_range →
  p !! "inverse" = Some inverse →
  0 <= o →
  Trigger.ThresholdTrigger.process_data tr (Some o) p
  = Ok (Trigger.XList [Some a; Some b]) →
  o <= a < b ∧ b < len tr ∧ as_int min_range <= b - a
  ∧ enters (as_int threshold) (as_int hysteresis) (truthy inverse) (Dsp.at_ tr a) = true
  ∧ leaves (as_int threshold) (as_int hysteresis) (truthy inverse) (Dsp.at_ tr b) = true
  ∧ ∀ j, a < j < b →
         leaves (as_int threshold) (as_int hysteresis) (truthy inverse) (Dsp.at_ tr j)
         = false.
Proof.
  intros Ht Hh Hm Hi Ho.
  unfold Trigger.ThresholdTrigger.process_data, param.
  rewrite Ht, Hh, Hm, Hi. unfold_bind.
  destruct (Trigger.ThresholdTrigger.loop _ _ _ _ _ _ _ _) as [[[a'|] [b'|]]|] eqn:Hloop;
    try done.
  intros [= <- <-].
  destruct (decide (o <= len tr)) as [Hin|Hout].
  - apply (threshold_loop_sound _ _ _ _ _ o) in Hloop; [done|lia|lia|done].
  - replace (Z.to_nat (len tr - o)) with 0%nat in Hloop by lia. done.
Qed.

Lemma X11_threshold_trigger_window_witness :
  1 <= 2 < 5 ∧ 5 < len [9; 0; 9; 9; 9; 0; 9; 9]
  ∧ as_int (VInt 2) <= 5 - 2
  ∧ enters (as_int (VInt 5)) (as_int (VInt 0)) (truthy (VBool false))
      (Dsp.at_ [9; 0; 9; 9; 9; 0; 9; 9] 2) = true
  ∧ leaves (as_int (VInt 5)) (as_int (VInt 0)) (truthy (VBool false))
      (Dsp.at_ [9; 0; 9; 9; 9; 0; 9; 9] 5) = true
  ∧ ∀ j, 2 < j < 5 →
         leaves (as_int (VInt 5)) (as_int (VInt 0)) (truthy (VBool false))
           (Dsp.at_ [9; 0; 9; 9; 9; 0; 9; 9] j) = false.
Proof.
  apply (X11_threshold_trigger_window [9; 0; 9; 9; 9; 0; 9; 9] 1
           (dict [("threshold", VInt 5); ("hysteresis", VInt 0);
                  ("min_range", VInt 2); ("inverse", VBool false)])
           (VInt 5) (VInt 0) (VInt 2) (VBool false) 2 5).
  - reflexivity.
  - reflexivity.
  - reflexivity.
  - reflexivity.
  - lia.
  - vm_compute. reflexivity.
Defined.

(** ** The interactive path and the batch aligner *)

Section Preview.

Variable get_filter_by_name : string → option Filter.Filter.
Variable get_trigger_by_name : string → option Trigger.Trigger.

(** X12. The modifying pass of the batch aligner is the filter loop of
    the interactive path over the filters whose [modify_data] is true:
    the same result and the same exception. *)
Theorem X12_modifying_pass_is_preview_of_flagged (filters : list (string * params))
    (data : trace) :
  _run_modifying_filter_from get_filter_by_name filters data
  = Model.process_filters get_filter_by_name
      (filter (λ f, default false (modify_flag f.2) = true) filters) data.
Proof.
  revert data. induction filters as [|[name settings] filters IH]; intros data; [done|].
  simpl _run_modifying_filter_from.
  destruct (default false (modify_flag settings)) eqn:Hflag.
  - rewrite filter_cons_True by done. simpl.
    destruct (filter_process_data get_filter_by_name name data settings)
      as [[data'|]|e]; simpl; [apply IH|done|done].
  - rewrite filter_cons_False by (simpl; congruence). apply IH.
Qed.

(** The scan applies the filters that are not flagged: whenever the
    interactive filter loop over them returns, the scan returns the same
    buffer. *)
Lemma run_filters_from_unflagged (filters : list (string * params)) :
  ∀ (data result : trace) (modify_data : option bool),
    Model.process_filters get_filter_by_name
      (filter (λ f, default false (modify_flag f.2) = false) filters) data
    = Ok result →
    ∃ modify_data',
      _run_filters_from get_filter_by_name filters modify_data data
      = Ok (modify_data', result).
Proof.
  induction filters as [|[name settings] filters IH]; intros data result md Hrun.
  - simpl in *. inversion Hrun. by eexists.
  - simpl _run_filters_from.
    destruct (default false (modify_flag settings)) eqn:Hflag.
    + rewrite filter_cons_False in Hrun by (simpl; congruence).
      unfold_bind. by apply IH.
    + rewrite filter_cons_True in Hrun by done. simpl in Hrun.
      destruct (filter_process_data get_filter_by_name name data settings)
        as [[data'|]|e]; simpl in *; [|done|done].
      by apply IH.
Qed.

(** Marks the interactive trigger loop returns are the marks of the
    batch aligner's trigger loop. *)
Lemma run_triggers_from_preview (triggers : list (string * params)) :
  ∀ (data : trace) offset xmarks marks,
    Model.process_triggers get_trigger_by_name triggers data offset xmarks
    = Ok (Some marks) →
    _run_triggers_from get_trigger_by_name triggers data offset xmarks
    = Ok (Some marks).
Proof.
  induction triggers as [|[name settings] triggers IH];
    intros data offset xmarks marks Hrun; [done|].
  simpl in *.
  destruct (trigger_process_data get_trigger_by_name name data offset settings)
    as [[| |[|first rest]]|e]; simpl in *; try done.
  by apply IH.
Qed.

(** X13. What the interactive path shows for a trace is what the scan of
    the batch aligner sees: when the interactive path, run without a
    shift on the filters that are not flagged [modify_data] and on the
    triggers, returns a buffer and marks, the scan of that trace
    classifies the trace from the same buffer and the same marks. *)
Theorem X13_preview_is_what_the_scan_sees (nan : Z) (self : BatchProcessingThread.t)
    (tracenr : nat) (data : trace) (marks : list (option Z)) :
  Model.run_filters_and_triggers_on_trace_data_and_shift
    get_filter_by_name get_trigger_by_name nan
    (trace_data self) tracenr (tracetype self)
    (filter (λ f, default false (modify_flag f.2) = false) (filter_dict self))
    (trigger_dict self) 0
  = Ok (data, Some marks) →
  ∃ modify_data,
    run_filters_and_triggers get_filter_by_name get_trigger_by_name self tracenr
    = Ok (classify self tracenr modify_data data (Some marks)).
Proof.
  unfold Model.run_filters_and_triggers_on_trace_data_and_shift,
    run_filters_and_triggers, fetch.
  intros Hrun.
  destruct (NumpyArrays.get_trace (trace_data self) (tracetype self) (Z.of_nat tracenr))
    as [[row|]|e]; simpl in *; [|done|done].
  change (Helpers.shift4 row 0 nan) with row in Hrun.
  destruct (Model.process_filters _ _ row) as [buf|e] eqn:Hf; simpl in Hrun; [|done].
  destruct (Model.process_triggers _ _ buf (Some 0) None) as [xm|e] eqn:Ht;
    simpl in Hrun; [|done].
  inversion Hrun; subst. clear Hrun.
  destruct (run_filters_from_unflagged _ _ _ None Hf) as [md Hscan].
  apply run_triggers_from_preview in Ht.
  exists (match filter_dict self with [] => None | _ => md end).
  unfold filter_stage, trigger_stage, _run_filters, _run_triggers.
  destruct (filter_dict self) as [|f fs] eqn:Hfd.
  - simpl in Hf. inversion Hf; subst. simpl.
    destruct (trigger_dict self) as [|t ts] eqn:Htd; [done|].
    by rewrite Ht.
  - rewrite Hscan. simpl.
    destruct (trigger_dict self) as [|t ts] eqn:Htd; [done|].
    by rewrite Ht.
Qed.

End Preview.

Lemma X13_preview_is_what_the_scan_sees_witness :
  ∃ modify_data,
    run_filters_and_triggers shipped_filters shipped_triggers one_peak 0%nat
    = Ok (classify one_peak 0%nat modify_data [0; 1; 2; 70; 2; 1; 0; 0] (Some [Some 3])).
Proof.
  apply (X13_preview_is_what_the_scan_sees shipped_filters shipped_triggers 0
           one_peak 0%nat [0; 1; 2; 70; 2; 1; 0; 0] [Some 3]).
  vm_compute. reflexivity.
Defined.

(** ** The scan of a trace *)

Section Scan.

Variable get_filter_by_name : string → option Filter.Filter.
Variable get_trigger_by_name : string → option Trigger.Trigger.

(** X14. The scan of trace [i] assigns entry [i] of [valid_traces_array]
    and leaves every other entry of it and of [peak_array] as it was; the
    two arrays keep their lengths. *)
Theorem X14_scan_assigns_its_own_entry (self s : BatchProcessingThread.t) (i : nat) :
  (i < length (valid_traces_array self))%nat →
  (i < length (peak_array self))%nat →
  run_filters_and_triggers get_filter_by_name get_trigger_by_name self i = Ok s →
  length (valid_traces_array s) = length (valid_traces_array self)
  ∧ length (peak_array s) = length (peak_array self)
  ∧ is_Some (valid_traces_array s !! i)
  ∧ ∀ j, j ≠ i →
         valid_traces_array s !! j = valid_traces_array self !! j
         ∧ peak_array s !! j = peak_array self !! j.
Proof.
  intros Hv Hp (raw & md & buf & xm & _ & _ & _ & ->)%scan_trace_inv.
  unfold classify.
  repeat case_match; simpl; rewrite ?length_insert;
    (split_and!; [done|done|by apply lookup_lt_is_Some_2; rewrite length_insert|]);
    intros j Hj; by rewrite ?list_lookup_insert_ne.
Qed.

(** X15. With two marks from the trigger chain the trace is valid exactly
    when the cut region around them lies inside the buffer the triggers
    searched: the first mark plus the start of the region is not
    negative and the second mark plus its end does not exceed the
    length of the buffer. A valid trace gets the two marks as its anchor
    pair; an invalid one keeps the pair it had. The cut region is not
    changed. *)
Theorem X15_two_marks_classification (self : BatchProcessingThread.t) (i : nat)
    (raw : trace) (md : option bool) (buf : trace) (m1 m2 : Z) :
  (i < length (valid_traces_array self))%nat →
  (i < length (peak_array self))%nat →
  fetch self (tracetype self) i = Ok raw →
  filter_stage get_filter_by_name self raw = Ok (md, buf) →
  trigger_stage get_trigger_by_name self buf = Ok (Some [Some m1; Some m2]) →
  ∃ s, run_filters_and_triggers get_filter_by_name get_trigger_by_name self i = Ok s
       ∧ region_around_peak s = region_around_peak self
       ∧ if bool_decide (0 <= m1 + (region_around_peak self).1
                         ∧ m2 + (region_around_peak self).2 <= len buf)
         then valid_traces_array s !! i = Some true
              ∧ peak_array s !! i = Some (m1, m2)
         else valid_traces_array s !! i = Some false
              ∧ peak_array s !! i = peak_array self !! i.
Proof.
  intros Hv Hp Hraw Hf Ht. eexists. split.
  { by eapply scan_trace_classifies. }
  simpl. case_bool_decide as Hin.
  - replace (len buf <? m2 + (region_around_peak self).2) with false
      by (symmetry; apply Z.ltb_ge; lia).
    replace (m1 + (region_around_peak self).1 <? 0) with false
      by (symmetry; apply Z.ltb_ge; lia).
    simpl. by rewrite !list_lookup_insert_eq.
  - destruct (_ || _) eqn:Hout; simpl.
    + by rewrite list_lookup_insert_eq.
    + apply orb_false_elim in Hout as [H2%Z.ltb_ge H1%Z.ltb_ge]. lia.
Qed.

End Scan.

Lemma X14_scan_assigns_its_own_entry_witness :
  ∃ s, run_filters_and_triggers shipped_filters shipped_triggers two_windows 1%nat = Ok s
       ∧ length (valid_traces_array s) = length (valid_traces_array two_windows)
       ∧ length (peak_array s) = length (peak_array two_windows)
       ∧ is_Some (valid_traces_array s !! 1%nat)
       ∧ ∀ j, j ≠ 1%nat →
              valid_traces_array s !! j = valid_traces_array two_windows !! j
              ∧ peak_array s !! j = peak_array two_windows !! j.
Proof.
  eexists. split; [vm_compute; reflexivity|].
  apply (X14_scan_assigns_its_own_entry shipped_filters shipped_triggers two_windows).
  - simpl. lia.
  - simpl. lia.
  - vm_compute. reflexivity.
Defined.

Lemma X15_two_marks_classification_witness :
  ∃ s, run_filters_and_triggers shipped_filters shipped_triggers two_windows 1%nat = Ok s
       ∧ region_around_peak s = (0, 1)
       ∧ valid_traces_array s !! 1%nat = Some true
       ∧ peak_array s !! 1%nat = Some (1, 5).
Proof.
  destruct (X15_two_marks_classification shipped_filters shipped_triggers
              two_windows 1%nat [0; 9; 9; 9; 9; 0; 0; 0] None
              [0; 9; 9; 9; 9; 0; 0; 0] 1 5)
    as (s & Hs & Hregion & Hvalid).
  - simpl. lia.
  - simpl. lia.
  - vm_compute. reflexivity.
  - vm_compute. reflexivity.
  - vm_compute. reflexivity.
  - exists s. split; [exact Hs|]. split; [exact Hregion|]. exact Hvalid.
Defined.

(** ** The cutting phase *)

Section CutPhase.

Variable get_filter_by_name : string → option Filter.Filter.
Variable get_trigger_by_name : string → option Trigger.Trigger.








(** X17. With no trace to process (a trace count of zero, or none given
    and a dataset that declares zero traces) [run] raises [IndexError]:
    the output length is read from the first row of an empty
    [peak_array]. *)
Theorem X17_run_without_traces (align_trace_data : NumpyArrays.t)
    (filter_dict trigger_dict : list (string * params)) (region_around_peak : Z * Z)
    (trace_type : string) (trace_count : option nat) :
  match trace_count with
  | Some n => n = 0%nat
  | None => NumpyArrays.get_number_of_traces align_trace_data = 0
  end →
  run get_filter_by_name get_trigger_by_name
    (init align_trace_data filter_dict trigger_dict region_around_peak trace_type
       trace_count)
  = Raise IndexError.
Proof.
  intros H. unfold init.
  destruct trace_count as [n|]; [subst n|rewrite H]; reflexivity.
Qed.

End CutPhase.


Lemma X17_run_without_traces_witness :
  run shipped_filters shipped_triggers
    (init (em_dataset []) [] [("hold_off", dict [("holdoff", VInt 1)])] (0, 2) "em" None)
  = Raise IndexError.
Proof.
  apply (X17_run_without_traces shipped_filters shipped_triggers (em_dataset []) []
           [("hold_off", dict [("holdoff", VInt 1)])] (0, 2) "em" None).
  reflexivity.
Defined.

(** ** The array backend *)

Lemma select_rows_sublist (rows : list trace) :
  ∀ mask, sublist (NumpyArrays.select_rows rows mask) rows.
Proof.
  induction rows as [|r rows IH]; intros [|b mask]; simpl;
    try apply sublist_nil_l.
  destruct b; [apply sublist_skip|apply sublist_cons]; apply IH.
Qed.

Lemma select_rows_length (rows : list trace) :
  ∀ mask, (length mask ≤ length rows)%nat →
  length (NumpyArrays.select_rows rows mask) = length (filter (λ b, b = true) mask).
Proof.
  induction rows as [|r rows IH]; intros [|b mask] Hlen; simpl in *;
    try done; try lia.
  rewrite filter_cons. destruct b.
  - rewrite decide_True by done. simpl. rewrite IH; [done|lia].
  - rewrite decide_False by done. apply IH. lia.
Qed.

(** X18. [reduce_data_from_mask] with a mask that is not longer than the
    input stores, under the channel name, rows of the input in their
    order, as many as the mask has true entries; the other channels are
    left alone. In particular a mask of the full length that is true
    everywhere stores the input, and a mask without a true entry stores
    no row. *)
Theorem X18_reduce_data_from_mask (self : NumpyArrays.t) (trace_type : string)
    (input_data : list trace) (trace_mask : list bool) :
  len trace_mask <= len input_data →
  ∃ self' rows,
    NumpyArrays.reduce_data_from_mask self trace_type input_data trace_mask = Ok self'
    ∧ NumpyArrays._npy_mm self' !! trace_type = Some rows
    ∧ sublist rows input_data
    ∧ len rows = len (filter (λ b, b = true) trace_mask)
    ∧ ∀ c, c ≠ trace_type →
           NumpyArrays._npy_mm self' !! c = NumpyArrays._npy_mm self !! c.
Proof.
  intros Hlen. unfold NumpyArrays.reduce_data_from_mask.
  replace (_ <? _) with false by (symmetry; apply Z.ltb_ge; lia).
  eexists _, _. split; [done|]. simpl. split; [apply lookup_insert_eq|].
  split; [apply select_rows_sublist|]. split.
  - unfold len in *. f_equal. apply select_rows_length. lia.
  - intros c Hc. by apply lookup_insert_ne.
Qed.

Lemma X18_reduce_data_from_mask_witness :
  ∃ self' rows,
    NumpyArrays.reduce_data_from_mask NumpyArrays.new "plain"
      [[1; 2]; [3; 4]; [5; 6]] [true; false] = Ok self'
    ∧ NumpyArrays._npy_mm self' !! "plain" = Some rows
    ∧ sublist rows [[1; 2]; [3; 4]; [5; 6]]
    ∧ len rows = len (filter (λ b, b = true) [true; false])
    ∧ ∀ c, c ≠ "plain" →
           NumpyArrays._npy_mm self' !! c = NumpyArrays._npy_mm NumpyArrays.new !! c.
Proof.
  apply (X18_reduce_data_from_mask NumpyArrays.new "plain"
           [[1; 2]; [3; 4]; [5; 6]] [true; false]).
  unfold len. simpl. lia.
Defined.

Lemma get_trace_lookup (self : NumpyArrays.t) c (i : nat) :
  c ≠ "" →
  NumpyArrays.get_trace self c (Z.of_nat i)
  = match NumpyArrays._npy_mm self !! c with
    | None => Raise KeyError
    | Some rows => match rows !! i with
                   | Some row => Ok (Some row)
                   | None => Raise IndexError
                   end
    end.
Proof.
  intros Hc. unfold NumpyArrays.get_trace, NumpyArrays.get_traces, getitem.
  replace (String.eqb c "") with false by (symmetry; by apply String.eqb_neq).
  destruct (NumpyArrays._npy_mm self !! c) as [rows|]; [|done].
  unfold_bind.
  replace (Z.of_nat i <? 0) with false by (symmetry; apply Z.ltb_ge; lia).
  replace (Z.of_nat i <? 0) with false by (symmetry; apply Z.ltb_ge; lia).
  rewrite Nat2Z.id. by destruct (rows !! i).
Qed.

(** X19. A row added with [add_trace] while records are left is the row
    [get_trace] returns at the position of the write counter; every other
    row of the channel and every other channel reads as before, and the
    counter has advanced by one. *)
Theorem X19_add_trace_then_get_trace (self : NumpyArrays.t) (c : string) (d : trace)
    (rows : list trace) (row : trace) (w : nat) :
  c ≠ "" →
  NumpyArrays._records_written self = Z.of_nat w →
  Z.of_nat w < NumpyArrays.number_of_traces self →
  NumpyArrays._npy_mm self !! c = Some rows →
  rows !! w = Some row →
  length d = length row →
  ∃ self',
    NumpyArrays.add_trace self c d = Ok self'
    ∧ NumpyArrays.get_trace self' c (Z.of_nat w) = Ok (Some d)
    ∧ NumpyArrays._records_written self' = Z.of_nat w + 1
    ∧ (∀ i : nat, i ≠ w →
         NumpyArrays.get_trace self' c (Z.of_nat i)
         = NumpyArrays.get_trace self c (Z.of_nat i))
    ∧ (∀ c' (i : nat), c' ≠ c →
         NumpyArrays.get_trace self' c' (Z.of_nat i)
         = NumpyArrays.get_trace self c' (Z.of_nat i)).
Proof.
  intros Hc Hw Hlt Hrows Hrow Hlen.
  eexists. split; [by eapply add_trace_stored|].
  split_and!.
  - rewrite get_trace_lookup by done. simpl. rewrite lookup_insert_eq.
    rewrite list_lookup_insert_eq; [done|]. by eapply lookup_lt_Some.
  - done.
  - intros i Hi. rewrite !get_trace_lookup by done. simpl.
    rewrite lookup_insert_eq, Hrows. by rewrite list_lookup_insert_ne.
  - intros c' i Hc'.
    destruct (decide (c' = "")) as [->|Hne]; [done|].
    rewrite !get_trace_lookup by done. simpl. by rewrite lookup_insert_ne.
Qed.

Lemma X19_add_trace_then_get_trace_witness :
  ∃ self',
    NumpyArrays.add_trace two_channels "em" [7; 8] = Ok self'
    ∧ NumpyArrays.get_trace self' "em" (Z.of_nat 0) = Ok (Some [7; 8])
    ∧ NumpyArrays._records_written self' = Z.of_nat 0 + 1
    ∧ (∀ i : nat, i ≠ 0%nat →
         NumpyArrays.get_trace self' "em" (Z.of_nat i)
         = NumpyArrays.get_trace two_channels "em" (Z.of_nat i))
    ∧ (∀ c' (i : nat), c' ≠ "em" →
         NumpyArrays.get_trace self' c' (Z.of_nat i)
         = NumpyArrays.get_trace two_channels c' (Z.of_nat i)).
Proof.
  apply (X19_add_trace_then_get_trace two_channels "em" [7; 8]
           [[0; 0]; [0; 0]] [0; 0] 0).
  - done.
  - reflexivity.
  - simpl. lia.
  - reflexivity.
  - reflexivity.
  - reflexivity.
Defined.

(** X20. How [add_trace] fails while records are left: a channel that
    was not registered is a [KeyError], a channel with no row at the
    write counter an [IndexError], and a row whose length is neither the
    length of the channel's rows nor one a [ValueError]. *)
Theorem X20_add_trace_errors (self : NumpyArrays.t) (c : string) (d : trace) (w : nat) :
  NumpyArrays._records_written self = Z.of_nat w →
  Z.of_nat w < NumpyArrays.number_of_traces self →
  (NumpyArrays._npy_mm self !! c = None →
     NumpyArrays.add_trace self c d = Raise KeyError)
  ∧ (∀ rows, NumpyArrays._npy_mm self !! c = Some rows → rows !! w = None →
       NumpyArrays.add_trace self c d = Raise IndexError)
  ∧ (∀ rows row, NumpyArrays._npy_mm self !! c = Some rows → rows !! w = Some row →
       length d ≠ length row → length d ≠ 1%nat →
       NumpyArrays.add_trace self c d = Raise ValueError).
Proof.
  intros Hw Hlt. unfold NumpyArrays.add_trace.
  replace (_ <=? _) with false by (symmetry; apply Z.leb_gt; lia).
  unfold NumpyArrays.get_traces, NumpyArrays.setitem, getitem. rewrite Hw.
  replace (Z.of_nat w <? 0) with false by (symmetry; apply Z.ltb_ge; lia).
  rewrite Nat2Z.id.
  split_and!.
  - by intros ->.
  - intros rows -> Hrow. simpl. rewrite Hrow.
    by replace (Z.of_nat w <? 0) with false by (symmetry; apply Z.ltb_ge; lia).
  - intros rows row -> Hrow Hlen H1. simpl. rewrite Hrow.
    replace (Z.of_nat w <? 0) with false by (symmetry; apply Z.ltb_ge; lia).
    simpl. unfold NumpyArrays.assign_row.
    rewrite bool_decide_eq_false_2 by done.
    by destruct d as [|x [|y d]].
Qed.

Lemma X20_add_trace_errors_witness :
  (NumpyArrays._npy_mm two_channels !! "plain" = None →
     NumpyArrays.add_trace two_channels "plain" [1; 2; 3] = Raise KeyError)
  ∧ (∀ rows, NumpyArrays._npy_mm two_channels !! "plain" = Some rows →
       rows !! 0%nat = None →
       NumpyArrays.add_trace two_channels "plain" [1; 2; 3] = Raise IndexError)
  ∧ (∀ rows row, NumpyArrays._npy_mm two_channels !! "plain" = Some rows →
       rows !! 0%nat = Some row →
       length [1; 2; 3] ≠ length row → length [1; 2; 3] ≠ 1%nat →
       NumpyArrays.add_trace two_channels "plain" [1; 2; 3] = Raise ValueError).
Proof.
  apply (X20_add_trace_errors two_channels "plain" [1; 2; 3] 0).
  - reflexivity.
  - simpl. lia.
Defined.

(** What the loop of [__init__] keeps: the row counts recorded so far
    are all the same, and every channel loaded has one of them. *)
Lemma load_files_invariant files npy_files :
  ∀ npy_mm n_of_t npy_mm' n_of_t',
    (∀ k k', k ∈ n_of_t → k' ∈ n_of_t → k = k') →
    (∀ c rows, npy_mm !! c = Some rows → len rows ∈ n_of_t) →
    NumpyArrays.load_files files npy_files npy_mm n_of_t = Ok (npy_mm', n_of_t') →
    (∀ k k', k ∈ n_of_t' → k' ∈ n_of_t' → k = k')
    ∧ (∀ c rows, npy_mm' !! c = Some rows → len rows ∈ n_of_t').
Proof.
  induction npy_files as [|[name filename] rest IH];
    intros m ns m' ns' Hsame Hrows Hrun; simpl in Hrun.
  - by inversion Hrun; subst.
  - destruct (files !! filename) as [f|]; [|by eapply IH].
    destruct (NumpyArrays.atleast_2d f) as [a|]; [|done].
    destruct (last ns) as [previous|] eqn:Hlast.
    + destruct (len a =? previous) eqn:Heq; [|done]. simpl in Hrun.
      apply Z.eqb_eq in Heq. apply last_Some_elem_of in Hlast.
      eapply IH; [| |exact Hrun].
      * intros k k'. rewrite !elem_of_app, !list_elem_of_singleton.
        intros [Hk| ->] [Hk'| ->]; try done.
        -- by apply Hsame.
        -- rewrite Heq. by apply Hsame.
        -- rewrite Heq. by apply Hsame.
      * intros c rows. rewrite elem_of_app, list_elem_of_singleton.
        destruct (decide (c = name)) as [->|Hne].
        -- rewrite lookup_insert_eq. intros [= <-]. by right.
        -- rewrite lookup_insert_ne by done. intros H. left. by eapply Hrows.
    + apply last_None in Hlast as ->. simpl in Hrun.
      eapply IH; [| |exact Hrun].
      * intros k k'. rewrite !list_elem_of_singleton. by intros -> ->.
      * intros c rows. rewrite list_elem_of_singleton.
        destruct (decide (c = name)) as [->|Hne].
        -- rewrite lookup_insert_eq. by intros [= <-].
        -- rewrite lookup_insert_ne by done. intros H.
           apply Hrows in H. by apply elem_of_nil in H.
Qed.

(** X21. A dataset [NumpyArrays(npy_files)] has opened holds channels
    that all have [number_of_traces] rows, and nothing has been written
    to it. *)
Theorem X21_init_channels_agree (files : gmap string NumpyArrays.npy_file)
    (npy_files : list (string * string)) (self : NumpyArrays.t) :
  NumpyArrays.__init__ files npy_files = Ok self →
  NumpyArrays._records_written self = 0
  ∧ ∀ c rows, NumpyArrays._npy_mm self !! c = Some rows →
              len rows = NumpyArrays.number_of_traces self.
Proof.
  unfold NumpyArrays.__init__. unfold_bind.
  destruct (NumpyArrays.load_files files npy_files ∅ []) as [[m ns]|] eqn:Hload;
    [|done].
  intros [= <-]. simpl. split; [done|].
  apply load_files_invariant in Hload as [Hsame Hrows].
  - intros c rows Hc. apply Hrows in Hc.
    destruct ns as [|k ns]; [by apply elem_of_nil in Hc|]. simpl.
    apply Hsame; [done|by left].
  - intros k k' Hk. by apply elem_of_nil in Hk.
  - intros c rows H. by rewrite lookup_empty in H.
Qed.

Lemma X21_init_channels_agree_witness :
  ∃ self,
    NumpyArrays.__init__
      {[ "em.npy" := NumpyArrays.Npy2 [[1; 2; 3]; [4; 5; 6]];
         "plain.npy" := NumpyArrays.Npy2 [[7]; [8]] ]}
      [("em", "em.npy"); ("power", "power.npy"); ("plain", "plain.npy")]
    = Ok self
    ∧ NumpyArrays._records_written self = 0
    ∧ ∀ c rows, NumpyArrays._npy_mm self !! c = Some rows →
                len rows = NumpyArrays.number_of_traces self.
Proof.
  eexists. split; [vm_compute; reflexivity|].
  apply (X21_init_channels_agree
           {[ "em.npy" := NumpyArrays.Npy2 [[1; 2; 3]; [4; 5; 6]];
              "plain.npy" := NumpyArrays.Npy2 [[7]; [8]] ]}
           [("em", "em.npy"); ("power", "power.npy"); ("plain", "plain.npy")]).
  vm_compute. reflexivity.
Defined.

(** ** A channel of the structured backend that records into a memory map *)

Section MemoryMap.

Context {ndarray : Type} (tobytes : ndarray → list Z).

(** X22. A channel prepared with the save method [MEMMAP] keeps the
    shape of its map whatever is added to it: the map holds [nrTraces]
    records of [length * itemsize] bytes each, and the number of records
    written exceeds neither [nrTraces] nor the number of calls. *)
Theorem X22_memmap_keeps_its_shape (nrTraces samples itemsize : Z)
    (calls : list (D15.py_data (ndarray := ndarray))) (self : D15.DataObject) :
  0 < nrTraces →
  0 < samples * itemsize →
  for_each (λ s d, D15.addTrace tobytes s d)
    (D15.prepareForRecord nrTraces samples itemsize D15.MEMMAP) calls = Ok self →
  len (D15.data self) = nrTraces
  ∧ Forall (λ record, len record = samples * itemsize) (D15.data self)
  ∧ 0 <= D15._recordsWritten self <= nrTraces
  ∧ D15._recordsWritten self <= len calls.
Proof.
  intros Hn HL Hrun.
  set (P := λ (k : Z) (s : D15.DataObject),
         D15.nrTraces s = nrTraces ∧ D15.length s = samples
         ∧ D15.itemsize s = itemsize ∧ D15._saveMethod s = D15.MEMMAP
         ∧ len (D15.data s) = nrTraces
         ∧ Forall (λ record, len record = samples * itemsize) (D15.data s)
         ∧ 0 <= D15._recordsWritten s <= nrTraces
         ∧ D15._recordsWritten s <= k).
  assert (∀ calls s0 k s1,
            P k s0 →
            for_each (λ s d, D15.addTrace tobytes s d) s0 calls = Ok s1 →
            P (k + len calls) s1) as Hloop.
  { clear Hrun calls. induction calls as [|d calls IH]; intros s0 k s1 H0 Hrun.
    - simpl in Hrun. injection Hrun as <-. unfold len. simpl.
      by rewrite Z.add_0_r.
    - simpl in Hrun. unfold_bind.
      destruct (D15.addTrace tobytes s0 d) as [s|] eqn:Hadd; [|done].
      replace (k + len (d :: calls)) with ((k + 1) + len calls)
        by (unfold len; simpl length; lia).
      apply (IH s); [|done].
      assert (∀ raw, P (k + 1) (D15._addTraceRaw s0 raw)) as Hraw.
      { intros raw. destruct H0 as (Hn0 & HL0 & Hi0 & Hm0 & Hlen & Hrows & Hw & Hk).
        unfold D15._addTraceRaw. rewrite HL0, Hi0, Hm0, Hn0.
        destruct (len raw =? samples * itemsize) eqn:Hraw; simpl.
        - destruct (nrTraces <=? D15._recordsWritten s0) eqn:Hfull; simpl.
          + unfold P. simpl. split_and!; try done; lia.
          + apply Z.leb_gt in Hfull. apply Z.eqb_eq in Hraw.
            unfold P. simpl. split_and!; try done; try lia.
            * unfold len in *. by rewrite length_insert.
            * apply Forall_insert; done.
        - unfold P. simpl. split_and!; try done; lia. }
      unfold D15.addTrace in Hadd.
      destruct (negb (D15._recording s0)).
      { injection Hadd as <-. destruct H0 as (? & ? & ? & ? & ? & ? & ? & ?).
        unfold P. simpl. split_and!; try done; lia. }
      destruct d as [b|l|a|].
      + injection Hadd as <-. apply Hraw.
      + unfold_bind. destruct (D15.bytearray l) as [b|]; [|done].
        injection Hadd as <-. apply Hraw.
      + injection Hadd as <-. apply Hraw.
      + injection Hadd as <-. destruct H0 as (? & ? & ? & ? & ? & ? & ? & ?).
        unfold P. simpl. split_and!; try done; lia. }
  apply (Hloop _ _ 0) in Hrun.
  - destruct Hrun as (_ & _ & _ & _ & Hlen & Hrows & Hw & Hk).
    split_and!; try done; lia.
  - unfold P. simpl. split_and!; try done; try lia.
    + unfold len. rewrite length_replicate. lia.
    + apply Forall_replicate. unfold len. rewrite length_replicate. lia.
Qed.

End MemoryMap.

Lemma X22_memmap_keeps_its_shape_witness :
  ∃ self,
    for_each (λ s d, D15.addTrace uint8_tobytes s d)
      (D15.prepareForRecord 2 3 1 D15.MEMMAP)
      [D15.PyNdarray [1; 2; 3]; D15.PyList [4; 5]; D15.PyBytes [6; 7; 8];
       D15.PyNdarray [9; 9; 9]] = Ok self
    ∧ len (D15.data self) = 2
    ∧ Forall (λ record, len record = 3 * 1) (D15.data self)
    ∧ 0 <= D15._recordsWritten self <= 2
    ∧ D15._recordsWritten self
      <= len [D15.PyNdarray [1; 2; 3]; D15.PyList [4; 5]; D15.PyBytes [6; 7; 8];
              D15.PyNdarray [9; 9; 9]].
Proof.
  eexists. split; [vm_compute; reflexivity|].
  apply (X22_memmap_keeps_its_shape uint8_tobytes 2 3 1
           [D15.PyNdarray [1; 2; 3]; D15.PyList [4; 5]; D15.PyBytes [6; 7; 8];
            D15.PyNdarray [9; 9; 9]]).
  - lia.
  - lia.
  - vm_compute. reflexivity.
Defined.

(** ** File sizes *)

Section FileSizes.

Variable int_of_true_division : Z → Z → Z.
Hypothesis exact : exact_on_integer_quotients int_of_true_division.

(** X23. The shape [DataObject.load] maps a complete channel file of
    at most 2^53 bytes with, against the size of the file, for a
    floating-point division that is exact on integer quotients of
    operands up to 2^53. The number of
    traces is kept and the length grows by the spare bytes per trace.
    When spare bytes were found, the map covers the file exactly for a
    one-byte element type, and is larger than the file for a wider one:
    the spare bytes are counted in bytes and added to a length counted
    in elements. *)
Theorem X23_load_shape_and_file_size (fileSize nrTraces samples itemsize n L : Z) :
  0 < nrTraces →
  0 < itemsize →
  0 <= samples →
  fileSize <= 2 ^ 53 →
  HelperFunctions.load_shape int_of_true_division fileSize nrTraces samples itemsize
  = HelperFunctions.Returns (n, L) →
  n = nrTraces
  ∧ samples <= L
  ∧ itemsize * nrTraces * samples <= fileSize
  ∧ (L = samples → itemsize * n * L <= fileSize)
  ∧ (L ≠ samples → itemsize = 1 → itemsize * n * L = fileSize)
  ∧ (L ≠ samples → 1 < itemsize → fileSize < itemsize * n * L).
Proof.
  intros Hn Hi Hs Hsmall.
  unfold HelperFunctions.load_shape, HelperFunctions.getSpareBytes.
  set (arraySize := itemsize * nrTraces * samples).
  assert (0 <= arraySize) as Harray by (unfold arraySize; nia).
  destruct (fileSize =? arraySize) eqn:Heq.
  { apply Z.eqb_eq in Heq. intros [= <- <-]. rewrite Z.add_0_r.
    split_and!; try done; try lia. }
  apply Z.eqb_neq in Heq.
  destruct (fileSize <? arraySize) eqn:Hlt; [done|]. apply Z.ltb_ge in Hlt.
  replace (nrTraces =? 0) with false by (symmetry; apply Z.eqb_neq; lia).
  destruct ((fileSize - arraySize) mod nrTraces =? 0) eqn:Hmod.
  - apply Z.eqb_eq in Hmod.
    assert (fileSize - arraySize
            = (fileSize - arraySize) / nrTraces * nrTraces) as Hdiv.
    { rewrite Z.mul_comm. apply Z.div_exact; [lia|done]. }
    set (spare := (fileSize - arraySize) / nrTraces) in *.
    assert (0 < spare) as Hspare by nia.
    rewrite (exact _ _ spare) by (try done; nia).
    intros [= <- <-].
    split_and!; [done|lia|lia|intros; lia| |intros _ Hwide; nia].
    intros _ Hone. subst itemsize. lia.
  - intros [= <- <-]. rewrite Z.add_0_r. split_and!; try done; try lia.
Qed.

(** X24. For a floating-point division that is exact on integer
    quotients of operands up to 2^53 and a file of at most 2^53 bytes
    whose size [checkFileSize] accepts, with a trace size that is not
    zero nor above 2^53,
    [getMaximumTracesInFile] returns the number of traces and
    [getSpareBytes] finds no spare byte. *)
Theorem X24_file_size_round_trip (fileSize nrTraces samples itemsize : Z) :
  0 <= nrTraces →
  0 < itemsize * samples <= 2 ^ 53 →
  fileSize <= 2 ^ 53 →
  HelperFunctions.checkFileSize fileSize nrTraces samples itemsize = true →
  HelperFunctions.getMaximumTracesInFile int_of_true_division fileSize samples itemsize
  = HelperFunctions.Returns nrTraces
  ∧ HelperFunctions.getSpareBytes int_of_true_division fileSize nrTraces samples itemsize
    = HelperFunctions.Returns 0.
Proof.
  intros Hn Hsize Hsmall Hcheck. unfold HelperFunctions.checkFileSize in Hcheck.
  apply Z.eqb_eq in Hcheck. subst fileSize. split.
  - unfold HelperFunctions.getMaximumTracesInFile.
    replace (itemsize * samples =? 0) with false by (symmetry; apply Z.eqb_neq; lia).
    f_equal. apply exact; [lia|lia|nia|lia].
  - unfold HelperFunctions.getSpareBytes. by rewrite Z.eqb_refl.
Qed.

End FileSizes.

(** Exact integer division is exact on integer quotients: the
    hypothesis of the two theorems can be met. *)
Lemma quot_exact_on_integer_quotients : exact_on_integer_quotients Z.quot.
Proof. intros a b q Hb -> _ _. by apply Z.quot_mul. Qed.

Lemma X23_load_shape_and_file_size_witness :
  10 = 10
  ∧ 4 <= 5
  ∧ 2 * 10 * 4 <= 90
  ∧ (5 = 4 → 2 * 10 * 5 <= 90)
  ∧ (5 ≠ 4 → 2 = 1 → 2 * 10 * 5 = 90)
  ∧ (5 ≠ 4 → 1 < 2 → 90 < 2 * 10 * 5).
Proof.
  apply (X23_load_shape_and_file_size Z.quot quot_exact_on_integer_quotients
           90 10 4 2 10 5).
  - lia.
  - lia.
  - lia.
  - lia.
  - vm_compute. reflexivity.
Defined.

Lemma X24_file_size_round_trip_witness :
  HelperFunctions.getMaximumTracesInFile Z.quot 80 4 2 = HelperFunctions.Returns 10
  ∧ HelperFunctions.getSpareBytes Z.quot 80 10 4 2 = HelperFunctions.Returns 0.
Proof.
  apply (X24_file_size_round_trip Z.quot quot_exact_on_integer_quotients 80 10 4 2).
  - lia.
  - lia.
  - lia.
  - reflexivity.
Defined.

(** ** [findMaximum] and [findMinimum] *)

Lemma arg_extreme_from_spec (findMax : bool) (l : list Z) :
  ∀ rest (i best : nat) bv,
    drop i l = rest → l !! best = Some bv → (best < i)%nat →
    (∀ j v, (j < i)%nat → l !! j = Some v → ¬ beats findMax v bv) →
    (∀ j v, (j < best)%nat → l !! j = Some v → beats findMax bv v) →
    ∃ (r : nat) rv,
      Dsp.arg_extreme_from (λ v b, if findMax then b <? v else v <? b) rest
        (Z.of_nat i) (Z.of_nat best) bv = Z.of_nat r
      ∧ l !! r = Some rv
      ∧ (∀ j v, l !! j = Some v → ¬ beats findMax v rv)
      ∧ (∀ j v, (j < r)%nat → l !! j = Some v → beats findMax rv v).
Proof.
  induction rest as [|x rest IH]; intros i best bv Hdrop Hbest Hlt Hmax Hfirst.
  - exists best, bv. simpl. split_and!; try done.
    intros j v Hj. apply (Hmax j); [|done].
    apply lookup_lt_Some in Hj.
    assert (length (drop i l) = 0%nat) as H0 by (by rewrite Hdrop).
    rewrite length_drop in H0. lia.
  - assert (l !! i = Some x) as Hi.
    { rewrite <- (Nat.add_0_r i), <- lookup_drop, Hdrop. done. }
    assert (drop (S i) l = rest) as Hdrop'.
    { replace (S i) with (i + 1)%nat by lia. by rewrite <- drop_drop, Hdrop. }
    simpl. replace (Z.of_nat i + 1) with (Z.of_nat (S i)) by lia.
    assert (beats findMax x bv
            ↔ (if findMax then bv <? x else x <? bv) = true) as Hb.
    { unfold beats. destruct findMax; symmetry; apply Z.ltb_lt. }
    destruct (if findMax then bv <? x else x <? bv) eqn:Hbetter.
    + assert (beats findMax x bv) as Hx by (by apply Hb).
      apply (IH (S i) i x); [done|done|lia| |].
      * intros j v Hj Hv. destruct (decide (j = i)) as [->|Hne].
        -- rewrite Hi in Hv. inversion Hv; subst. unfold beats. destruct findMax; lia.
        -- specialize (Hmax j v ltac:(lia) Hv). unfold beats in *.
           destruct findMax; lia.
      * intros j v Hj Hv. specialize (Hmax j v Hj Hv). unfold beats in *.
        destruct findMax; lia.
    + assert (¬ beats findMax x bv) as Hx by (rewrite Hb; congruence).
      apply (IH (S i) best bv); [done|done|lia| |done].
      intros j v Hj Hv. destruct (decide (j = i)) as [->|Hne].
      * rewrite Hi in Hv. by inversion Hv; subst.
      * apply (Hmax j); [lia|done].
Qed.

(** The position [arg_extreme] returns: the first occurrence of a value
    that no element beats. *)
Lemma arg_extreme_spec (findMax : bool) (l : list Z) :
  l ≠ [] →
  ∃ (r : nat) rv,
    Dsp.arg_extreme (λ v b, if findMax then b <? v else v <? b) l = Ok (Z.of_nat r)
    ∧ l !! r = Some rv
    ∧ (∀ j v, l !! j = Some v → ¬ beats findMax v rv)
    ∧ (∀ j v, (j < r)%nat → l !! j = Some v → beats findMax rv v).
Proof.
  destruct l as [|x rest]; [done|]. intros _.
  destruct (arg_extreme_from_spec findMax (x :: rest) rest 1 0 x)
    as (r & rv & Hr & Hrv & Hmax & Hfirst); try done; try lia.
  - intros [|j] v Hj Hv; [|lia]. inversion Hv; subst.
    unfold beats. destruct findMax; lia.
  - exists r, rv. simpl. by rewrite <- Hr.
Qed.

Lemma slice_lookup (tr : trace) (a b : Z) (j : nat) :
  0 <= a → a <= b <= len tr → (Z.of_nat j < b - a) →
  slice tr a b !! j = tr !! Z.to_nat (a + Z.of_nat j).
Proof.
  intros Ha Hb Hj. unfold slice, clip, len in *.
  replace (a <? 0) with false by (symmetry; apply Z.ltb_ge; lia).
  replace (b <? 0) with false by (symmetry; apply Z.ltb_ge; lia).
  rewrite !Z.min_l by lia.
  rewrite lookup_take_lt by lia. rewrite lookup_drop. f_equal. lia.
Qed.

Lemma slice_length (tr : trace) (a b : Z) :
  0 <= a → a <= b <= len tr → length (slice tr a b) = Z.to_nat (b - a).
Proof.
  intros Ha Hb. unfold slice, clip, len in *.
  replace (a <? 0) with false by (symmetry; apply Z.ltb_ge; lia).
  replace (b <? 0) with false by (symmetry; apply Z.ltb_ge; lia).
  rewrite !Z.min_l by lia. rewrite length_take, length_drop. lia.
Qed.

(** X25. On a range inside the trace that is not empty, [findMaximum]
    returns the position of the first occurrence of the largest sample
    of the range, with the sample, when it exceeds the threshold, and
    [None] when no sample of the range does. *)
Theorem X25_findMaximum (tr : trace) (range_start range_stop threshold : Z) :
  0 <= range_start < range_stop →
  range_stop <= len tr →
  ∃ r, Dsp.findMaximum tr range_start range_stop threshold = Ok r
       ∧ match r with
         | Some (pos, v) =>
             range_start <= pos < range_stop
             ∧ Dsp.at_ tr pos = v ∧ threshold < v
             ∧ (∀ j, range_start <= j < range_stop → Dsp.at_ tr j <= v)
             ∧ (∀ j, range_start <= j < pos → Dsp.at_ tr j < v)
         | None =>
             ∀ j, range_start <= j < range_stop → Dsp.at_ tr j <= threshold
         end.
Proof.
  intros Ha Hb. unfold Dsp.findMaximum.
  set (l := slice tr range_start range_stop).
  assert (length l = Z.to_nat (range_stop - range_start)) as Hlen
    by (apply slice_length; lia).
  assert (∀ j : nat, Z.of_nat j < range_stop - range_start →
                     l !! j = Some (Dsp.at_ tr (range_start + Z.of_nat j))) as Hl.
  { intros j Hj. unfold l. rewrite slice_lookup by lia. unfold Dsp.at_.
    destruct (lookup_lt_is_Some_2 tr (Z.to_nat (range_start + Z.of_nat j))) as [v Hv].
    - unfold len in Hb. lia.
    - by rewrite Hv. }
  destruct (arg_extreme_spec true l) as (r & rv & Hr & Hrv & Hmax & Hfirst).
  { intros Hnil. rewrite Hnil in Hlen. simpl in Hlen. lia. }
  change (λ v b : Z, if true then b <? v else v <? b)
    with (λ v best : Z, best <? v) in Hr.
  rewrite Hr. unfold_bind.
  assert (Z.of_nat r < range_stop - range_start) as Hrlt.
  { apply lookup_lt_Some in Hrv. lia. }
  assert (getitem l (Z.of_nat r) = Ok rv) as ->.
  { unfold getitem.
    replace (Z.of_nat r <? 0) with false by (symmetry; apply Z.ltb_ge; lia).
    replace (Z.of_nat r <? 0) with false by (symmetry; apply Z.ltb_ge; lia).
    by rewrite Nat2Z.id, Hrv. }
  rewrite Hl in Hrv by done. injection Hrv as Hrv.
  assert (∀ j, range_start <= j < range_stop → Dsp.at_ tr j <= rv) as Hall.
  { intros j Hj.
    specialize (Hmax (Z.to_nat (j - range_start)) (Dsp.at_ tr j)).
    rewrite Hl in Hmax by lia.
    replace (range_start + Z.of_nat (Z.to_nat (j - range_start))) with j in Hmax by lia.
    specialize (Hmax eq_refl). unfold beats in Hmax. lia. }
  eexists. split; [done|].
  destruct (threshold <? rv) eqn:Hthr.
  - apply Z.ltb_lt in Hthr. split_and!; [lia|lia| |done|done|].
    + by rewrite Z.add_comm.
    + intros j Hj.
      specialize (Hfirst (Z.to_nat (j - range_start)) (Dsp.at_ tr j) ltac:(lia)).
      rewrite Hl in Hfirst by lia.
      replace (range_start + Z.of_nat (Z.to_nat (j - range_start))) with j
        in Hfirst by lia.
      specialize (Hfirst eq_refl). unfold beats in Hfirst. lia.
  - apply Z.ltb_ge in Hthr. intros j Hj. specialize (Hall j Hj). lia.
Qed.

Lemma X25_findMaximum_witness :
  ∃ r, Dsp.findMaximum [9; 1; 7; 3; 7; 2; 8] 1 6 5 = Ok r
       ∧ match r with
         | Some (pos, v) =>
             1 <= pos < 6
             ∧ Dsp.at_ [9; 1; 7; 3; 7; 2; 8] pos = v ∧ 5 < v
             ∧ (∀ j, 1 <= j < 6 → Dsp.at_ [9; 1; 7; 3; 7; 2; 8] j <= v)
             ∧ (∀ j, 1 <= j < pos → Dsp.at_ [9; 1; 7; 3; 7; 2; 8] j < v)
         | None =>
             ∀ j, 1 <= j < 6 → Dsp.at_ [9; 1; 7; 3; 7; 2; 8] j <= 5
         end.
Proof.
  apply (X25_findMaximum [9; 1; 7; 3; 7; 2; 8] 1 6 5).
  - lia.
  - unfold len. simpl. lia.
Defined.

(** X26. On a range inside the trace that is not empty, [findMinimum]
    returns the position of the first occurrence of the smallest sample
    of the range, with the sample, when it is below the threshold, and
    [None] when no sample of the range is. *)
Theorem X26_findMinimum (tr : trace) (range_start range_stop threshold : Z) :
  0 <= range_start < range_stop →
  range_stop <= len tr →
  ∃ r, Dsp.findMinimum tr range_start range_stop threshold = Ok r
       ∧ match r with
         | Some (pos, v) =>
             range_start <= pos < range_stop
             ∧ Dsp.at_ tr pos = v ∧ v < threshold
             ∧ (∀ j, range_start <= j < range_stop → v <= Dsp.at_ tr j)
             ∧ (∀ j, range_start <= j < pos → v < Dsp.at_ tr j)
         | None =>
             ∀ j, range_start <= j < range_stop → threshold <= Dsp.at_ tr j
         end.
Proof.
  intros Ha Hb. unfold Dsp.findMinimum.
  set (l := slice tr range_start range_stop).
  assert (length l = Z.to_nat (range_stop - range_start)) as Hlen
    by (apply slice_length; lia).
  assert (∀ j : nat, Z.of_nat j < range_stop - range_start →
                     l !! j = Some (Dsp.at_ tr (range_start + Z.of_nat j))) as Hl.
  { intros j Hj. unfold l. rewrite slice_lookup by lia. unfold Dsp.at_.
    destruct (lookup_lt_is_Some_2 tr (Z.to_nat (range_start + Z.of_nat j))) as [v Hv].
    - unfold len in Hb. lia.
    - by rewrite Hv. }
  destruct (arg_extreme_spec false l) as (r & rv & Hr & Hrv & Hmin & Hfirst).
  { intros Hnil. rewrite Hnil in Hlen. simpl in Hlen. lia. }
  change (λ v b : Z, if false then b <? v else v <? b)
    with (λ v best : Z, v <? best) in Hr.
  rewrite Hr. unfold_bind.
  assert (Z.of_nat r < range_stop - range_start) as Hrlt.
  { apply lookup_lt_Some in Hrv. lia. }
  assert (getitem l (Z.of_nat r) = Ok rv) as ->.
  { unfold getitem.
    replace (Z.of_nat r <? 0) with false by (symmetry; apply Z.ltb_ge; lia).
    replace (Z.of_nat r <? 0) with false by (symmetry; apply Z.ltb_ge; lia).
    by rewrite Nat2Z.id, Hrv. }
  rewrite Hl in Hrv by done. injection Hrv as Hrv.
  assert (∀ j, range_start <= j < range_stop → rv <= Dsp.at_ tr j) as Hall.
  { intros j Hj.
    specialize (Hmin (Z.to_nat (j - range_start)) (Dsp.at_ tr j)).
    rewrite Hl in Hmin by lia.
    replace (range_start + Z.of_nat (Z.to_nat (j - range_start))) with j in Hmin by lia.
    specialize (Hmin eq_refl). unfold beats in Hmin. lia. }
  eexists. split; [done|].
  destruct (rv <? threshold) eqn:Hthr.
  - apply Z.ltb_lt in Hthr. split_and!; [lia|lia| |done|done|].
    + by rewrite Z.add_comm.
    + intros j Hj.
      specialize (Hfirst (Z.to_nat (j - range_start)) (Dsp.at_ tr j) ltac:(lia)).
      rewrite Hl in Hfirst by lia.
      replace (range_start + Z.of_nat (Z.to_nat (j - range_start))) with j
        in Hfirst by lia.
      specialize (Hfirst eq_refl). unfold beats in Hfirst. lia.
  - apply Z.ltb_ge in Hthr. intros j Hj. specialize (Hall j Hj). lia.
Qed.

Lemma X26_findMinimum_witness :
  ∃ r, Dsp.findMinimum [0; 9; 3; 7; 3; 8; 1] 1 6 5 = Ok r
       ∧ match r with
         | Some (pos, v) =>
             1 <= pos < 6
             ∧ Dsp.at_ [0; 9; 3; 7; 3; 8; 1] pos = v ∧ v < 5
             ∧ (∀ j, 1 <= j < 6 → v <= Dsp.at_ [0; 9; 3; 7; 3; 8; 1] j)
             ∧ (∀ j, 1 <= j < pos → v < Dsp.at_ [0; 9; 3; 7; 3; 8; 1] j)
         | None =>
             ∀ j, 1 <= j < 6 → 5 <= Dsp.at_ [0; 9; 3; 7; 3; 8; 1] j
         end.
Proof.
  apply (X26_findMinimum [0; 9; 3; 7; 3; 8; 1] 1 6 5).
  - lia.
  - unfold len. simpl. lia.
Defined.

(** ** The data channels of the output *)

Section Finalize.

Variable get_filter_by_name : string → option Filter.Filter.
Variable get_trigger_by_name : string → option Trigger.Trigger.

(** What [_finalize_new_traces] does for one channel. *)
Lemma reduce_channel_spec s c s' :
  reduce_channel s c = Ok s' →
  ∃ input new,
    NumpyArrays._npy_mm (trace_data s) !! c = Some input
    ∧ s' = set_new_trace_data s new
    ∧ NumpyArrays._npy_mm new !! c
      = Some (NumpyArrays.select_rows input (valid_traces_array s))
    ∧ (length (valid_traces_array s) ≤ length input)%nat
    ∧ ∀ c', c' ≠ c →
            NumpyArrays._npy_mm new !! c'
            = NumpyArrays._npy_mm (new_trace_data s) !! c'.
Proof.
  unfold reduce_channel. unfold_bind. intros H.
  destruct (fetch s c 0) as [first|]; [|done].
  destruct (NumpyArrays.register_data_file _ c _) as [new|] eqn:Hreg; [|done].
  unfold NumpyArrays.get_traces in H.
  destruct (NumpyArrays._npy_mm (trace_data s) !! c) as [input|] eqn:Hinput; [|done].
  unfold NumpyArrays.reduce_data_from_mask in H.
  destruct (len input <? len (valid_traces_array s)) eqn:Hlen; [done|].
  apply Z.ltb_ge in Hlen. injection H as <-.
  unfold NumpyArrays.register_data_file in Hreg.
  destruct (_ || _); [done|]. injection Hreg as <-.
  eexists input, _. split; [done|]. split; [done|]. simpl.
  split; [by rewrite lookup_insert_eq|]. split; [unfold len in Hlen; lia|].
  intros c' Hc'. by rewrite !lookup_insert_ne.
Qed.

(** X27. After [run], a data channel of the source ([plain] or [cipher])
    holds in the output the rows of the traces marked valid, in their
    order and no others, one row for every valid trace. *)
Theorem X27_run_keeps_data_of_valid_traces (self s' : BatchProcessingThread.t)
    (c : string) :
  c = "plain" ∨ c = "cipher" →
  NumpyArrays.has (trace_data self) c = true →
  run get_filter_by_name get_trigger_by_name self = Ok s' →
  ∃ input,
    NumpyArrays._npy_mm (trace_data self) !! c = Some input
    ∧ NumpyArrays._npy_mm (new_trace_data s') !! c
      = Some (NumpyArrays.select_rows input (valid_traces_array s'))
    ∧ len (NumpyArrays.select_rows input (valid_traces_array s'))
      = number_of_valid_traces s'.
Proof.
  intros Hc Hhas. unfold run. unfold_bind.
  destruct (scan _ _ self) as [s0|] eqn:Hscan; [|done].
  apply scan_frame in Hscan as (Htd0 & _).
  unfold cut_phase. unfold_bind.
  destruct (new_trace_length s0) as [L|]; [|done].
  set (s1 := set_new_trace_data s0 _).
  destruct (for_each (register_signal L) s1 (signal_types s1)) as [s2|] eqn:Hreg;
    [|done].
  apply register_signals in Hreg as (Htd2 & _ & Hv2 & _).
  destruct (cut_loop _ L s2) as [[s3 k]|] eqn:Hcut; [|done].
  apply cut_loop_keeps in Hcut as (Htd3 & _ & Hv3 & _).
  set (s4 := if negb _ then log s3 _ else s3).
  assert (trace_data s1 = trace_data s0) as Htd1 by done.
  assert (trace_data s4 = trace_data self) as Htd4.
  { unfold s4. destruct (negb _); simpl; congruence. }
  assert (valid_traces_array s4 = valid_traces_array s3) as Hv4.
  { unfold s4. by destruct (negb _). }
  clearbody s4. clear Htd0 Htd1 Htd2 Hv2 Htd3 Hv3 s1.
  unfold _finalize_new_traces, NumpyArrays.has_plain, NumpyArrays.has_cipher.
  rewrite Htd4.
  assert (∀ input mask,
            (length mask ≤ length input)%nat →
            len (NumpyArrays.select_rows input mask)
            = len (filter (λ b, b = true) mask)) as Hcount.
  { intros input mask Hle. unfold len. f_equal. by apply select_rows_length. }
  destruct Hc as [-> | ->]; rewrite ?Hhas.
  - destruct (NumpyArrays.has (trace_data self) "cipher"); simpl; unfold_bind.
    + destruct (reduce_channel s4 "plain") as [s5|] eqn:H5; [|done].
      destruct (reduce_channel s5 "cipher") as [s6|] eqn:H6; [|done].
      intros [= <-].
      apply reduce_channel_spec in H5 as (input & new5 & Hin & -> & Hrows & Hle & _).
      apply reduce_channel_spec in H6 as (input' & new6 & _ & -> & _ & _ & Hother).
      exists input. rewrite Htd4 in Hin. simpl in *.
      split; [done|]. split.
      * rewrite Hother by done. done.
      * by apply Hcount.
    + destruct (reduce_channel s4 "plain") as [s5|] eqn:H5; [|done].
      intros [= <-].
      apply reduce_channel_spec in H5 as (input & new5 & Hin & -> & Hrows & Hle & _).
      exists input. rewrite Htd4 in Hin. simpl in *.
      split; [done|]. split; [done|]. by apply Hcount.
  - destruct (NumpyArrays.has (trace_data self) "plain"); simpl; unfold_bind.
    + destruct (reduce_channel s4 "plain") as [s5|] eqn:H5; [|done].
      destruct (reduce_channel s5 "cipher") as [s6|] eqn:H6; [|done].
      intros [= <-].
      apply reduce_channel_spec in H5 as (input' & new5 & _ & -> & _ & _ & _).
      apply reduce_channel_spec in H6 as (input & new6 & Hin & -> & Hrows & Hle & _).
      exists input. simpl in *. rewrite Htd4 in Hin.
      split; [done|]. split; [done|]. by apply Hcount.
    + destruct (reduce_channel s4 "cipher") as [s5|] eqn:H5; [|done].
      intros [= <-].
      apply reduce_channel_spec in H5 as (input & new5 & Hin & -> & Hrows & Hle & _).
      exists input. rewrite Htd4 in Hin. simpl in *.
      split; [done|]. split; [done|]. by apply Hcount.
Qed.

End Finalize.

Lemma X27_run_keeps_data_of_valid_traces_witness :
  ∃ s', run shipped_filters shipped_triggers em_and_plain = Ok s'
        ∧ ∃ input,
            NumpyArrays._npy_mm (trace_data em_and_plain) !! "plain" = Some input
            ∧ NumpyArrays._npy_mm (new_trace_data s') !! "plain"
              = Some (NumpyArrays.select_rows input (valid_traces_array s'))
            ∧ len (NumpyArrays.select_rows input (valid_traces_array s'))
              = number_of_valid_traces s'.
Proof.
  eexists. split; [vm_compute; reflexivity|].
  apply (X27_run_keeps_data_of_valid_traces shipped_filters shipped_triggers
           em_and_plain _ "plain").
  - by left.
  - vm_compute. reflexivity.
  - vm_compute. reflexivity.
Defined.

Example em_and_plain_output :
  (s ← run shipped_filters shipped_triggers em_and_plain;
   Ok (valid_traces_array s,
       NumpyArrays._npy_mm (new_trace_data s) !! "plain",
       NumpyArrays._npy_mm (new_trace_data s) !! "em"))
  = Ok ([false; true], Some [[20]], Some [[5; 6]]).
Proof. vm_compute. reflexivity. Qed.

(** ** Plugin names *)

(** Every trigger variant is found under its own name. *)
Lemma get_trigger_by_name_found (t : Trigger.variant) :
  Trigger.get_trigger_by_name (Trigger.get_trigger_name t)
  = Some (Trigger.process_data t).
Proof. by destruct t. Qed.

Lemma get_trigger_by_name_unknown (name : string) :
  (∀ t, name ≠ Trigger.get_trigger_name t) →
  Trigger.get_trigger_by_name name = None.
Proof.
  intros Hname. unfold Trigger.get_trigger_by_name, Trigger.variants. simpl.
  repeat match goal with
         | |- context [String.eqb name ?s] =>
             let H := fresh in
             destruct (String.eqb name s) eqn:H;
               [apply String.eqb_eq in H|]
         end; try done.
  - by destruct (Hname Trigger.rising_edge_trigger).
  - by destruct (Hname Trigger.falling_edge_trigger).
  - by destruct (Hname Trigger.first_peak_trigger).
  - by destruct (Hname Trigger.last_peak_filter).
  - by destruct (Hname Trigger.threshold_trigger).
  - by destruct (Hname Trigger.hold_off).
Qed.

(** X28. A trigger chain whose first entry names no trigger of
    [align/trigger] ends the batch run with an [AttributeError] at the
    first trace: the loader returns [None] for the name, and calling
    [process_data] on it is not caught. *)
Theorem X28_unknown_trigger_aborts_run
    (get_filter_by_name : string → option Filter.Filter)
    (self : BatchProcessingThread.t) (name : string) (p : params)
    (rest : list (string * params)) (raw : trace) (md : option bool) (buf : trace) :
  (0 < trace_count self)%nat →
  trigger_dict self = (name, p) :: rest →
  (∀ t, name ≠ Trigger.get_trigger_name t) →
  fetch self (tracetype self) 0 = Ok raw →
  filter_stage get_filter_by_name self raw = Ok (md, buf) →
  run get_filter_by_name Trigger.get_trigger_by_name self = Raise AttributeError.
Proof.
  intros Hn Htd Hname Hraw Hf. apply run_aborts_at_first_trace; [done|].
  unfold run_filters_and_triggers. rewrite Hraw. simpl. rewrite Hf. simpl.
  unfold trigger_stage, _run_triggers. rewrite Htd.
  rewrite run_triggers_from_cons. unfold trigger_process_data.
  by rewrite get_trigger_by_name_unknown.
Qed.

Lemma X28_unknown_trigger_aborts_run_witness :
  run shipped_filters Trigger.get_trigger_by_name misspelled_trigger
  = Raise AttributeError.
Proof.
  apply (X28_unknown_trigger_aborts_run shipped_filters misspelled_trigger
           "rising_edge" (dict [("threshold", VInt 1)]) [] [1; 2; 3] None [1; 2; 3]).
  - vm_compute. lia.
  - reflexivity.
  - intros t. by destruct t.
  - vm_compute. reflexivity.
  - vm_compute. reflexivity.
Defined.

(** ** Reducing a channel in the structured backend *)

Section Reduce.

Variable tobytes : trace → list Z.

Lemma reduce_rows_directwrite (input_data : list trace) :
  ∀ (trace_mask : list bool) (iTrace : nat) (ch : D15.DataObject),
    D15._saveMethod ch = D15.DIRECTWRITE →
    Forall (λ row, len (tobytes row) = D15.length ch * D15.itemsize ch) input_data →
    (length trace_mask ≤ length (drop iTrace input_data))%nat →
    ∃ ch',
      D15.reduce_rows tobytes ch input_data iTrace trace_mask = Ok ch'
      ∧ D15.data ch'
        = D15.data ch
          ++ (tobytes <$> NumpyArrays.select_rows (drop iTrace input_data) trace_mask)
      ∧ D15._recordsWritten ch'
        = D15._recordsWritten ch
          + len (NumpyArrays.select_rows (drop iTrace input_data) trace_mask)
      ∧ D15.printed ch' = D15.printed ch.
Proof.
  induction trace_mask as [|b mask IH]; intros i ch Hmode Hrows Hlen.
  - exists ch. simpl. split; [done|].
    replace (NumpyArrays.select_rows (drop i input_data) []) with (@nil trace)
      by (by destruct (drop i input_data)).
    unfold len. simpl. rewrite app_nil_r. split_and!; [done|lia|done].
  - simpl in Hlen.
    destruct (input_data !! i) as [row|] eqn:Hrow.
    2:{ apply lookup_ge_None in Hrow. rewrite length_drop in Hlen. lia. }
    rewrite (drop_S _ _ _ Hrow) in *. simpl in Hlen. simpl.
    rewrite Hrow. destruct b.
    + assert (D15._addTraceRaw ch (tobytes row)
              = D15.written ch (D15.data ch ++ [tobytes row])) as ->.
      { unfold D15._addTraceRaw. rewrite Hmode.
        rewrite Forall_lookup in Hrows. rewrite (Hrows i row Hrow).
        by rewrite Z.eqb_refl. }
      destruct (IH (S i) (D15.written ch (D15.data ch ++ [tobytes row])))
        as (ch' & Hrun & Hdata & Hcount & Hprinted); [done|done|lia|].
      exists ch'. split; [done|]. simpl in *.
      rewrite Hdata, Hcount, Hprinted, <- app_assoc.
      split_and!; [done| |done]. unfold len. simpl length. lia.
    + destruct (IH (S i) ch) as (ch' & Hrun & Hdata & Hcount & Hprinted);
        [done|done|lia|].
      by exists ch'.
Qed.

(** X29. The structured backend reduces a channel to the rows the array
    backend keeps: for a channel that records with [DIRECTWRITE], an
    input whose rows have the registered size and a mask that is not
    longer than the input, [reduce_data_from_mask] appends to the channel
    file the rows of the input whose mask entry is true, in their order,
    counts them, and prints no warning. *)
Theorem X29_structured_backend_reduces_alike (self : D15.D15TraceData)
    (trace_type : string) (ch : D15.DataObject) (input_data : list trace)
    (trace_mask : list bool) :
  D15.channels self !! trace_type = Some ch →
  D15._saveMethod ch = D15.DIRECTWRITE →
  Forall (λ row, len (tobytes row) = D15.length ch * D15.itemsize ch) input_data →
  len trace_mask <= len input_data →
  ∃ self' ch',
    D15.reduce_data_from_mask tobytes self trace_type input_data trace_mask = Ok self'
    ∧ D15.channels self' !! trace_type = Some ch'
    ∧ D15.data ch'
      = D15.data ch ++ (tobytes <$> NumpyArrays.select_rows input_data trace_mask)
    ∧ D15._recordsWritten ch'
      = D15._recordsWritten ch + len (NumpyArrays.select_rows input_data trace_mask)
    ∧ D15.printed ch' = D15.printed ch.
Proof.
  intros Hch Hmode Hrows Hlen. unfold D15.reduce_data_from_mask. rewrite Hch.
  destruct (reduce_rows_directwrite input_data trace_mask 0 ch)
    as (ch' & Hrun & Hdata & Hcount & Hprinted); [done|done| |].
  { rewrite drop_0. unfold len in Hlen. lia. }
  rewrite drop_0 in *. rewrite Hrun. unfold_bind.
  eexists _, ch'. split; [done|]. simpl. by rewrite lookup_insert_eq.
Qed.

End Reduce.

Lemma X29_structured_backend_reduces_alike_witness :
  ∃ self' ch',
    D15.reduce_data_from_mask uint8_tobytes (d15_channel 2 1 "plain") "plain"
      [[10]; [20]; [30]] [false; true] = Ok self'
    ∧ D15.channels self' !! "plain" = Some ch'
    ∧ D15.data ch' = [] ++ (uint8_tobytes <$> NumpyArrays.select_rows [[10]; [20]; [30]] [false; true])
    ∧ D15._recordsWritten ch'
      = 0 + len (NumpyArrays.select_rows [[10]; [20]; [30]] [false; true])
    ∧ D15.printed ch' = [].
Proof.
  apply (X29_structured_backend_reduces_alike uint8_tobytes (d15_channel 2 1 "plain")
           "plain" (D15.prepareForRecord 2 1 1 D15.DIRECTWRITE)
           [[10]; [20]; [30]] [false; true]).
  - reflexivity.
  - reflexivity.
  - repeat constructor.
  - unfold len. simpl. lia.
Defined.
